(** * Vector Pong: the physics core of [main.py], embedded over the reals

    The Python program computes with [float] (and with [int] literals that
    Python promotes to [float] as soon as they meet one).  The embedding
    reads every number as a real number: [math.sqrt], [math.cos] and
    [math.sin] are the functions [sqrt], [cos] and [sin] of the Standard
    Library, [math.radians d] is [d * (PI / 180)].  Rounding, overflow and
    NaN are outside this model; where a statement of exact equality has to
    be tested against rounding, the module [Binary64] below repeats the
    arithmetic of the method on binary64 floats.

    Python raises [ZeroDivisionError] on [a / b] when [b == 0]; division is
    therefore a partial operation and every function that divides lives in
    the error monad [result].

    Methods that mutate [self] take the object and return its new value;
    the calls to [random] in [Ball.reset] become parameters standing for the
    values drawn. *)

From Stdlib Require Import Reals Lra Lia ZArith List String Bool.
From Stdlib Require Import Ascii DecimalString.
From Stdlib Require Floats.
Import ListNotations.

Local Open Scope R_scope.

(** ** Exceptions *)

Inductive exn : Type :=
| ZeroDivisionError.

Inductive result (A : Type) : Type :=
| Ok (a : A)
| Raise (e : exn).

Arguments Ok {A} a.
Arguments Raise {A} e.

Definition bind {A B : Type} (m : result A) (k : A -> result B) : result B :=
  match m with
  | Ok a => k a
  | Raise e => Raise e
  end.

Notation "x <- m ;; k" := (bind m (fun x => k))
  (at level 61, m at next level, right associativity).

(** ** Python arithmetic on floats, read over the reals *)

(** [a / b] *)
Definition py_div (a b : R) : result R :=
  if Req_dec_T b 0 then Raise ZeroDivisionError else Ok (a / b).

(** [min(a, b)]: Python keeps the first argument unless the second is
    strictly smaller. *)
Definition py_min (a b : R) : R :=
  if Rlt_dec b a then b else a.

(** [max(a, b)]: Python keeps the first argument unless the second is
    strictly larger. *)
Definition py_max (a b : R) : R :=
  if Rlt_dec a b then b else a.

(** [math.radians(d)] *)
Definition radians (d : R) : R := d * (PI / 180).

(** ** Constants *)

Definition WINDOW_WIDTH : R := 1080.
Definition WINDOW_HEIGHT : R := 720.
Definition MAX_BOUNCE_ANGLE : R := radians 60.

(** ** class Vector2D *)

Module Vector2D.

Record t : Type := mk { x : R; y : R }.

(** [__add__] *)
Definition add (self other : t) : t :=
  mk (x self + x other) (y self + y other).

(** [__sub__] *)
Definition sub (self other : t) : t :=
  mk (x self - x other) (y self - y other).

(** [__mul__] *)
Definition mul (self : t) (scalar : R) : t :=
  mk (x self * scalar) (y self * scalar).

(** [__truediv__] *)
Definition truediv (self : t) (scalar : R) : result t :=
  x' <- py_div (x self) scalar ;;
  y' <- py_div (y self) scalar ;;
  Ok (mk x' y').

Definition dot (self other : t) : R :=
  x self * x other + y self * y other.

(** [math.sqrt(self.x**2 + self.y**2)]; the argument of [math.sqrt] is a sum
    of squares, so its domain error cannot arise. *)
Definition magnitude (self : t) : R :=
  sqrt (x self ^ 2 + y self ^ 2).

Definition normalize (self : t) : result t :=
  let mag := magnitude self in
  if Req_dec_T mag 0 then Ok (mk 0 0)
  else
    x' <- py_div (x self) mag ;;
    y' <- py_div (y self) mag ;;
    Ok (mk x' y').

Definition set_magnitude (self : t) (new_mag : R) : result t :=
  normalized <- normalize self ;;
  Ok (mul normalized new_mag).

Definition reflect (self normal : t) : result t :=
  normal_normalized <- normalize normal ;;
  let dot_product := dot self normal_normalized in
  let reflection := sub self (mul normal_normalized (2 * dot_product)) in
  Ok reflection.

(** Setters for the in-place updates [v.x = a], [v.y = a]. *)
Definition set_x (self : t) (a : R) : t := mk a (y self).
Definition set_y (self : t) (a : R) : t := mk (x self) a.

End Vector2D.

(** ** class Paddle *)

Module Paddle.

Record t : Type := mk {
  position : Vector2D.t;
  width : R;
  height : R;
  velocity : Vector2D.t;
  speed : R
}.

(** [Paddle(x, y, width=15, height=100)] *)
Definition init (x y width height : R) : t :=
  mk (Vector2D.mk x y) width height (Vector2D.mk 0 0) 400.

Definition default_width : R := 15.
Definition default_height : R := 100.

(** [move(direction, dt, speed_multiplier)]; [direction] is the integer the
    caller passes ([-1] or [1] from [handle_input]). *)
Definition move (self : t) (direction : Z) (dt speed_multiplier : R) : t :=
  let velocity := Vector2D.mk 0 (IZR direction * speed self * speed_multiplier) in
  let position := Vector2D.add (position self) (Vector2D.mul velocity dt) in
  let position :=
    if Rlt_dec (Vector2D.y position) 0 then
      Vector2D.set_y position 0
    else if Rlt_dec WINDOW_HEIGHT (Vector2D.y position + height self) then
      Vector2D.set_y position (WINDOW_HEIGHT - height self)
    else position in
  mk position (width self) (height self) velocity (speed self).

(** [get_normal(ball_pos)] *)
Definition get_normal (self : t) (ball_pos : Vector2D.t) : Vector2D.t :=
  let paddle_center :=
    Vector2D.mk (Vector2D.x (position self) + width self / 2)
                (Vector2D.y (position self) + height self / 2) in
  let to_ball := Vector2D.sub ball_pos paddle_center in
  if Rlt_dec 0 (Vector2D.x to_ball) then Vector2D.mk 1 0
  else Vector2D.mk (-1) 0.

End Paddle.

(** ** class Ball *)

Module Ball.

Record t : Type := mk {
  position : Vector2D.t;
  velocity : Vector2D.t;
  radius : R;
  base_speed : R;
  speed_multiplier : R;
  acceleration_enabled : bool;
  acceleration_factor : R
}.

(** [Ball(x, y, radius=8)] *)
Definition init (x y radius : R) : t :=
  mk (Vector2D.mk x y) (Vector2D.mk 0 0) radius 400 1 true (105 / 100).

Definition default_radius : R := 8.

Definition set_position (self : t) (p : Vector2D.t) : t :=
  mk p (velocity self) (radius self) (base_speed self) (speed_multiplier self)
     (acceleration_enabled self) (acceleration_factor self).

Definition set_velocity (self : t) (v : Vector2D.t) : t :=
  mk (position self) v (radius self) (base_speed self) (speed_multiplier self)
     (acceleration_enabled self) (acceleration_factor self).

Definition set_speed_multiplier (self : t) (m : R) : t :=
  mk (position self) (velocity self) (radius self) (base_speed self) m
     (acceleration_enabled self) (acceleration_factor self).

Definition set_acceleration_enabled (self : t) (e : bool) : t :=
  mk (position self) (velocity self) (radius self) (base_speed self)
     (speed_multiplier self) e (acceleration_factor self).

(** The local variables of [reflect_from_paddle], in the order the method
    computes them. *)
Definition normalized_offset (self : t) (paddle : Paddle.t) : result R :=
  let paddle_center_y :=
    Vector2D.y (Paddle.position paddle) + Paddle.height paddle / 2 in
  let offset := Vector2D.y (position self) - paddle_center_y in
  normalized_offset <- py_div offset (Paddle.height paddle / 2) ;;
  Ok (py_max (-1) (py_min 1 normalized_offset)).

Definition bounce_direction (self : t) : R :=
  if Rlt_dec (Vector2D.x (velocity self)) 0 then 1 else -1.

Definition bounce_speed (self : t) : R :=
  let speed := Vector2D.magnitude (velocity self) in
  if acceleration_enabled self then speed * acceleration_factor self else speed.

Definition reflect_from_paddle (self : t) (paddle : Paddle.t) : result t :=
  normalized_offset <- normalized_offset self paddle ;;
  let bounce_angle := normalized_offset * MAX_BOUNCE_ANGLE in
  let direction := bounce_direction self in
  let speed := bounce_speed self in
  Ok (set_velocity self
        (Vector2D.mk (cos bounce_angle * speed * direction)
                     (sin bounce_angle * speed))).

(** [reset(x, y)]; [angle] is the value drawn by
    [random.uniform(-math.pi/4, math.pi/4)] and [direction] the one drawn by
    [random.choice([-1, 1])]. *)
Definition reset (self : t) (x y : R) (angle : R) (direction : Z) : t :=
  let self := set_position self (Vector2D.mk x y) in
  set_velocity self
    (Vector2D.mk (cos angle * IZR direction * base_speed self)
                 (sin angle * base_speed self)).

Definition update (self : t) (dt speed_multiplier : R) : t :=
  let self := set_speed_multiplier self speed_multiplier in
  set_position self
    (Vector2D.add (position self)
       (Vector2D.mul (Vector2D.mul (velocity self) dt) speed_multiplier)).

(** The closest point of the paddle's rectangle and the distance of the
    ball's center from it, as [check_paddle_collision] computes them. *)
Definition closest_point (self : t) (paddle : Paddle.t) : Vector2D.t :=
  let closest_x :=
    py_max (Vector2D.x (Paddle.position paddle))
      (py_min (Vector2D.x (position self))
         (Vector2D.x (Paddle.position paddle) + Paddle.width paddle)) in
  let closest_y :=
    py_max (Vector2D.y (Paddle.position paddle))
      (py_min (Vector2D.y (position self))
         (Vector2D.y (Paddle.position paddle) + Paddle.height paddle)) in
  Vector2D.mk closest_x closest_y.

Definition distance (self : t) (paddle : Paddle.t) : R :=
  let distance_vec := Vector2D.sub (position self) (closest_point self paddle) in
  Vector2D.magnitude distance_vec.

(** Returns the ball after the call together with the method's return
    value. *)
Definition check_paddle_collision (self : t) (paddle : Paddle.t)
  : result (t * bool) :=
  let distance := distance self paddle in
  if Rle_dec distance (radius self) then
    self <- reflect_from_paddle self paddle ;;
    let overlap := radius self - distance in
    let self :=
      if Rlt_dec 0 overlap then
        let push_x := if Rlt_dec 0 (Vector2D.x (velocity self)) then 1 else -1 in
        set_position self
          (Vector2D.set_x (position self)
             (Vector2D.x (position self) + push_x * overlap))
      else self in
    Ok (self, true)
  else Ok (self, false).

Definition check_wall_collision (self : t) : result (t * bool) :=
  if Rle_dec (Vector2D.y (position self) - radius self) 0 then
    let normal := Vector2D.mk 0 1 in
    velocity' <- Vector2D.reflect (velocity self) normal ;;
    let self := set_velocity self velocity' in
    let self := set_position self (Vector2D.set_y (position self) (radius self)) in
    Ok (self, true)
  else if Rle_dec WINDOW_HEIGHT (Vector2D.y (position self) + radius self) then
    let normal := Vector2D.mk 0 (-1) in
    velocity' <- Vector2D.reflect (velocity self) normal ;;
    let self := set_velocity self velocity' in
    let self :=
      set_position self
        (Vector2D.set_y (position self) (WINDOW_HEIGHT - radius self)) in
    Ok (self, true)
  else Ok (self, false).

(** Returns the ball after the call together with the method's return
    value: ['right'], ['left'] or [None]. *)
Definition check_score (self : t) : t * option string :=
  if Rle_dec (Vector2D.x (position self) - radius self) 0 then
    (self, Some "right"%string)
  else if Rle_dec WINDOW_WIDTH (Vector2D.x (position self) + radius self) then
    (self, Some "left"%string)
  else (self, None).

End Ball.

(** ** class Game: the fields and methods of the frame update *)

Module Game.

Inductive State : Type := menu | playing | paused | postgame.

(** One entry of [PlayerLog.logs]: the two names and the two scores that
    [add_log] formats into a line. *)
Definition LogEntry : Type := (string * string * Z * Z)%type.

Record t : Type := mk {
  state : State;
  left_paddle : Paddle.t;
  right_paddle : Paddle.t;
  ball : Ball.t;
  left_score : Z;
  right_score : Z;
  winning_score : Z;
  player1_name : string;
  player2_name : string;
  player_log : list LogEntry;
  game_speed_slider : R;
  paddle_speed_slider : R;
  ball_speed_slider : R;
  acceleration_toggle : bool
}.

Definition set_state (self : t) (s : State) : t :=
  mk s (left_paddle self) (right_paddle self) (ball self) (left_score self)
     (right_score self) (winning_score self) (player1_name self)
     (player2_name self) (player_log self) (game_speed_slider self)
     (paddle_speed_slider self) (ball_speed_slider self)
     (acceleration_toggle self).

Definition set_left_paddle (self : t) (p : Paddle.t) : t :=
  mk (state self) p (right_paddle self) (ball self) (left_score self)
     (right_score self) (winning_score self) (player1_name self)
     (player2_name self) (player_log self) (game_speed_slider self)
     (paddle_speed_slider self) (ball_speed_slider self)
     (acceleration_toggle self).

Definition set_right_paddle (self : t) (p : Paddle.t) : t :=
  mk (state self) (left_paddle self) p (ball self) (left_score self)
     (right_score self) (winning_score self) (player1_name self)
     (player2_name self) (player_log self) (game_speed_slider self)
     (paddle_speed_slider self) (ball_speed_slider self)
     (acceleration_toggle self).

Definition set_ball (self : t) (b : Ball.t) : t :=
  mk (state self) (left_paddle self) (right_paddle self) b (left_score self)
     (right_score self) (winning_score self) (player1_name self)
     (player2_name self) (player_log self) (game_speed_slider self)
     (paddle_speed_slider self) (ball_speed_slider self)
     (acceleration_toggle self).

Definition set_left_score (self : t) (n : Z) : t :=
  mk (state self) (left_paddle self) (right_paddle self) (ball self) n
     (right_score self) (winning_score self) (player1_name self)
     (player2_name self) (player_log self) (game_speed_slider self)
     (paddle_speed_slider self) (ball_speed_slider self)
     (acceleration_toggle self).

Definition set_right_score (self : t) (n : Z) : t :=
  mk (state self) (left_paddle self) (right_paddle self) (ball self)
     (left_score self) n (winning_score self) (player1_name self)
     (player2_name self) (player_log self) (game_speed_slider self)
     (paddle_speed_slider self) (ball_speed_slider self)
     (acceleration_toggle self).

(** [self.player_log.add_log(...)]: the entry is appended to [logs]; the
    write to the log file is not modelled. *)
Definition add_log (self : t) : t :=
  mk (state self) (left_paddle self) (right_paddle self) (ball self)
     (left_score self) (right_score self) (winning_score self)
     (player1_name self) (player2_name self)
     (player_log self ++
        [(player1_name self, player2_name self, left_score self, right_score self)])
     (game_speed_slider self) (paddle_speed_slider self)
     (ball_speed_slider self) (acceleration_toggle self).

(** The paddles every round starts with: [Paddle(50, WINDOW_HEIGHT//2 - 50)]
    and [Paddle(WINDOW_WIDTH - 65, WINDOW_HEIGHT//2 - 50)]; the window sizes
    are even, so [//2] is exact. *)
Definition start_left_paddle : Paddle.t :=
  Paddle.init 50 (WINDOW_HEIGHT / 2 - 50) Paddle.default_width Paddle.default_height.

Definition start_right_paddle : Paddle.t :=
  Paddle.init (WINDOW_WIDTH - 65) (WINDOW_HEIGHT / 2 - 50)
    Paddle.default_width Paddle.default_height.

(** [Game()], as far as the frame update reads it; [logs] is what
    [PlayerLog] loaded from its file.  The sliders start at [1.0], the
    acceleration toggle at [True]. *)
Definition init (logs : list LogEntry) : t :=
  mk menu start_left_paddle start_right_paddle
     (Ball.init (WINDOW_WIDTH / 2) (WINDOW_HEIGHT / 2) Ball.default_radius)
     0 0 5 EmptyString EmptyString logs 1 1 1 true.

(** [reset_round()]; [angle] and [direction] are the values [Ball.reset]
    draws. *)
Definition reset_round (self : t) (angle : R) (direction : Z) : t :=
  let self := set_left_paddle self start_left_paddle in
  let self := set_right_paddle self start_right_paddle in
  set_ball self
    (Ball.reset (ball self) (WINDOW_WIDTH / 2) (WINDOW_HEIGHT / 2) angle direction).

(** [reset_game()] *)
Definition reset_game (self : t) (angle : R) (direction : Z) : t :=
  let self := set_left_score self 0%Z in
  let self := set_right_score self 0%Z in
  reset_round self angle direction.

(** The keys [handle_input] reads. *)
Record Keys : Type := mkKeys {
  K_w : bool; K_s : bool; K_UP : bool; K_DOWN : bool
}.

Definition handle_input (self : t) (keys : Keys) (dt : R) : t :=
  let paddle_speed_mult := paddle_speed_slider self in
  let self :=
    if K_w keys then
      set_left_paddle self (Paddle.move (left_paddle self) (-1) dt paddle_speed_mult)
    else if K_s keys then
      set_left_paddle self (Paddle.move (left_paddle self) 1 dt paddle_speed_mult)
    else self in
  if K_UP keys then
    set_right_paddle self (Paddle.move (right_paddle self) (-1) dt paddle_speed_mult)
  else if K_DOWN keys then
    set_right_paddle self (Paddle.move (right_paddle self) 1 dt paddle_speed_mult)
  else self.

(** The three calls under [# Check collisions] in [update]; their return
    values are discarded there and kept here for the statements below. *)
Definition check_collisions (ball : Ball.t) (left right : Paddle.t)
  : result (Ball.t * (bool * bool * bool)) :=
  r1 <- Ball.check_paddle_collision ball left ;;
  r2 <- Ball.check_paddle_collision (fst r1) right ;;
  r3 <- Ball.check_wall_collision (fst r2) ;;
  Ok (fst r3, (snd r1, snd r2, snd r3)).

(** [update(dt)]; [angle] and [direction] are the values a [reset_round]
    in this frame draws. *)
Definition update (self : t) (dt : R) (angle : R) (direction : Z) : result t :=
  match state self with
  | playing =>
      let effective_dt := dt * game_speed_slider self in
      let ball := Ball.set_acceleration_enabled (ball self) (acceleration_toggle self) in
      let ball := Ball.update ball effective_dt (ball_speed_slider self) in
      r <- check_collisions ball (left_paddle self) (right_paddle self) ;;
      let (ball, scorer) := Ball.check_score (fst r) in
      let self := set_ball self ball in
      match scorer with
      | Some "left"%string =>
          let self := set_left_score self (left_score self + 1)%Z in
          let self := reset_round self angle direction in
          if (winning_score self <=? left_score self)%Z then
            Ok (add_log (set_state self postgame))
          else Ok self
      | Some "right"%string =>
          let self := set_right_score self (right_score self + 1)%Z in
          let self := reset_round self angle direction in
          if (winning_score self <=? right_score self)%Z then
            Ok (add_log (set_state self postgame))
          else Ok self
      | _ => Ok self
      end
  | _ => Ok self
  end.

End Game.

(** ** Python lists and strings *)

(** [l[start:]] for a Python list: a negative [start] counts from the end,
    and an index outside the list is brought to its nearest end. *)
Definition py_slice_from {A : Type} (l : list A) (start : Z) : list A :=
  let n := Z.of_nat (List.length l) in
  let s := if (start <? 0)%Z then Z.max (start + n) 0 else Z.min start n in
  skipn (Z.to_nat s) l.

(** [str(n)] for a Python [int]. *)
Definition py_str_int (n : Z) : string := NilZero.string_of_int (Z.to_int n).

(** [s[:-1]] for a Python string; an element of a Rocq string stands for
    one character. *)
Fixpoint py_drop_last (s : string) : string :=
  match s with
  | EmptyString => EmptyString
  | String c EmptyString => EmptyString
  | String c s' => String c (py_drop_last s')
  end.

(** ** class PlayerLog: the list of log lines; the log file is not
    modelled ([add_log] ignores every failure to write it). *)

Module PlayerLog.

Record t : Type := mk { logs : list string }.

Definition log_entry (player1_name player2_name : string)
  (left_score right_score : Z) : string :=
  (player1_name ++ " vs " ++ player2_name ++ ": "
   ++ py_str_int left_score ++ "-" ++ py_str_int right_score)%string.

Definition add_log (self : t) (player1_name player2_name : string)
  (left_score right_score : Z) : t :=
  mk (logs self ++ [log_entry player1_name player2_name left_score right_score]).

(** [get_recent_logs(count)] *)
Definition get_recent_logs (self : t) (count : Z) : list string :=
  if (0 <? Z.of_nat (List.length (logs self)))%Z
  then py_slice_from (logs self) (- count)
  else [].

End PlayerLog.

(** ** pygame.Rect, as far as the menus use it: integer coordinates, and
    [collidepoint], for which pygame counts the left and top edges as
    inside and the right and bottom edges as outside. *)

Module Rect.

Record t : Type := mk { x : Z; y : Z; width : Z; height : Z }.

Definition collidepoint (self : t) (point : Z * Z) : bool :=
  ((x self <=? fst point) && (fst point <? x self + width self)
   && (y self <=? snd point) && (snd point <? y self + height self))%Z.

End Rect.

(** ** class Button *)

Module Button.

Record t : Type := mk { rect : Rect.t; hovered : bool }.

Definition init (x y width height : Z) : t :=
  mk (Rect.mk x y width height) false.

Definition check_hover (self : t) (mouse_pos : Z * Z) : t * bool :=
  let hovered := Rect.collidepoint (rect self) mouse_pos in
  (mk (rect self) hovered, hovered).

Definition is_clicked (self : t) (mouse_pos : Z * Z) (mouse_clicked : bool) : bool :=
  hovered self && mouse_clicked.

End Button.

(** ** class Slider *)

Module Slider.

Record t : Type := mk {
  rect : Rect.t;
  min_val : R;
  max_val : R;
  value : R;
  dragging : bool;
  handle_radius : Z;
  handle_x : R
}.

Definition set_value (self : t) (v : R) : t :=
  mk (rect self) (min_val self) (max_val self) v (dragging self)
     (handle_radius self) (handle_x self).

Definition set_dragging (self : t) (d : bool) : t :=
  mk (rect self) (min_val self) (max_val self) (value self) d
     (handle_radius self) (handle_x self).

Definition set_handle_x (self : t) (h : R) : t :=
  mk (rect self) (min_val self) (max_val self) (value self) (dragging self)
     (handle_radius self) h.

Definition update_handle_pos (self : t) : result t :=
  ratio <- py_div (value self - min_val self) (max_val self - min_val self) ;;
  Ok (set_handle_x self
        (IZR (Rect.x (rect self)) + ratio * IZR (Rect.width (rect self)))).

(** [Slider(x, y, width, min_val, max_val, initial_val, label)]; [handle_x]
    exists only once [update_handle_pos] has set it. *)
Definition init (x y width : Z) (min_val max_val initial_val : R) : result t :=
  update_handle_pos (mk (Rect.mk x y width 20) min_val max_val initial_val false 10 0).

Inductive EventType : Type :=
| MOUSEBUTTONDOWN | MOUSEBUTTONUP | MOUSEMOTION | OTHER.

(** [handle_event(event)]; [mouse_pos] is what [pygame.mouse.get_pos()]
    returns and [on_handle] what [handle_rect.collidepoint(mouse_pos)]
    answers for the rectangle pygame builds around the handle. *)
Definition handle_event (self : t) (event : EventType) (mouse_pos : Z * Z)
  (on_handle : bool) : result t :=
  match event with
  | MOUSEBUTTONDOWN =>
      if on_handle then Ok (set_dragging self true) else Ok self
  | MOUSEBUTTONUP => Ok (set_dragging self false)
  | MOUSEMOTION =>
      if dragging self then
        let mouse_x := fst mouse_pos in
        let mouse_x :=
          Z.max (Rect.x (rect self))
            (Z.min mouse_x (Rect.x (rect self) + Rect.width (rect self))) in
        ratio <- py_div (IZR (mouse_x - Rect.x (rect self)))
                   (IZR (Rect.width (rect self))) ;;
        let self :=
          set_value self (min_val self + ratio * (max_val self - min_val self)) in
        update_handle_pos self
      else Ok self
  | OTHER => Ok self
  end.

End Slider.

(** ** class StartMenu *)

Module StartMenu.

Record t : Type := mk {
  player1_name : string;
  player2_name : string;
  input1_active : bool;
  input2_active : bool;
  input1_rect : Rect.t;
  input2_rect : Rect.t;
  start_button : Button.t;
  settings_button : Button.t;
  exit_button : Button.t;
  show_settings : bool;
  selected_style : string;
  classic_button : Button.t;
  Neon_button : Button.t;
  back_button : Button.t
}.

(** [StartMenu(screen)]; [WINDOW_WIDTH//2] is 540. *)
Definition init : t :=
  mk EmptyString EmptyString false false
     (Rect.mk (540 - 150) 220 300 50) (Rect.mk (540 - 150) 310 300 50)
     (Button.init (540 - 100) 380 200 60) (Button.init (540 - 100) 460 200 60)
     (Button.init (540 - 100) 540 200 60)
     false "classic"
     (Button.init (540 - 220) 300 180 50) (Button.init (540 + 40) 300 180 50)
     (Button.init (540 - 100) 450 200 60).

Definition set_player1_name (self : t) (s : string) : t :=
  mk s (player2_name self) (input1_active self) (input2_active self)
     (input1_rect self) (input2_rect self) (start_button self)
     (settings_button self) (exit_button self) (show_settings self)
     (selected_style self) (classic_button self) (Neon_button self)
     (back_button self).

Definition set_player2_name (self : t) (s : string) : t :=
  mk (player1_name self) s (input1_active self) (input2_active self)
     (input1_rect self) (input2_rect self) (start_button self)
     (settings_button self) (exit_button self) (show_settings self)
     (selected_style self) (classic_button self) (Neon_button self)
     (back_button self).

Definition set_inputs_active (self : t) (a1 a2 : bool) : t :=
  mk (player1_name self) (player2_name self) a1 a2
     (input1_rect self) (input2_rect self) (start_button self)
     (settings_button self) (exit_button self) (show_settings self)
     (selected_style self) (classic_button self) (Neon_button self)
     (back_button self).

Definition set_show_settings (self : t) (s : bool) : t :=
  mk (player1_name self) (player2_name self) (input1_active self)
     (input2_active self) (input1_rect self) (input2_rect self)
     (start_button self) (settings_button self) (exit_button self) s
     (selected_style self) (classic_button self) (Neon_button self)
     (back_button self).

Definition set_selected_style (self : t) (s : string) : t :=
  mk (player1_name self) (player2_name self) (input1_active self)
     (input2_active self) (input1_rect self) (input2_rect self)
     (start_button self) (settings_button self) (exit_button self)
     (show_settings self) s (classic_button self) (Neon_button self)
     (back_button self).

Inductive Key : Type := K_BACKSPACE | K_RETURN | K_TAB | K_OTHER.

(** A pygame event, as far as [handle_event] reads it: its type and, for
    [KEYDOWN], [event.key], [event.unicode] and the answer of
    [event.unicode.isprintable()]. *)
Inductive Event : Type :=
| MOUSEBUTTONDOWN
| KEYDOWN (key : Key) (unicode : string) (isprintable : bool)
| OTHER.

Definition names_given (self : t) : bool :=
  ((0 <? String.length (player1_name self))
   && (0 <? String.length (player2_name self)))%nat.

(** [handle_event(event)]; [mouse_pos] is what [pygame.mouse.get_pos()]
    returns.  The result is the menu after the call and the value
    returned: ['start'], ['exit'] or [None]. *)
Definition handle_event (self : t) (event : Event) (mouse_pos : Z * Z)
  : t * option string :=
  if show_settings self then
    match event with
    | MOUSEBUTTONDOWN =>
        if Button.is_clicked (classic_button self) mouse_pos true then
          (set_selected_style self "classic", None)
        else if Button.is_clicked (Neon_button self) mouse_pos true then
          (set_selected_style self "Neon", None)
        else if Button.is_clicked (back_button self) mouse_pos true then
          (set_show_settings self false, None)
        else (self, None)
    | _ => (self, None)
    end
  else
    match event with
    | MOUSEBUTTONDOWN =>
        let self :=
          set_inputs_active self
            (Rect.collidepoint (input1_rect self) mouse_pos)
            (Rect.collidepoint (input2_rect self) mouse_pos) in
        if Button.is_clicked (start_button self) mouse_pos true then
          if names_given self then (self, Some "start"%string) else (self, None)
        else if Button.is_clicked (settings_button self) mouse_pos true then
          (set_show_settings self true, None)
        else if Button.is_clicked (exit_button self) mouse_pos true then
          (self, Some "exit"%string)
        else (self, None)
    | KEYDOWN key unicode isprintable =>
        if input1_active self then
          match key with
          | K_BACKSPACE =>
              (set_player1_name self (py_drop_last (player1_name self)), None)
          | K_RETURN | K_TAB => (set_inputs_active self false true, None)
          | K_OTHER =>
              if (String.length (player1_name self) <? 15)%nat && isprintable
              then (set_player1_name self (player1_name self ++ unicode), None)
              else (self, None)
          end
        else if input2_active self then
          match key with
          | K_BACKSPACE =>
              (set_player2_name self (py_drop_last (player2_name self)), None)
          | K_RETURN =>
              if names_given self then (self, Some "start"%string)
              else (self, None)
          | K_TAB | K_OTHER =>
              if (String.length (player2_name self) <? 15)%nat && isprintable
              then (set_player2_name self (player2_name self ++ unicode), None)
              else (self, None)
          end
        else (self, None)
    | OTHER => (self, None)
    end.

End StartMenu.

(** ** The binary64 reading of the two velocity formulas

    [Ball.reset] and [Ball.reflect_from_paddle] on IEEE 754 binary64, the
    [float] of CPython: [+], [-], [*], [/] and [math.sqrt] are the correctly
    rounded operations, [x**2] is the rounded square, an [int] operand is
    converted exactly.  [math.cos] and [math.sin] are the C library's and
    enter as a parameter. *)

Module Binary64.

Import PrimFloat.
Local Open Scope float_scope.

Record Libm : Type := mkLibm { cos : float -> float; sin : float -> float }.

(** [math.pi] and [math.radians(d)], which CPython computes as
    [d * (math.pi / 180.0)]. *)
Definition pi : float := 0x1.921fb54442d18p+1.
Definition radians (d : float) : float := d * (pi / 180).
Definition MAX_BOUNCE_ANGLE : float := radians 60.

(** [min(a, b)] and [max(a, b)] *)
Definition py_min (a b : float) : float := if b <? a then b else a.
Definition py_max (a b : float) : float := if a <? b then b else a.

(** [Vector2D.magnitude] *)
Definition magnitude (v : float * float) : float :=
  sqrt (fst v * fst v + snd v * snd v).


(** The velocity [Ball.reflect_from_paddle] assigns; [None] stands for
    [ZeroDivisionError]. *)
Definition reflect_velocity (m : Libm) (position_y : float)
  (velocity : float * float) (acceleration_enabled : bool)
  (acceleration_factor : float) (paddle_y paddle_height : float)
  : option (float * float) :=
  let paddle_center_y := paddle_y + paddle_height / 2 in
  let offset := position_y - paddle_center_y in
  if paddle_height / 2 =? 0 then None
  else
    let normalized_offset := offset / (paddle_height / 2) in
    let normalized_offset := py_max (-1) (py_min 1 normalized_offset) in
    let bounce_angle := normalized_offset * MAX_BOUNCE_ANGLE in
    let direction := if fst velocity <? 0 then 1 else -1 in
    let speed := magnitude velocity in
    let speed :=
      if acceleration_enabled then speed * acceleration_factor else speed in
    Some (cos m bounce_angle * speed * direction, sin m bounce_angle * speed).

(** The values the C library returns at the three angles used below:
    [math.pi / 4], and the bounce angles of a ball 40 below and 34 above the
    center of a paddle of height 100. *)
Definition libm : Libm :=
  mkLibm
    (fun a =>
       if a =? 0x1.921fb54442d18p-1 then 0x1.6a09e667f3bcdp-1
       else if a =? 0x1.acee9f37bebd5p-1 then 0x1.5698496e20bd8p-1
       else if a =? -0x1.6c97a0ef6220fp-1 then 0x1.8394db1e8417cp-1
       else nan)
    (fun a =>
       if a =? 0x1.921fb54442d18p-1 then 0x1.6a09e667f3bccp-1
       else if a =? 0x1.acee9f37bebd5p-1 then 0x1.7c7d7a833bec1p-1
       else if a =? -0x1.6c97a0ef6220fp-1 then -0x1.4e8d253957136p-1
       else nan).

(** The constants of [Ball.__init__] and the start paddle. *)
Definition base_speed : float := 400.
Definition acceleration_factor : float := 0x1.0cccccccccccdp+0.
Definition paddle_y : float := 310.
Definition paddle_height : float := 100.


(** The floats next below 400 and 420: 399.99999999999994 and
    419.99999999999994. *)
Definition below_400 : float := 0x1.8ffffffffffffp+8.
Definition below_420 : float := 0x1.a3fffffffffffp+8.


(** Two bounces of a ball with velocity [(-400, 0)] off the start paddle:
    at [y = 400] with acceleration enabled, at [y = 326] with acceleration
    disabled.  The speed before the bounce is 400 in both. *)
Definition incoming_velocity : float * float := (-400, 0).

Definition bounced_accelerated : option (float * float) :=
  reflect_velocity libm 400 incoming_velocity true acceleration_factor
    paddle_y paddle_height.

Definition bounced_plain : option (float * float) :=
  reflect_velocity libm 326 incoming_velocity false acceleration_factor
    paddle_y paddle_height.

(** What they return: (281.03485467072045, 312.1208267005055) and
    (302.79802226070257, -261.36824159604214). *)
Definition bounced_accelerated_value : option (float * float) :=
  Some (0x1.1908ec3c56db7p+8, 0x1.381eee7fa727ap+8).

Definition bounced_plain_value : option (float * float) :=
  Some (0x1.2ecc4b2fd7329p+8, -0x1.055e4514cc072p+8).

(** [400 * 1.05] *)
Definition accelerated_speed : float := 420.

(** The speed of a velocity the method returned, [inf] for
    [ZeroDivisionError]. *)
Definition speed_of (v : option (float * float)) : float :=
  match v with
  | Some v => magnitude v
  | None => infinity
  end.

End Binary64.

(** * Vocabulary of the statements *)

(** [v] makes an angle of at most [theta] with the horizontal axis
    ([0 <= theta < PI / 2]): its slope is at most [tan theta] in absolute
    value. *)
Definition within_angle (theta : R) (v : Vector2D.t) : Prop :=
  Rabs (Vector2D.y v) <= tan theta * Rabs (Vector2D.x v).

(** [clamp lo hi a]: [a] brought into [[lo, hi]]. *)
Definition clamp (lo hi a : R) : R := Rmax lo (Rmin a hi).

(** The bounce angle of the paddle model: the vertical offset of the ball
    from the paddle's center, divided by half the paddle's height, clamped
    to [[-1, 1]] and scaled to 60 degrees. *)
Definition bounce_angle (b : Ball.t) (p : Paddle.t) : R :=
  clamp (-1) 1
    ((Vector2D.y (Ball.position b)
      - (Vector2D.y (Paddle.position p) + Paddle.height p / 2))
     / (Paddle.height p / 2))
  * (PI / 3).

(** The velocity a bounce of [b] off [p] produces. *)
Definition bounce_velocity (b : Ball.t) (p : Paddle.t) : Vector2D.t :=
  Vector2D.mk
    (cos (bounce_angle b p) * Ball.bounce_speed b * Ball.bounce_direction b)
    (sin (bounce_angle b p) * Ball.bounce_speed b).

(** A tie-break in favour of the left paddle: when the ball is within reach
    of both paddles, the left paddle bounces it and the right one does
    not. *)
Definition left_tie_break (b : Ball.t) (l r : Paddle.t) : Prop :=
  Ball.distance b l <= Ball.radius b ->
  Ball.distance b r <= Ball.radius b ->
  exists (b' : Ball.t) (wall : bool),
    Game.check_collisions b l r = Ok (b', (true, false, wall)).

(** The ball [update] hands to the collision checks. *)
Definition advanced_ball (g : Game.t) (dt : R) : Ball.t :=
  Ball.update
    (Ball.set_acceleration_enabled (Game.ball g) (Game.acceleration_toggle g))
    (dt * Game.game_speed_slider g) (Game.ball_speed_slider g).

(** A ball between two paddles that stand closer together than the ball is
    wide: the left paddle of the game and a second paddle 10 to its right. *)
Definition crowded_ball : Ball.t :=
  Ball.set_velocity (Ball.init 70 360 8) (Vector2D.mk (-400) 0).

Definition crowded_right_paddle : Paddle.t :=
  Paddle.init 75 310 Paddle.default_width Paddle.default_height.

(** A paddle that lies within the board vertically. *)
Definition on_board (p : Paddle.t) : Prop :=
  0 <= Vector2D.y (Paddle.position p) <= WINDOW_HEIGHT - Paddle.height p.

(** The game after the frame in which a player scored, given the ball the
    collision checks left: the score is counted, the round reset, and the
    match ended and logged once the winning score is reached. *)
Definition scored (g : Game.t) (b3 : Ball.t) (angle : R) (direction : Z)
  (left_player : bool) : Game.t :=
  let g := Game.set_ball g b3 in
  let g :=
    if left_player then Game.set_left_score g (Game.left_score g + 1)%Z
    else Game.set_right_score g (Game.right_score g + 1)%Z in
  let g := Game.reset_round g angle direction in
  if (Game.winning_score g
      <=? (if left_player then Game.left_score g else Game.right_score g))%Z
  then Game.add_log (Game.set_state g Game.postgame)
  else g.

(** The shape every game reachable from [Game()] has: the paddles of the
    default size in their two columns and on the board, the ball of the
    default radius with the constants [Ball.__init__] gives it. *)
Definition well_formed (g : Game.t) : Prop :=
  Vector2D.x (Paddle.position (Game.left_paddle g)) = 50 /\
  Vector2D.x (Paddle.position (Game.right_paddle g)) = WINDOW_WIDTH - 65 /\
  Paddle.width (Game.left_paddle g) = 15 /\
  Paddle.width (Game.right_paddle g) = 15 /\
  Paddle.height (Game.left_paddle g) = 100 /\
  Paddle.height (Game.right_paddle g) = 100 /\
  on_board (Game.left_paddle g) /\
  on_board (Game.right_paddle g) /\
  Ball.radius (Game.ball g) = 8 /\
  Ball.base_speed (Game.ball g) = 400 /\
  Ball.acceleration_factor (Game.ball g) = 105 / 100.

(** A game in play whose ball has reached the left edge of the board. *)
Definition edge_game : Game.t :=
  Game.set_ball (Game.set_state (Game.init []) Game.playing)
    (Ball.set_velocity (Ball.init 5 360 Ball.default_radius)
       (Vector2D.mk (-400) 0)).

(** The game right after [Game()] once play has started. *)
Definition fresh_game : Game.t := Game.set_state (Game.init []) Game.playing.


Definition wall_game : Game.t :=
  Game.set_ball fresh_game
    (Ball.set_velocity (Ball.init 540 5 Ball.default_radius)
       (Vector2D.mk 300 (-200))).

(** The closed rectangle a paddle occupies. *)
Definition in_rect (p : Paddle.t) (q : Vector2D.t) : Prop :=
  Vector2D.x (Paddle.position p) <= Vector2D.x q
    <= Vector2D.x (Paddle.position p) + Paddle.width p /\
  Vector2D.y (Paddle.position p) <= Vector2D.y q
    <= Vector2D.y (Paddle.position p) + Paddle.height p.

(** A corner of the paddle's rectangle, and the unit steps that lead
    diagonally away from the rectangle at that corner. *)
Definition corner (p : Paddle.t) (right bottom : bool) : Vector2D.t :=
  Vector2D.mk
    (if right then Vector2D.x (Paddle.position p) + Paddle.width p
     else Vector2D.x (Paddle.position p))
    (if bottom then Vector2D.y (Paddle.position p) + Paddle.height p
     else Vector2D.y (Paddle.position p)).

Definition outward (side : bool) : R := if side then 1 else -1.

(** Consecutive paddle hits: [reflect_from_paddle] on each paddle of the
    list in turn. *)
Fixpoint bounces (b : Ball.t) (ps : list Paddle.t) : result Ball.t :=
  match ps with
  | [] => Ok b
  | p :: ps' => b' <- Ball.reflect_from_paddle b p ;; bounces b' ps'
  end.

(** The ball after a wall bounce: vertical velocity inverted, horizontal
    velocity and [position.x] untouched, [position.y] put on the boundary. *)
Definition wall_bounced (b : Ball.t) (boundary_y : R) : Ball.t :=
  Ball.mk (Vector2D.mk (Vector2D.x (Ball.position b)) boundary_y)
          (Vector2D.mk (Vector2D.x (Ball.velocity b)) (- Vector2D.y (Ball.velocity b)))
          (Ball.radius b) (Ball.base_speed b) (Ball.speed_multiplier b)
          (Ball.acceleration_enabled b) (Ball.acceleration_factor b).

(** * Tactics *)

Ltac unfold_advanced_ball :=
  unfold advanced_ball, edge_game, fresh_game, Game.init, Ball.update, Ball.init,
    Ball.default_radius;
  cbn [Game.set_ball Game.set_state Game.ball Game.acceleration_toggle
         Game.game_speed_slider Game.ball_speed_slider
         Game.left_paddle Game.right_paddle
         Ball.set_acceleration_enabled Ball.set_velocity
         Ball.set_speed_multiplier Ball.set_position Ball.position
         Ball.velocity Ball.radius];
  unfold Vector2D.add, Vector2D.mul, Game.start_left_paddle,
    Game.start_right_paddle, Paddle.init, Paddle.default_width,
    Paddle.default_height, WINDOW_WIDTH, WINDOW_HEIGHT;
  cbn [Vector2D.x Vector2D.y Paddle.position Paddle.width Paddle.height].


Ltac start_menu_cases :=
  unfold StartMenu.handle_event, StartMenu.names_given, Button.is_clicked;
  repeat match goal with
         | |- context [match ?e with StartMenu.MOUSEBUTTONDOWN => _
                                   | StartMenu.KEYDOWN _ _ _ => _
                                   | StartMenu.OTHER => _ end] => destruct e
         | |- context [match ?k with StartMenu.K_BACKSPACE => _
                                   | StartMenu.K_RETURN => _
                                   | StartMenu.K_TAB => _
                                   | StartMenu.K_OTHER => _ end] => destruct k
         | |- context [if ?c then _ else _] => destruct c eqn:?
         end;
  cbn [fst snd StartMenu.set_player1_name StartMenu.set_player2_name
         StartMenu.set_inputs_active StartMenu.set_show_settings
         StartMenu.set_selected_style StartMenu.player1_name
         StartMenu.player2_name StartMenu.show_settings
         StartMenu.input1_active StartMenu.input2_active] in *.


(** * Properties *)

(** ** Elementary facts *)

Lemma py_min_Rmin (a b : R) : py_min a b = Rmin a b.
Proof.
  unfold py_min, Rmin.
  destruct (Rlt_dec b a), (Rle_dec a b); lra.
Qed.

Lemma py_max_Rmax (a b : R) : py_max a b = Rmax a b.
Proof.
  unfold py_max, Rmax.
  destruct (Rlt_dec a b), (Rle_dec a b); lra.
Qed.

Lemma py_div_Ok (a b : R) : b <> 0 -> py_div a b = Ok (a / b).
Proof.
  intros Hb. unfold py_div.
  destruct (Req_dec_T b 0); [contradiction | reflexivity].
Qed.

Lemma py_div_zero (a : R) : py_div a 0 = Raise ZeroDivisionError.
Proof.
  unfold py_div.
  destruct (Req_dec_T 0 0); [reflexivity | contradiction].
Qed.

Lemma sum_sq_nonneg (a b : R) : 0 <= a ^ 2 + b ^ 2.
Proof. nra. Qed.

Lemma magnitude_nonneg (v : Vector2D.t) : 0 <= Vector2D.magnitude v.
Proof. apply sqrt_pos. Qed.

Lemma magnitude_zero_iff (v : Vector2D.t) :
  Vector2D.magnitude v = 0 <-> v = Vector2D.mk 0 0.
Proof.
  destruct v as [a b]. unfold Vector2D.magnitude. cbn [Vector2D.x Vector2D.y].
  split.
  - intros H. apply sqrt_eq_0 in H; [| apply sum_sq_nonneg].
    assert (a = 0) by nra. assert (b = 0) by nra. subst. reflexivity.
  - intros H. injection H as -> ->.
    replace (0 ^ 2 + 0 ^ 2) with 0 by ring. apply sqrt_0.
Qed.

(** ** Vector2D.normalize and Vector2D.reflect *)

Lemma normalize_zero :
  Vector2D.normalize (Vector2D.mk 0 0) = Ok (Vector2D.mk 0 0).
Proof.
  unfold Vector2D.normalize.
  destruct (Req_dec_T (Vector2D.magnitude (Vector2D.mk 0 0)) 0) as [E | E].
  - reflexivity.
  - exfalso. apply E. apply magnitude_zero_iff. reflexivity.
Qed.

Lemma normalize_nonzero (v : Vector2D.t) :
  Vector2D.magnitude v <> 0 ->
  Vector2D.normalize v =
    Ok (Vector2D.mk (Vector2D.x v / Vector2D.magnitude v)
                    (Vector2D.y v / Vector2D.magnitude v)).
Proof.
  intros E. unfold Vector2D.normalize.
  destruct (Req_dec_T (Vector2D.magnitude v) 0) as [E0 | _]; [contradiction |].
  rewrite !py_div_Ok by exact E. reflexivity.
Qed.

Lemma normalize_total (v : Vector2D.t) :
  exists u : Vector2D.t, Vector2D.normalize v = Ok u.
Proof.
  destruct (Req_dec_T (Vector2D.magnitude v) 0) as [E | E].
  - apply magnitude_zero_iff in E. subst v. eexists. apply normalize_zero.
  - eexists. apply normalize_nonzero. exact E.
Qed.

(** C8. [normalize] never raises: on the zero vector it returns the zero
    vector, and on every other vector [v] it returns [v] divided by its
    magnitude, which is also what [v / v.magnitude()] evaluates to. *)
Theorem normalize_total_and_unit :
  Vector2D.normalize (Vector2D.mk 0 0) = Ok (Vector2D.mk 0 0) /\
  (forall v : Vector2D.t, exists u : Vector2D.t, Vector2D.normalize v = Ok u) /\
  (forall v : Vector2D.t,
      v <> Vector2D.mk 0 0 ->
      Vector2D.normalize v =
        Ok (Vector2D.mk (Vector2D.x v / Vector2D.magnitude v)
                        (Vector2D.y v / Vector2D.magnitude v)) /\
      Vector2D.normalize v = Vector2D.truediv v (Vector2D.magnitude v)).
Proof.
  split; [apply normalize_zero | split; [apply normalize_total |]].
  intros v Hv.
  assert (E : Vector2D.magnitude v <> 0).
  { intros E. apply magnitude_zero_iff in E. contradiction. }
  split; [apply normalize_nonzero; exact E |].
  rewrite (normalize_nonzero v E). unfold Vector2D.truediv.
  rewrite !py_div_Ok by exact E. reflexivity.
Qed.

Lemma normalize_total_and_unit_witness :
  Vector2D.mk 3 4 <> Vector2D.mk 0 0 /\
  Vector2D.normalize (Vector2D.mk 3 4) =
    Ok (Vector2D.mk (3 / Vector2D.magnitude (Vector2D.mk 3 4))
                    (4 / Vector2D.magnitude (Vector2D.mk 3 4))).
Proof.
  assert (H : Vector2D.mk 3 4 <> Vector2D.mk 0 0).
  { intros E. injection E as E3 E4. lra. }
  split; [exact H |].
  exact (proj1 (proj2 (proj2 normalize_total_and_unit) (Vector2D.mk 3 4) H)).
Defined.

Lemma magnitude_unit_y (s : R) :
  s = 1 \/ s = -1 -> Vector2D.magnitude (Vector2D.mk 0 s) = 1.
Proof.
  intros Hs. unfold Vector2D.magnitude. cbn [Vector2D.x Vector2D.y].
  replace (0 ^ 2 + s ^ 2) with 1 by (destruct Hs; subst; ring).
  apply sqrt_1.
Qed.

(** Reflection across an axis-aligned unit normal [(0, s)], [s = 1] or
    [s = -1], flips the vertical component. *)
Lemma reflect_axis_y (v : Vector2D.t) (s : R) :
  s = 1 \/ s = -1 ->
  Vector2D.reflect v (Vector2D.mk 0 s) =
    Ok (Vector2D.mk (Vector2D.x v) (- Vector2D.y v)).
Proof.
  intros Hs. unfold Vector2D.reflect.
  rewrite normalize_nonzero; rewrite (magnitude_unit_y s Hs); [| lra].
  cbn [bind Vector2D.x Vector2D.y].
  unfold Vector2D.sub, Vector2D.mul, Vector2D.dot. cbn [Vector2D.x Vector2D.y].
  f_equal. f_equal; destruct Hs; subst; field.
Qed.

(** ** Paddle.move *)

(** C7. A paddle no taller than the board ends every [move] with
    [0 <= position.y <= WINDOW_HEIGHT - height]: the velocity is set to
    [(0, direction * speed * speed_multiplier)], the position advances by
    [velocity * dt] and its [y] is then clamped; the velocity is left as
    commanded, so the paddle stops at the wall and does not bounce. *)
Theorem paddle_move_stays_on_board
  (p : Paddle.t) (direction : Z) (dt speed_multiplier : R) :
  Paddle.height p <= WINDOW_HEIGHT ->
  let p' := Paddle.move p direction dt speed_multiplier in
  let y1 := Vector2D.y (Paddle.position p)
            + IZR direction * Paddle.speed p * speed_multiplier * dt in
  Paddle.velocity p' =
    Vector2D.mk 0 (IZR direction * Paddle.speed p * speed_multiplier) /\
  Vector2D.x (Paddle.position p') = Vector2D.x (Paddle.position p) /\
  Vector2D.y (Paddle.position p') =
    Rmax 0 (Rmin y1 (WINDOW_HEIGHT - Paddle.height p)) /\
  0 <= Vector2D.y (Paddle.position p') <= WINDOW_HEIGHT - Paddle.height p /\
  Paddle.height p' = Paddle.height p /\
  Paddle.width p' = Paddle.width p /\
  Paddle.speed p' = Paddle.speed p.
Proof.
  intros Hh p' y1. subst p'. unfold Paddle.move.
  cbn [Paddle.velocity Paddle.position Paddle.height Paddle.width Paddle.speed].
  unfold Vector2D.add, Vector2D.mul, Vector2D.set_y.
  cbn [Vector2D.x Vector2D.y].
  fold y1.
  split; [reflexivity |].
  unfold Rmax, Rmin.
  destruct (Rlt_dec y1 0) as [H0 | H0];
    [| destruct (Rlt_dec WINDOW_HEIGHT (y1 + Paddle.height p)) as [H1 | H1]];
    cbn [Vector2D.x Vector2D.y];
    destruct (Rle_dec y1 (WINDOW_HEIGHT - Paddle.height p));
    destruct (Rle_dec 0 _);
    repeat split; try reflexivity; lra.
Qed.

Lemma paddle_move_stays_on_board_witness :
  0 <= Vector2D.y (Paddle.position
                     (Paddle.move Game.start_left_paddle (-1) 2 1))
    <= WINDOW_HEIGHT - Paddle.height Game.start_left_paddle.
Proof.
  assert (H : Paddle.height Game.start_left_paddle <= WINDOW_HEIGHT).
  { unfold Game.start_left_paddle, Paddle.init, Paddle.default_height,
      WINDOW_HEIGHT. cbn [Paddle.height]. lra. }
  exact (proj1 (proj2 (proj2 (proj2
           (paddle_move_stays_on_board Game.start_left_paddle (-1) 2 1 H))))).
Defined.

(** ** Ball.check_score *)

(** C5. [check_score] answers ['right'] when [position.x - radius <= 0],
    ['left'] when that fails and [position.x + radius >= WINDOW_WIDTH], and
    [None] otherwise; the ball it leaves behind is the ball it was given. *)
Theorem check_score_query (b : Ball.t) :
  let px := Vector2D.x (Ball.position b) in
  fst (Ball.check_score b) = b /\
  (px - Ball.radius b <= 0 -> snd (Ball.check_score b) = Some "right"%string) /\
  (~ px - Ball.radius b <= 0 -> px + Ball.radius b >= WINDOW_WIDTH ->
   snd (Ball.check_score b) = Some "left"%string) /\
  (~ px - Ball.radius b <= 0 -> ~ px + Ball.radius b >= WINDOW_WIDTH ->
   snd (Ball.check_score b) = None).
Proof.
  intros px. subst px. unfold Ball.check_score.
  destruct (Rle_dec (Vector2D.x (Ball.position b) - Ball.radius b) 0) as [H0 | H0];
    [| destruct (Rle_dec WINDOW_WIDTH
                   (Vector2D.x (Ball.position b) + Ball.radius b)) as [H1 | H1]];
    cbn [fst snd]; repeat split; intros; try reflexivity; try contradiction; lra.
Qed.

(** The scoring boundary: a ball of radius 8 at [x = 8 - 0.001] scores for
    the right player, at [x = 1080 - 8 + 0.001] for the left player. *)
Lemma check_score_query_witness :
  snd (Ball.check_score (Ball.init (8 - 1 / 1000) 360 8)) = Some "right"%string /\
  snd (Ball.check_score (Ball.init (1080 - 8 + 1 / 1000) 360 8)) = Some "left"%string /\
  snd (Ball.check_score (Ball.init 540 360 8)) = None.
Proof.
  split; [| split].
  - apply (proj1 (proj2 (check_score_query (Ball.init (8 - 1 / 1000) 360 8)))).
    unfold Ball.init. cbn [Ball.position Ball.radius Vector2D.x]. lra.
  - apply (proj1 (proj2 (proj2
             (check_score_query (Ball.init (1080 - 8 + 1 / 1000) 360 8)))));
      unfold Ball.init, WINDOW_WIDTH; cbn [Ball.position Ball.radius Vector2D.x]; lra.
  - apply (proj2 (proj2 (proj2 (check_score_query (Ball.init 540 360 8)))));
      unfold Ball.init, WINDOW_WIDTH; cbn [Ball.position Ball.radius Vector2D.x]; lra.
Defined.

(** ** Ball.check_wall_collision *)

Lemma check_wall_collision_top (b : Ball.t) :
  Vector2D.y (Ball.position b) - Ball.radius b <= 0 ->
  Ball.check_wall_collision b = Ok (wall_bounced b (Ball.radius b), true).
Proof.
  intros H. unfold Ball.check_wall_collision.
  destruct (Rle_dec (Vector2D.y (Ball.position b) - Ball.radius b) 0);
    [| contradiction].
  rewrite reflect_axis_y by (left; reflexivity).
  reflexivity.
Qed.

Lemma check_wall_collision_bottom (b : Ball.t) :
  ~ Vector2D.y (Ball.position b) - Ball.radius b <= 0 ->
  WINDOW_HEIGHT <= Vector2D.y (Ball.position b) + Ball.radius b ->
  Ball.check_wall_collision b =
    Ok (wall_bounced b (WINDOW_HEIGHT - Ball.radius b), true).
Proof.
  intros H0 H1. unfold Ball.check_wall_collision.
  destruct (Rle_dec (Vector2D.y (Ball.position b) - Ball.radius b) 0);
    [contradiction |].
  destruct (Rle_dec WINDOW_HEIGHT (Vector2D.y (Ball.position b) + Ball.radius b));
    [| contradiction].
  rewrite reflect_axis_y by (right; reflexivity).
  reflexivity.
Qed.

Lemma check_wall_collision_none (b : Ball.t) :
  ~ Vector2D.y (Ball.position b) - Ball.radius b <= 0 ->
  ~ WINDOW_HEIGHT <= Vector2D.y (Ball.position b) + Ball.radius b ->
  Ball.check_wall_collision b = Ok (b, false).
Proof.
  intros H0 H1. unfold Ball.check_wall_collision.
  destruct (Rle_dec (Vector2D.y (Ball.position b) - Ball.radius b) 0);
    [contradiction |].
  destruct (Rle_dec WINDOW_HEIGHT (Vector2D.y (Ball.position b) + Ball.radius b));
    [contradiction | reflexivity].
Qed.

Lemma check_wall_collision_total (b : Ball.t) :
  exists r, Ball.check_wall_collision b = Ok r.
Proof.
  destruct (Rle_dec (Vector2D.y (Ball.position b) - Ball.radius b) 0) as [H0 | H0].
  - eexists. apply check_wall_collision_top. exact H0.
  - destruct (Rle_dec WINDOW_HEIGHT
                (Vector2D.y (Ball.position b) + Ball.radius b)) as [H1 | H1].
    + eexists. apply check_wall_collision_bottom; assumption.
    + eexists. apply check_wall_collision_none; assumption.
Qed.

(** C3. A ball touching the top wall ([position.y - radius <= 0]) or,
    failing that, the bottom wall ([position.y + radius >= WINDOW_HEIGHT])
    leaves [check_wall_collision] with its vertical velocity inverted, its
    horizontal velocity unchanged and [position.y] equal to [radius],
    respectively [WINDOW_HEIGHT - radius]; the velocity is the one
    [Vector2D.reflect] computes for the normal [(0, 1)], respectively
    [(0, -1)].  In particular a ball at [y = radius] with velocity
    [(vx, -vy)], [vy > 0], ends with velocity [(vx, vy)] at [y = radius]. *)
Theorem wall_collision_reflects (b : Ball.t) :
  let py := Vector2D.y (Ball.position b) in
  (py - Ball.radius b <= 0 ->
   Ball.check_wall_collision b = Ok (wall_bounced b (Ball.radius b), true) /\
   Vector2D.reflect (Ball.velocity b) (Vector2D.mk 0 1) =
     Ok (Ball.velocity (wall_bounced b (Ball.radius b)))) /\
  (~ py - Ball.radius b <= 0 -> py + Ball.radius b >= WINDOW_HEIGHT ->
   Ball.check_wall_collision b =
     Ok (wall_bounced b (WINDOW_HEIGHT - Ball.radius b), true) /\
   Vector2D.reflect (Ball.velocity b) (Vector2D.mk 0 (-1)) =
     Ok (Ball.velocity (wall_bounced b (WINDOW_HEIGHT - Ball.radius b)))) /\
  (forall vx vy : R,
      py = Ball.radius b -> Ball.velocity b = Vector2D.mk vx (- vy) -> 0 < vy ->
      exists b' : Ball.t,
        Ball.check_wall_collision b = Ok (b', true) /\
        Ball.velocity b' = Vector2D.mk vx vy /\
        Vector2D.y (Ball.position b') = Ball.radius b).
Proof.
  intros py. subst py. split; [| split].
  - intros H. split; [apply check_wall_collision_top; exact H |].
    apply reflect_axis_y. left; reflexivity.
  - intros H0 H1. split; [apply check_wall_collision_bottom; [exact H0 | lra] |].
    apply reflect_axis_y. right; reflexivity.
  - intros vx vy Hy Hv _. eexists. split.
    + apply check_wall_collision_top. lra.
    + unfold wall_bounced. cbn [Ball.velocity Ball.position Vector2D.y].
      rewrite Hv. cbn [Vector2D.x Vector2D.y]. rewrite Ropp_involutive.
      split; reflexivity.
Qed.

Lemma wall_collision_reflects_witness :
  exists b' : Ball.t,
    Ball.check_wall_collision
      (Ball.set_velocity (Ball.init 540 8 8) (Vector2D.mk 300 (- 200)))
    = Ok (b', true) /\
    Ball.velocity b' = Vector2D.mk 300 200 /\
    Vector2D.y (Ball.position b') = 8.
Proof.
  apply (proj2 (proj2 (wall_collision_reflects
           (Ball.set_velocity (Ball.init 540 8 8) (Vector2D.mk 300 (- 200)))))
           300 200).
  - reflexivity.
  - reflexivity.
  - lra.
Defined.

(** ** Angles and magnitudes *)

Lemma MAX_BOUNCE_ANGLE_PI3 : MAX_BOUNCE_ANGLE = PI / 3.
Proof. unfold MAX_BOUNCE_ANGLE, radians. field. Qed.

Lemma clamp_unit_bounds (a : R) : -1 <= py_max (-1) (py_min 1 a) <= 1.
Proof.
  unfold py_max, py_min.
  destruct (Rlt_dec a 1); destruct (Rlt_dec (-1) _); lra.
Qed.

Lemma clamp_unit_eq (a : R) : py_max (-1) (py_min 1 a) = clamp (-1) 1 a.
Proof.
  unfold clamp. rewrite py_max_Rmax, py_min_Rmin. f_equal. apply Rmin_comm.
Qed.

(** [cos] is bounded below by [cos theta] on [[-theta, theta]]. *)
Lemma cos_lower_bound (theta a : R) :
  0 <= theta <= PI -> - theta <= a <= theta -> cos theta <= cos a.
Proof.
  intros Ht Ha. destruct (Rle_dec 0 a) as [H0 | H0].
  - apply cos_decr_1; lra.
  - rewrite <- (cos_neg a). apply cos_decr_1; lra.
Qed.

Lemma sin_cos_pow2 (a : R) : sin a ^ 2 + cos a ^ 2 = 1.
Proof. rewrite <- !Rsqr_pow2. apply sin2_cos2. Qed.

Lemma cos_ge_half (a : R) : - (PI / 3) <= a <= PI / 3 -> 1 / 2 <= cos a.
Proof.
  intros Ha. rewrite <- cos_PI3. apply cos_lower_bound; [| exact Ha].
  pose proof PI_RGT_0. lra.
Qed.


(** A vector [(cos a * s * d, sin a * s)] stays within [theta] of the
    horizontal as soon as [cos a] is positive and [|tan a| <= tan theta]. *)
Lemma within_angle_polar (theta a s d : R) :
  d = 1 \/ d = -1 ->
  0 < cos a ->
  0 <= tan theta ->
  sin a ^ 2 <= tan theta ^ 2 * cos a ^ 2 ->
  within_angle theta (Vector2D.mk (cos a * s * d) (sin a * s)).
Proof.
  intros Hd Hc Ht Hsq. unfold within_angle. cbn [Vector2D.x Vector2D.y].
  rewrite !Rabs_mult.
  assert (Hd1 : Rabs d = 1).
  { unfold Rabs. destruct (Rcase_abs d); destruct Hd; lra. }
  rewrite Hd1, (Rabs_pos_eq (cos a)) by lra.
  assert (Hsin : Rabs (sin a) <= tan theta * cos a).
  { apply Rsqr_incr_0_var.
    - rewrite <- Rsqr_abs, !Rsqr_pow2. rewrite Rpow_mult_distr. exact Hsq.
    - apply Rmult_le_pos; lra. }
  pose proof (Rabs_pos s).
  nra.
Qed.

Lemma within_PI3 (a s d : R) :
  d = 1 \/ d = -1 ->
  - (PI / 3) <= a <= PI / 3 ->
  within_angle (PI / 3) (Vector2D.mk (cos a * s * d) (sin a * s)).
Proof.
  intros Hd Ha. pose proof (cos_ge_half a Ha) as Hc.
  pose proof (sin_cos_pow2 a) as Hsc.
  assert (H3 : sqrt 3 * sqrt 3 = 3) by (apply sqrt_sqrt; lra).
  apply within_angle_polar; rewrite ?tan_PI3; try assumption; try lra.
  - apply sqrt_pos.
  - replace (sqrt 3 ^ 2) with (sqrt 3 * sqrt 3) by ring. rewrite H3. nra.
Qed.


(** The magnitude of a vector given in polar form. *)
Lemma magnitude_polar (a s d : R) :
  d = 1 \/ d = -1 -> 0 <= s ->
  Vector2D.magnitude (Vector2D.mk (cos a * s * d) (sin a * s)) = s.
Proof.
  intros Hd Hs. unfold Vector2D.magnitude. cbn [Vector2D.x Vector2D.y].
  pose proof (sin_cos_pow2 a) as Hsc.
  replace ((cos a * s * d) ^ 2 + (sin a * s) ^ 2) with (s ^ 2).
  - apply sqrt_pow2. exact Hs.
  - transitivity (s ^ 2 * (sin a ^ 2 + cos a ^ 2)); [rewrite Hsc; ring |].
    destruct Hd; subst; ring.
Qed.

(** ** Ball.reflect_from_paddle *)

Lemma bounce_direction_unit (b : Ball.t) :
  Ball.bounce_direction b = 1 \/ Ball.bounce_direction b = -1.
Proof.
  unfold Ball.bounce_direction.
  destruct (Rlt_dec (Vector2D.x (Ball.velocity b)) 0); [left | right]; reflexivity.
Qed.

Lemma bounce_angle_bounds (b : Ball.t) (p : Paddle.t) :
  - (PI / 3) <= bounce_angle b p <= PI / 3.
Proof.
  unfold bounce_angle. rewrite <- clamp_unit_eq.
  pose proof (clamp_unit_bounds
                ((Vector2D.y (Ball.position b)
                  - (Vector2D.y (Paddle.position p) + Paddle.height p / 2))
                 / (Paddle.height p / 2))) as Hc.
  pose proof PI_RGT_0. nra.
Qed.

Lemma bounce_speed_nonneg (b : Ball.t) :
  (Ball.acceleration_enabled b = true -> 0 <= Ball.acceleration_factor b) ->
  0 <= Ball.bounce_speed b.
Proof.
  intros Hf. unfold Ball.bounce_speed.
  pose proof (magnitude_nonneg (Ball.velocity b)).
  destruct (Ball.acceleration_enabled b); [| assumption].
  apply Rmult_le_pos; auto.
Qed.

Lemma reflect_from_paddle_Ok (b : Ball.t) (p : Paddle.t) :
  Paddle.height p <> 0 ->
  Ball.reflect_from_paddle b p =
    Ok (Ball.set_velocity b
          (Vector2D.mk
             (cos (bounce_angle b p) * Ball.bounce_speed b * Ball.bounce_direction b)
             (sin (bounce_angle b p) * Ball.bounce_speed b))).
Proof.
  intros Hh. unfold Ball.reflect_from_paddle, Ball.normalized_offset.
  rewrite py_div_Ok by lra. cbn [bind].
  rewrite clamp_unit_eq, MAX_BOUNCE_ANGLE_PI3. reflexivity.
Qed.

Lemma reflect_from_paddle_zero_height (b : Ball.t) (p : Paddle.t) :
  Paddle.height p = 0 ->
  Ball.reflect_from_paddle b p = Raise ZeroDivisionError.
Proof.
  intros Hh. unfold Ball.reflect_from_paddle, Ball.normalized_offset.
  rewrite Hh. replace (0 / 2) with 0 by field.
  rewrite py_div_zero. reflexivity.
Qed.

(** C2. A bounce off a paddle (of nonzero height) sets the velocity to
    [(cos(bounceAngle) * speed * direction, sin(bounceAngle) * speed)] with
    [bounceAngle = clamp((ball.y - paddleCenter.y) / (paddleHeight / 2), -1, 1)
    * 60 degrees]; [direction] is [-1] for an incoming [velocity.x > 0] and
    [+1] for an incoming [velocity.x < 0]; the new velocity is within 60
    degrees of the horizontal. *)
Theorem paddle_bounce_velocity (b : Ball.t) (p : Paddle.t) :
  Paddle.height p <> 0 ->
  exists b' : Ball.t,
    Ball.reflect_from_paddle b p = Ok b' /\
    Ball.velocity b' =
      Vector2D.mk
        (cos (bounce_angle b p) * Ball.bounce_speed b * Ball.bounce_direction b)
        (sin (bounce_angle b p) * Ball.bounce_speed b) /\
    (0 < Vector2D.x (Ball.velocity b) -> Ball.bounce_direction b = -1) /\
    (Vector2D.x (Ball.velocity b) < 0 -> Ball.bounce_direction b = 1) /\
    - (PI / 3) <= bounce_angle b p <= PI / 3 /\
    within_angle (PI / 3) (Ball.velocity b').
Proof.
  intros Hh. eexists. split; [apply reflect_from_paddle_Ok; exact Hh |].
  cbn [Ball.set_velocity Ball.velocity].
  split; [reflexivity |].
  split; [| split; [| split]].
  - intros Hv. unfold Ball.bounce_direction.
    destruct (Rlt_dec (Vector2D.x (Ball.velocity b)) 0); [lra | reflexivity].
  - intros Hv. unfold Ball.bounce_direction.
    destruct (Rlt_dec (Vector2D.x (Ball.velocity b)) 0); [reflexivity | contradiction].
  - apply bounce_angle_bounds.
  - apply within_PI3; [apply bounce_direction_unit | apply bounce_angle_bounds].
Qed.

Lemma paddle_bounce_velocity_witness :
  exists b' : Ball.t,
    Ball.reflect_from_paddle
      (Ball.set_velocity (Ball.init 70 400 8) (Vector2D.mk (-400) 0))
      Game.start_left_paddle = Ok b' /\
    within_angle (PI / 3) (Ball.velocity b').
Proof.
  assert (Hh : Paddle.height Game.start_left_paddle <> 0).
  { unfold Game.start_left_paddle, Paddle.init, Paddle.default_height.
    cbn [Paddle.height]. lra. }
  destruct (paddle_bounce_velocity
              (Ball.set_velocity (Ball.init 70 400 8) (Vector2D.mk (-400) 0))
              Game.start_left_paddle Hh) as [b' [H1 [_ [_ [_ [_ H2]]]]]].
  exists b'. split; assumption.
Defined.

Lemma bounce_magnitude (b : Ball.t) (p : Paddle.t) :
  0 <= Ball.bounce_speed b ->
  Vector2D.magnitude
    (Vector2D.mk
       (cos (bounce_angle b p) * Ball.bounce_speed b * Ball.bounce_direction b)
       (sin (bounce_angle b p) * Ball.bounce_speed b))
  = Ball.bounce_speed b.
Proof.
  intros Hs. apply magnitude_polar; [apply bounce_direction_unit | exact Hs].
Qed.

(** Speed after the hits of [ps], one after the other. *)
Lemma bounces_speed (ps : list Paddle.t) :
  forall b : Ball.t,
    Forall (fun p => Paddle.height p <> 0) ps ->
    0 <= Ball.acceleration_factor b ->
    exists b' : Ball.t,
      bounces b ps = Ok b' /\
      Ball.acceleration_enabled b' = Ball.acceleration_enabled b /\
      Ball.acceleration_factor b' = Ball.acceleration_factor b /\
      Vector2D.magnitude (Ball.velocity b') =
        if Ball.acceleration_enabled b
        then Vector2D.magnitude (Ball.velocity b)
             * Ball.acceleration_factor b ^ List.length ps
        else Vector2D.magnitude (Ball.velocity b).
Proof.
  induction ps as [| p ps IH]; intros b Hps Hf.
  - exists b. cbn [bounces List.length pow].
    repeat split. destruct (Ball.acceleration_enabled b); ring.
  - inversion Hps as [| ? ? Hp Hps']; subst.
    cbn [bounces]. rewrite (reflect_from_paddle_Ok b p Hp). cbn [bind].
    set (b1 := Ball.set_velocity b _).
    destruct (IH b1 Hps' Hf) as [b' [Hb' [He [Hfac Hm]]]].
    exists b'. split; [exact Hb' |].
    split; [exact He |]. split; [exact Hfac |].
    rewrite Hm. subst b1. cbn [Ball.set_velocity Ball.acceleration_enabled
                                 Ball.acceleration_factor Ball.velocity].
    rewrite bounce_magnitude by (apply bounce_speed_nonneg; intros _; exact Hf).
    unfold Ball.bounce_speed. cbn [List.length pow].
    destruct (Ball.acceleration_enabled b); ring.
Qed.

(** C4, as the code has it.  A paddle bounce sets the velocity to
    [(cos(a) * speed * dir, sin(a) * speed)], where [speed] is the speed
    before the bounce times [acceleration_factor] when acceleration is
    enabled, on every hit, and the speed before the bounce itself when it
    is disabled.  In exact real arithmetic (and for a factor that is not
    negative) the speed after the bounce is therefore the speed before
    times [acceleration_factor], [N] consecutive hits multiply it by
    [acceleration_factor ^ N], and with acceleration disabled every bounce
    preserves it.  On binary64 these equalities hold up to rounding only:
    see [paddle_bounce_speed_rounds]. *)
Theorem paddle_bounce_speed (b : Ball.t) :
  0 <= Ball.acceleration_factor b ->
  (forall p : Paddle.t,
      Paddle.height p <> 0 ->
      exists b' : Ball.t,
        Ball.reflect_from_paddle b p = Ok b' /\
        Ball.velocity b' =
          Vector2D.mk
            (cos (bounce_angle b p) * Ball.bounce_speed b * Ball.bounce_direction b)
            (sin (bounce_angle b p) * Ball.bounce_speed b) /\
        Ball.bounce_speed b =
          (if Ball.acceleration_enabled b
           then Vector2D.magnitude (Ball.velocity b) * Ball.acceleration_factor b
           else Vector2D.magnitude (Ball.velocity b)) /\
        Ball.acceleration_enabled b' = Ball.acceleration_enabled b /\
        Ball.acceleration_factor b' = Ball.acceleration_factor b /\
        Vector2D.magnitude (Ball.velocity b') =
          if Ball.acceleration_enabled b
          then Vector2D.magnitude (Ball.velocity b) * Ball.acceleration_factor b
          else Vector2D.magnitude (Ball.velocity b)) /\
  (forall ps : list Paddle.t,
      Forall (fun p => Paddle.height p <> 0) ps ->
      exists b' : Ball.t,
        bounces b ps = Ok b' /\
        Vector2D.magnitude (Ball.velocity b') =
          if Ball.acceleration_enabled b
          then Vector2D.magnitude (Ball.velocity b)
               * Ball.acceleration_factor b ^ List.length ps
          else Vector2D.magnitude (Ball.velocity b)).
Proof.
  intros Hf. split.
  - intros p Hp. eexists. split; [apply reflect_from_paddle_Ok; exact Hp |].
    cbn [Ball.set_velocity Ball.acceleration_enabled Ball.acceleration_factor
           Ball.velocity].
    split; [reflexivity |]. split; [reflexivity |].
    split; [reflexivity |]. split; [reflexivity |].
    rewrite bounce_magnitude by (apply bounce_speed_nonneg; intros _; exact Hf).
    reflexivity.
  - intros ps Hps.
    destruct (bounces_speed ps b Hps Hf) as [b' [Hb' [_ [_ Hm]]]].
    exists b'. split; assumption.
Qed.

(** On binary64 the equalities of C4 fail in the last place.  A ball with
    velocity [(-400, 0)], speed 400, bounces off the start paddle: hit at
    [y = 400] with acceleration enabled it leaves with velocity
    (281.03485467072045, 312.1208267005055), whose magnitude is
    419.99999999999994 and not [400 * 1.05 = 420]; hit at [y = 326] with
    acceleration disabled it leaves with speed 399.99999999999994 and not
    400. *)
Lemma paddle_bounce_speed_rounds :
  Binary64.magnitude Binary64.incoming_velocity = Binary64.base_speed /\
  PrimFloat.mul Binary64.base_speed Binary64.acceleration_factor
  = Binary64.accelerated_speed /\
  Binary64.bounced_accelerated = Binary64.bounced_accelerated_value /\
  Binary64.speed_of Binary64.bounced_accelerated = Binary64.below_420 /\
  PrimFloat.eqb Binary64.below_420 Binary64.accelerated_speed = false /\
  Binary64.bounced_plain = Binary64.bounced_plain_value /\
  Binary64.speed_of Binary64.bounced_plain = Binary64.below_400 /\
  PrimFloat.eqb Binary64.below_400 Binary64.base_speed = false.
Proof. repeat split; vm_compute; reflexivity. Qed.

Lemma start_paddle_heights :
  Paddle.height Game.start_left_paddle <> 0 /\
  Paddle.height Game.start_right_paddle <> 0.
Proof.
  unfold Game.start_left_paddle, Game.start_right_paddle, Paddle.init,
    Paddle.default_height.
  cbn [Paddle.height]. split; lra.
Qed.

Lemma paddle_bounce_speed_witness :
  exists b' : Ball.t,
    bounces (Ball.set_velocity (Ball.init 70 360 8) (Vector2D.mk (-400) 0))
      [Game.start_left_paddle; Game.start_right_paddle] = Ok b' /\
    Vector2D.magnitude (Ball.velocity b') =
      Vector2D.magnitude (Vector2D.mk (-400) 0) * (105 / 100) ^ 2.
Proof.
  assert (Hf : 0 <= Ball.acceleration_factor
                      (Ball.set_velocity (Ball.init 70 360 8)
                         (Vector2D.mk (-400) 0))).
  { unfold Ball.init. cbn [Ball.set_velocity Ball.acceleration_factor]. lra. }
  assert (Hps : Forall (fun p => Paddle.height p <> 0)
                  [Game.start_left_paddle; Game.start_right_paddle]).
  { destruct start_paddle_heights as [Hl Hr].
    constructor; [exact Hl | constructor; [exact Hr | constructor]]. }
  exact (proj2 (paddle_bounce_speed _ Hf) _ Hps).
Defined.

(** C10. The bounce direction is [+1] exactly when the incoming
    [velocity.x] is negative; an incoming [velocity.x] of exactly [0] gets
    direction [-1], so the ball leaves with a horizontal velocity that is
    not positive. *)
Theorem bounce_direction_at_zero_vx (b : Ball.t) (p : Paddle.t) :
  Paddle.height p <> 0 ->
  0 <= Ball.acceleration_factor b ->
  (Ball.bounce_direction b = 1 <-> Vector2D.x (Ball.velocity b) < 0) /\
  (Ball.bounce_direction b = -1 <-> ~ Vector2D.x (Ball.velocity b) < 0) /\
  (Vector2D.x (Ball.velocity b) = 0 ->
   Ball.bounce_direction b = -1 /\
   exists b' : Ball.t,
     Ball.reflect_from_paddle b p = Ok b' /\
     Vector2D.x (Ball.velocity b') =
       cos (bounce_angle b p) * Ball.bounce_speed b * -1 /\
     Vector2D.x (Ball.velocity b') <= 0).
Proof.
  intros Hh Hf.
  assert (Hdir :
            (Ball.bounce_direction b = 1 <-> Vector2D.x (Ball.velocity b) < 0) /\
            (Ball.bounce_direction b = -1 <-> ~ Vector2D.x (Ball.velocity b) < 0)).
  { unfold Ball.bounce_direction.
    destruct (Rlt_dec (Vector2D.x (Ball.velocity b)) 0); split; split;
      intros; try assumption; try reflexivity; try contradiction; lra. }
  destruct Hdir as [H1 H2].
  split; [exact H1 | split; [exact H2 |]].
  intros Hz.
  assert (Hd : Ball.bounce_direction b = -1) by (apply H2; lra).
  split; [exact Hd |].
  eexists. split; [apply reflect_from_paddle_Ok; exact Hh |].
  cbn [Ball.set_velocity Ball.velocity Vector2D.x]. rewrite Hd.
  split; [reflexivity |].
  pose proof (cos_ge_half _ (bounce_angle_bounds b p)).
  pose proof (bounce_speed_nonneg b (fun _ => Hf)).
  nra.
Qed.

Lemma bounce_direction_at_zero_vx_witness :
  Ball.bounce_direction
    (Ball.set_velocity (Ball.init 70 360 8) (Vector2D.mk 0 400)) = -1.
Proof.
  assert (Hf : 0 <= Ball.acceleration_factor
                      (Ball.set_velocity (Ball.init 70 360 8) (Vector2D.mk 0 400))).
  { unfold Ball.init. cbn [Ball.set_velocity Ball.acceleration_factor]. lra. }
  exact (proj1 (proj2 (proj2
           (bounce_direction_at_zero_vx _ Game.start_left_paddle
              (proj1 start_paddle_heights) Hf)) eq_refl)).
Defined.

(** ** Ball.reset *)




(** ** Ball.check_paddle_collision *)

Lemma closest_point_clamp (b : Ball.t) (p : Paddle.t) :
  Ball.closest_point b p =
    Vector2D.mk
      (clamp (Vector2D.x (Paddle.position p))
             (Vector2D.x (Paddle.position p) + Paddle.width p)
             (Vector2D.x (Ball.position b)))
      (clamp (Vector2D.y (Paddle.position p))
             (Vector2D.y (Paddle.position p) + Paddle.height p)
             (Vector2D.y (Ball.position b))).
Proof.
  unfold Ball.closest_point, clamp.
  rewrite !py_max_Rmax, !py_min_Rmin. reflexivity.
Qed.

Lemma clamp_cases (lo hi a : R) :
  lo <= hi ->
  (a < lo /\ clamp lo hi a = lo) \/
  (lo <= a <= hi /\ clamp lo hi a = a) \/
  (hi < a /\ clamp lo hi a = hi).
Proof.
  intros H. unfold clamp, Rmax, Rmin.
  destruct (Rle_dec a hi); destruct (Rle_dec lo _); lra.
Qed.

Lemma clamp_below (lo hi a : R) : lo <= hi -> a <= lo -> clamp lo hi a = lo.
Proof.
  intros H Ha.
  destruct (clamp_cases lo hi a H) as [[? ->] | [[? ->] | [? ->]]]; lra.
Qed.

Lemma clamp_above (lo hi a : R) : lo <= hi -> hi <= a -> clamp lo hi a = hi.
Proof.
  intros H Ha.
  destruct (clamp_cases lo hi a H) as [[? ->] | [[? ->] | [? ->]]]; lra.
Qed.

(** Clamping a coordinate moves it no further from [a] than any point of
    the interval is. *)
Lemma clamp_nearest (lo hi a q : R) :
  lo <= hi -> lo <= q <= hi -> (a - clamp lo hi a) ^ 2 <= (a - q) ^ 2.
Proof.
  intros H Hq.
  destruct (clamp_cases lo hi a H) as [[Ha ->] | [[Ha ->] | [Ha ->]]].
  - assert (0 <= (q - lo) * ((q - a) + (lo - a))) by (apply Rmult_le_pos; lra).
    replace ((a - q) ^ 2)
      with ((a - lo) ^ 2 + (q - lo) * ((q - a) + (lo - a))) by ring.
    lra.
  - replace ((a - a) ^ 2) with 0 by ring. apply pow2_ge_0.
  - assert (0 <= (hi - q) * ((a - q) + (a - hi))) by (apply Rmult_le_pos; lra).
    replace ((a - q) ^ 2)
      with ((a - hi) ^ 2 + (hi - q) * ((a - q) + (a - hi))) by ring.
    lra.
Qed.

Lemma closest_point_in_rect (b : Ball.t) (p : Paddle.t) :
  0 <= Paddle.width p -> 0 <= Paddle.height p ->
  in_rect p (Ball.closest_point b p).
Proof.
  intros Hw Hh. rewrite closest_point_clamp. unfold in_rect.
  cbn [Vector2D.x Vector2D.y].
  destruct (clamp_cases (Vector2D.x (Paddle.position p))
              (Vector2D.x (Paddle.position p) + Paddle.width p)
              (Vector2D.x (Ball.position b))) as [[? ->] | [[? ->] | [? ->]]];
    [lra | | |];
    destruct (clamp_cases (Vector2D.y (Paddle.position p))
                (Vector2D.y (Paddle.position p) + Paddle.height p)
                (Vector2D.y (Ball.position b))) as [[? ->] | [[? ->] | [? ->]]];
    lra.
Qed.

Lemma closest_point_nearest (b : Ball.t) (p : Paddle.t) (q : Vector2D.t) :
  0 <= Paddle.width p -> 0 <= Paddle.height p ->
  in_rect p q ->
  Ball.distance b p <= Vector2D.magnitude (Vector2D.sub (Ball.position b) q).
Proof.
  intros Hw Hh [Hx Hy]. unfold Ball.distance. rewrite closest_point_clamp.
  unfold Vector2D.magnitude, Vector2D.sub. cbn [Vector2D.x Vector2D.y].
  apply sqrt_le_1; try apply sum_sq_nonneg.
  apply Rplus_le_compat; apply clamp_nearest; lra.
Qed.

Lemma check_paddle_collision_miss (b : Ball.t) (p : Paddle.t) :
  ~ Ball.distance b p <= Ball.radius b ->
  Ball.check_paddle_collision b p = Ok (b, false).
Proof.
  intros H. unfold Ball.check_paddle_collision.
  destruct (Rle_dec (Ball.distance b p) (Ball.radius b));
    [contradiction | reflexivity].
Qed.

(** The ball after a detected hit: the bounce velocity, and the position
    pushed horizontally by the overlap. *)
Lemma check_paddle_collision_hit (b : Ball.t) (p : Paddle.t) :
  Paddle.height p <> 0 ->
  Ball.distance b p <= Ball.radius b ->
  exists b' : Ball.t,
    Ball.check_paddle_collision b p = Ok (b', true) /\
    Ball.velocity b' =
      Vector2D.mk
        (cos (bounce_angle b p) * Ball.bounce_speed b * Ball.bounce_direction b)
        (sin (bounce_angle b p) * Ball.bounce_speed b) /\
    Vector2D.y (Ball.position b') = Vector2D.y (Ball.position b) /\
    Rabs (Vector2D.x (Ball.position b') - Vector2D.x (Ball.position b))
      = Ball.radius b - Ball.distance b p /\
    Ball.radius b' = Ball.radius b /\
    Ball.acceleration_enabled b' = Ball.acceleration_enabled b /\
    Ball.acceleration_factor b' = Ball.acceleration_factor b.
Proof.
  intros Hh Hd. unfold Ball.check_paddle_collision.
  destruct (Rle_dec (Ball.distance b p) (Ball.radius b)); [| contradiction].
  rewrite (reflect_from_paddle_Ok b p Hh). cbn [bind].
  eexists. split; [reflexivity |].
  cbn [Ball.set_velocity Ball.radius Ball.velocity Ball.position Vector2D.x].
  destruct (Rlt_dec 0 (Ball.radius b - Ball.distance b p)) as [Ho | Ho].
  - cbn [Ball.set_position Ball.velocity Ball.position Ball.radius
           Ball.acceleration_enabled Ball.acceleration_factor
           Vector2D.set_x Vector2D.x Vector2D.y].
    repeat split.
    match goal with
    | |- context [Rlt_dec 0 ?v] => destruct (Rlt_dec 0 v)
    end; unfold Rabs; destruct (Rcase_abs _); lra.
  - cbn [Ball.set_velocity Ball.velocity Ball.position Ball.radius
           Ball.acceleration_enabled Ball.acceleration_factor].
    repeat split.
    unfold Rabs; destruct (Rcase_abs _); lra.
Qed.

Lemma corner_distance (b : Ball.t) (p : Paddle.t) (right bottom : bool) (dx dy : R) :
  0 <= Paddle.width p -> 0 <= Paddle.height p ->
  0 < dx -> 0 < dy ->
  Ball.position b =
    Vector2D.mk (Vector2D.x (corner p right bottom) + outward right * dx)
                (Vector2D.y (corner p right bottom) + outward bottom * dy) ->
  Ball.closest_point b p = corner p right bottom /\
  Ball.distance b p = sqrt (dx ^ 2 + dy ^ 2).
Proof.
  intros Hw Hh Hdx Hdy Hpos.
  assert (Hc : Ball.closest_point b p = corner p right bottom).
  { rewrite closest_point_clamp, Hpos. unfold corner, outward.
    destruct right, bottom; cbn [Vector2D.x Vector2D.y]; f_equal;
      (apply clamp_above; lra) || (apply clamp_below; lra). }
  split; [exact Hc |].
  unfold Ball.distance. rewrite Hc, Hpos.
  unfold Vector2D.magnitude, Vector2D.sub. cbn [Vector2D.x Vector2D.y].
  f_equal. unfold outward. destruct right, bottom; ring.
Qed.

Lemma check_paddle_collision_within (b : Ball.t) (p : Paddle.t) :
  Ball.distance b p <= Ball.radius b ->
  Ball.check_paddle_collision b p = Raise ZeroDivisionError \/
  exists b' : Ball.t, Ball.check_paddle_collision b p = Ok (b', true).
Proof.
  intros Hd. destruct (Req_dec_T (Paddle.height p) 0) as [Hh | Hh].
  - left. unfold Ball.check_paddle_collision.
    destruct (Rle_dec (Ball.distance b p) (Ball.radius b)); [| contradiction].
    rewrite (reflect_from_paddle_zero_height b p Hh). reflexivity.
  - right. destruct (check_paddle_collision_hit b p Hh Hd) as [b' [Hb' _]].
    exists b'. exact Hb'.
Qed.

(** C1. [check_paddle_collision] finds the point of the paddle's rectangle
    closest to the ball's center by clamping the center's [x] and [y]
    separately into the rectangle's ranges (for a rectangle with
    non-negative sides that point lies in the rectangle and no point of the
    rectangle is closer), and reports a collision exactly when the distance
    from that point to the center is [<= radius]: it answers [False]
    exactly beyond the radius and, for a paddle of nonzero height (the
    bounce divides by it), [True] exactly within.  A center diagonally
    outside a corner, [dx] to the side and [dy] above or below, is at
    distance [sqrt (dx^2 + dy^2)]: the ball collides when this equals
    [radius] and does not when it equals [radius + eps], [eps > 0]. *)
Theorem paddle_collision_closest_point (b : Ball.t) (p : Paddle.t) :
  Ball.closest_point b p =
    Vector2D.mk
      (clamp (Vector2D.x (Paddle.position p))
             (Vector2D.x (Paddle.position p) + Paddle.width p)
             (Vector2D.x (Ball.position b)))
      (clamp (Vector2D.y (Paddle.position p))
             (Vector2D.y (Paddle.position p) + Paddle.height p)
             (Vector2D.y (Ball.position b))) /\
  Ball.distance b p =
    Vector2D.magnitude (Vector2D.sub (Ball.position b) (Ball.closest_point b p)) /\
  (0 <= Paddle.width p -> 0 <= Paddle.height p ->
   in_rect p (Ball.closest_point b p) /\
   forall q : Vector2D.t,
     in_rect p q ->
     Ball.distance b p <= Vector2D.magnitude (Vector2D.sub (Ball.position b) q)) /\
  (~ Ball.distance b p <= Ball.radius b <->
   Ball.check_paddle_collision b p = Ok (b, false)) /\
  ((exists b' : Ball.t, Ball.check_paddle_collision b p = Ok (b', true)) ->
   Ball.distance b p <= Ball.radius b) /\
  (Paddle.height p <> 0 ->
   Ball.distance b p <= Ball.radius b ->
   exists b' : Ball.t, Ball.check_paddle_collision b p = Ok (b', true)) /\
  (forall (right bottom : bool) (dx dy : R),
      0 <= Paddle.width p -> 0 < Paddle.height p ->
      0 < dx -> 0 < dy ->
      Ball.position b =
        Vector2D.mk (Vector2D.x (corner p right bottom) + outward right * dx)
                    (Vector2D.y (corner p right bottom) + outward bottom * dy) ->
      Ball.distance b p = sqrt (dx ^ 2 + dy ^ 2) /\
      (sqrt (dx ^ 2 + dy ^ 2) = Ball.radius b ->
       exists b' : Ball.t, Ball.check_paddle_collision b p = Ok (b', true)) /\
      (forall eps : R,
          0 < eps -> sqrt (dx ^ 2 + dy ^ 2) = Ball.radius b + eps ->
          Ball.check_paddle_collision b p = Ok (b, false))).
Proof.
  assert (Hhit : Paddle.height p <> 0 ->
                 Ball.distance b p <= Ball.radius b ->
                 exists b' : Ball.t,
                   Ball.check_paddle_collision b p = Ok (b', true)).
  { intros Hh Hd. destruct (check_paddle_collision_hit b p Hh Hd) as [b' [Hb' _]].
    exists b'. exact Hb'. }
  split; [apply closest_point_clamp |].
  split; [reflexivity |].
  split; [| split; [| split; [| split]]].
  - intros Hw Hh0. split; [apply closest_point_in_rect; assumption |].
    intros q Hq. apply closest_point_nearest; assumption.
  - split; [apply check_paddle_collision_miss |].
    intros Hmiss Hd.
    destruct (check_paddle_collision_within b p Hd) as [E | [b' E]];
      rewrite Hmiss in E; discriminate E.
  - intros [b' Hb'].
    destruct (Rle_dec (Ball.distance b p) (Ball.radius b)) as [Hd | Hd];
      [exact Hd |].
    rewrite (check_paddle_collision_miss b p Hd) in Hb'. discriminate Hb'.
  - exact Hhit.
  - intros right bottom dx dy Hw Hh0 Hdx Hdy Hpos.
    destruct (corner_distance b p right bottom dx dy Hw ltac:(lra) Hdx Hdy Hpos)
      as [_ Hdist].
    split; [exact Hdist | split].
    + intros Hr. apply Hhit; [lra |]. rewrite Hdist. lra.
    + intros eps Heps Hr. apply check_paddle_collision_miss.
      rewrite Hdist. lra.
Qed.

(** A ball 3 to the right of and 4 below the bottom right corner of the
    left paddle is at distance 5 from it: with radius 5 it collides, with
    radius 4 it does not. *)
Lemma paddle_collision_closest_point_witness :
  (exists b' : Ball.t,
      Ball.check_paddle_collision (Ball.init 68 414 5) Game.start_left_paddle
      = Ok (b', true)) /\
  Ball.check_paddle_collision (Ball.init 68 414 4) Game.start_left_paddle
  = Ok (Ball.init 68 414 4, false).
Proof.
  assert (Hw : 0 <= Paddle.width Game.start_left_paddle).
  { unfold Game.start_left_paddle, Paddle.init, Paddle.default_width.
    cbn [Paddle.width]. lra. }
  assert (Hh : 0 < Paddle.height Game.start_left_paddle).
  { unfold Game.start_left_paddle, Paddle.init, Paddle.default_height.
    cbn [Paddle.height]. lra. }
  assert (Hpos : forall r : R,
             Ball.position (Ball.init 68 414 r) =
               Vector2D.mk
                 (Vector2D.x (corner Game.start_left_paddle true true)
                  + outward true * 3)
                 (Vector2D.y (corner Game.start_left_paddle true true)
                  + outward true * 4)).
  { intros r. unfold corner, outward, Game.start_left_paddle, Paddle.init,
      Paddle.default_width, Paddle.default_height, WINDOW_HEIGHT, Ball.init.
    cbn [Ball.position Paddle.position Paddle.width Paddle.height
           Vector2D.x Vector2D.y].
    f_equal; lra. }
  assert (H5 : sqrt (3 ^ 2 + 4 ^ 2) = 5).
  { apply sqrt_lem_1; lra. }
  assert (H3 : 0 < 3) by lra.
  assert (H4 : 0 < 4) by lra.
  split.
  - destruct (paddle_collision_closest_point (Ball.init 68 414 5)
                Game.start_left_paddle) as (_ & _ & _ & _ & _ & _ & Hcorner).
    destruct (Hcorner true true 3 4 Hw Hh H3 H4 (Hpos 5)) as (_ & Hhit & _).
    apply Hhit. exact H5.
  - destruct (paddle_collision_closest_point (Ball.init 68 414 4)
                Game.start_left_paddle) as (_ & _ & _ & _ & _ & _ & Hcorner).
    destruct (Hcorner true true 3 4 Hw Hh H3 H4 (Hpos 4)) as (_ & _ & Hmiss).
    apply (Hmiss 1).
    + lra.
    + rewrite H5. unfold Ball.init. cbn [Ball.radius]. lra.
Defined.

(** ** Game.update: the order of the collision checks *)

Lemma abs_x_le_magnitude (v : Vector2D.t) :
  Rabs (Vector2D.x v) <= Vector2D.magnitude v.
Proof.
  unfold Vector2D.magnitude. rewrite <- sqrt_Rsqr_abs, Rsqr_pow2.
  apply sqrt_le_1; [apply pow2_ge_0 | apply sum_sq_nonneg |].
  pose proof (pow2_ge_0 (Vector2D.y v)). lra.
Qed.

Lemma magnitude_horizontal (a : R) :
  Vector2D.magnitude (Vector2D.mk a 0) = Rabs a.
Proof.
  unfold Vector2D.magnitude. cbn [Vector2D.x Vector2D.y].
  replace (a ^ 2 + 0 ^ 2) with (a ^ 2) by ring.
  rewrite <- Rsqr_pow2. apply sqrt_Rsqr_abs.
Qed.

(** A ball within reach of a paddle is horizontally within [radius] of the
    paddle's [x] range. *)
Lemma reach_x_range (b : Ball.t) (p : Paddle.t) :
  0 <= Paddle.width p ->
  Ball.distance b p <= Ball.radius b ->
  Vector2D.x (Paddle.position p) - Ball.radius b <= Vector2D.x (Ball.position b)
    <= Vector2D.x (Paddle.position p) + Paddle.width p + Ball.radius b.
Proof.
  intros Hw Hd. unfold Ball.distance in Hd.
  pose proof (abs_x_le_magnitude
                (Vector2D.sub (Ball.position b) (Ball.closest_point b p))) as Hx.
  rewrite closest_point_clamp in Hx. unfold Vector2D.sub in Hx at 1.
  cbn [Vector2D.x Vector2D.y] in Hx.
  rewrite closest_point_clamp in Hd.
  assert (Hr : Rabs (Vector2D.x (Ball.position b)
                     - clamp (Vector2D.x (Paddle.position p))
                         (Vector2D.x (Paddle.position p) + Paddle.width p)
                         (Vector2D.x (Ball.position b))) <= Ball.radius b) by lra.
  clear Hx Hd. revert Hr. unfold Rabs.
  destruct (clamp_cases (Vector2D.x (Paddle.position p))
              (Vector2D.x (Paddle.position p) + Paddle.width p)
              (Vector2D.x (Ball.position b))) as [[? ->] | [[? ->] | [? ->]]];
    [lra | | |]; destruct (Rcase_abs _); lra.
Qed.

Lemma distance_nonneg (b : Ball.t) (p : Paddle.t) : 0 <= Ball.distance b p.
Proof. unfold Ball.distance. apply magnitude_nonneg. Qed.

Lemma check_paddle_collision_total (b : Ball.t) (p : Paddle.t) :
  Paddle.height p <> 0 ->
  exists (b' : Ball.t) (f : bool),
    Ball.check_paddle_collision b p = Ok (b', f) /\
    (f = true <-> Ball.distance b p <= Ball.radius b) /\
    (f = true -> Ball.velocity b' = bounce_velocity b p) /\
    (f = false -> b' = b) /\
    Ball.radius b' = Ball.radius b /\
    Vector2D.y (Ball.position b') = Vector2D.y (Ball.position b) /\
    (f = true ->
     Rabs (Vector2D.x (Ball.position b') - Vector2D.x (Ball.position b))
       <= Ball.radius b).
Proof.
  intros Hh.
  destruct (Rle_dec (Ball.distance b p) (Ball.radius b)) as [Hd | Hd].
  - destruct (check_paddle_collision_hit b p Hh Hd)
      as (b' & Hb' & Hv & Hy & Hx & Hr & _).
    exists b', true. split; [exact Hb' |].
    split; [tauto |]. split; [intros _; exact Hv |].
    split; [discriminate |]. split; [exact Hr |]. split; [exact Hy |].
    intros _. rewrite Hx. pose proof (distance_nonneg b p). lra.
  - exists b, false. split; [apply check_paddle_collision_miss; exact Hd |].
    split; [split; [discriminate | contradiction] |].
    split; [discriminate |]. split; [reflexivity |].
    split; [reflexivity |]. split; [reflexivity | discriminate].
Qed.

Lemma check_collisions_steps (b : Ball.t) (l r : Paddle.t) :
  Paddle.height l <> 0 -> Paddle.height r <> 0 ->
  exists (b1 b2 b3 : Ball.t) (f1 f2 f3 : bool),
    Ball.check_paddle_collision b l = Ok (b1, f1) /\
    Ball.check_paddle_collision b1 r = Ok (b2, f2) /\
    Ball.check_wall_collision b2 = Ok (b3, f3) /\
    Game.check_collisions b l r = Ok (b3, (f1, f2, f3)).
Proof.
  intros Hl Hr.
  destruct (check_paddle_collision_total b l Hl) as (b1 & f1 & H1 & _).
  destruct (check_paddle_collision_total b1 r Hr) as (b2 & f2 & H2 & _).
  destruct (check_wall_collision_total b2) as ([b3 f3] & H3).
  exists b1, b2, b3, f1, f2, f3.
  repeat split; try assumption.
  unfold Game.check_collisions.
  rewrite H1. cbn [bind fst snd]. rewrite H2. cbn [bind fst snd].
  rewrite H3. reflexivity.
Qed.


(** The result of a hit that overlaps the paddle, in closed form. *)
Lemma check_paddle_collision_overlap (b : Ball.t) (p : Paddle.t) :
  Paddle.height p <> 0 ->
  Ball.distance b p < Ball.radius b ->
  Ball.check_paddle_collision b p =
    Ok (Ball.mk
          (Vector2D.mk
             (Vector2D.x (Ball.position b)
              + (if Rlt_dec 0 (Vector2D.x (bounce_velocity b p)) then 1 else -1)
                * (Ball.radius b - Ball.distance b p))
             (Vector2D.y (Ball.position b)))
          (bounce_velocity b p)
          (Ball.radius b) (Ball.base_speed b) (Ball.speed_multiplier b)
          (Ball.acceleration_enabled b) (Ball.acceleration_factor b),
        true).
Proof.
  intros Hh Hd. unfold Ball.check_paddle_collision.
  destruct (Rle_dec (Ball.distance b p) (Ball.radius b)); [| lra].
  rewrite (reflect_from_paddle_Ok b p Hh). cbn [bind].
  cbn [Ball.set_velocity Ball.radius].
  destruct (Rlt_dec 0 (Ball.radius b - Ball.distance b p)); [| lra].
  reflexivity.
Qed.

Lemma clamp_inside (lo hi a : R) : lo <= a <= hi -> clamp lo hi a = a.
Proof.
  intros Ha.
  destruct (clamp_cases lo hi a ltac:(lra)) as [[? ->] | [[? ->] | [? ->]]]; lra.
Qed.

(** Distance and bounce of a ball level with the center of a paddle of the
    default size at height 310, approaching from the side. *)
Lemma level_distance (b : Ball.t) (p : Paddle.t) (px bx : R) :
  Paddle.position p = Vector2D.mk px 310 ->
  Paddle.width p = 15 -> Paddle.height p = 100 ->
  Ball.position b = Vector2D.mk bx 360 ->
  Ball.distance b p = Rabs (bx - clamp px (px + 15) bx).
Proof.
  intros Hp Hw Hh Hb. unfold Ball.distance. rewrite closest_point_clamp.
  rewrite Hp, Hw, Hh, Hb. cbn [Vector2D.x Vector2D.y].
  rewrite (clamp_inside 310 (310 + 100) 360) by lra.
  unfold Vector2D.sub. cbn [Vector2D.x Vector2D.y].
  replace (360 - 360) with 0 by ring. apply magnitude_horizontal.
Qed.

Lemma level_bounce_velocity (b : Ball.t) (p : Paddle.t) (px bx : R) :
  Paddle.position p = Vector2D.mk px 310 ->
  Paddle.height p = 100 ->
  Ball.position b = Vector2D.mk bx 360 ->
  bounce_velocity b p =
    Vector2D.mk (Ball.bounce_speed b * Ball.bounce_direction b) 0.
Proof.
  intros Hp Hh Hb. unfold bounce_velocity.
  assert (Ha : bounce_angle b p = 0).
  { unfold bounce_angle. rewrite Hp, Hh, Hb. cbn [Vector2D.y].
    replace ((360 - (310 + 100 / 2)) / (100 / 2)) with 0 by field.
    rewrite clamp_inside by lra. ring. }
  rewrite Ha, cos_0, sin_0. f_equal; ring.
Qed.

Lemma Rabs_neg_lit (a : R) : a <= 0 -> Rabs a = - a.
Proof. intros H. unfold Rabs. destruct (Rcase_abs a); lra. Qed.

Lemma crowded_left_hit :
  Ball.check_paddle_collision crowded_ball Game.start_left_paddle =
    Ok (Ball.mk (Vector2D.mk 73 360) (Vector2D.mk 420 0) 8 400 1 true (105 / 100),
        true).
Proof.
  assert (Hp : Paddle.position Game.start_left_paddle = Vector2D.mk 50 310).
  { unfold Game.start_left_paddle, Paddle.init, WINDOW_HEIGHT.
    cbn [Paddle.position]. f_equal. lra. }
  assert (Hd : Ball.distance crowded_ball Game.start_left_paddle = 5).
  { rewrite (level_distance crowded_ball Game.start_left_paddle 50 70
               Hp eq_refl eq_refl eq_refl).
    rewrite clamp_above by lra. rewrite Rabs_pos_eq; lra. }
  assert (Hv : bounce_velocity crowded_ball Game.start_left_paddle
               = Vector2D.mk 420 0).
  { rewrite (level_bounce_velocity crowded_ball Game.start_left_paddle 50 70
               Hp eq_refl eq_refl).
    unfold Ball.bounce_speed, Ball.bounce_direction, crowded_ball, Ball.init.
    cbn [Ball.set_velocity Ball.velocity Ball.acceleration_enabled
           Ball.acceleration_factor Vector2D.x].
    rewrite magnitude_horizontal, Rabs_neg_lit by lra.
    destruct (Rlt_dec (-400) 0); [| lra]. f_equal. lra. }
  rewrite check_paddle_collision_overlap;
    [| exact (proj1 start_paddle_heights)
     | rewrite Hd; unfold crowded_ball, Ball.init;
       cbn [Ball.set_velocity Ball.radius]; lra].
  rewrite Hv, Hd. cbn [Vector2D.x].
  destruct (Rlt_dec 0 420); [| lra].
  unfold crowded_ball, Ball.init.
  cbn [Ball.set_velocity Ball.position Ball.radius Ball.base_speed
         Ball.speed_multiplier Ball.acceleration_enabled
         Ball.acceleration_factor Vector2D.x Vector2D.y].
  do 4 f_equal. lra.
Qed.

Lemma crowded_right_hit :
  Ball.check_paddle_collision
    (Ball.mk (Vector2D.mk 73 360) (Vector2D.mk 420 0) 8 400 1 true (105 / 100))
    crowded_right_paddle =
    Ok (Ball.mk (Vector2D.mk 67 360) (Vector2D.mk (-441) 0) 8 400 1 true (105 / 100),
        true).
Proof.
  set (b1 := Ball.mk (Vector2D.mk 73 360) (Vector2D.mk 420 0) 8 400 1 true
               (105 / 100)).
  assert (Hh : Paddle.height crowded_right_paddle <> 0).
  { unfold crowded_right_paddle, Paddle.init, Paddle.default_height.
    cbn [Paddle.height]. lra. }
  assert (Hd : Ball.distance b1 crowded_right_paddle = 2).
  { rewrite (level_distance b1 crowded_right_paddle 75 73
               eq_refl eq_refl eq_refl eq_refl).
    rewrite clamp_below by lra. rewrite Rabs_neg_lit; lra. }
  assert (Hv : bounce_velocity b1 crowded_right_paddle = Vector2D.mk (-441) 0).
  { rewrite (level_bounce_velocity b1 crowded_right_paddle 75 73
               eq_refl eq_refl eq_refl).
    unfold Ball.bounce_speed, Ball.bounce_direction, b1.
    cbn [Ball.velocity Ball.acceleration_enabled Ball.acceleration_factor
           Vector2D.x].
    rewrite magnitude_horizontal, Rabs_pos_eq by lra.
    destruct (Rlt_dec 420 0); [lra |]. f_equal. lra. }
  rewrite check_paddle_collision_overlap;
    [| exact Hh | rewrite Hd; unfold b1; cbn [Ball.radius]; lra].
  rewrite Hv, Hd. cbn [Vector2D.x].
  destruct (Rlt_dec 0 (-441)); [lra |].
  unfold b1.
  cbn [Ball.position Ball.radius Ball.base_speed Ball.speed_multiplier
         Ball.acceleration_enabled Ball.acceleration_factor
         Vector2D.x Vector2D.y].
  do 4 f_equal. lra.
Qed.

(** Both paddles bounce the crowded ball, the left one first; the velocity
    it ends the frame with is the one the right paddle gave it. *)
Lemma crowded_check_collisions :
  Game.check_collisions crowded_ball Game.start_left_paddle crowded_right_paddle =
    Ok (Ball.mk (Vector2D.mk 67 360) (Vector2D.mk (-441) 0) 8 400 1 true (105 / 100),
        (true, true, false)).
Proof.
  unfold Game.check_collisions.
  rewrite crowded_left_hit. cbn [bind fst snd].
  rewrite crowded_right_hit. cbn [bind fst snd].
  rewrite check_wall_collision_none;
    [reflexivity | |]; cbn [Ball.position Ball.radius Vector2D.y];
    unfold WINDOW_HEIGHT; lra.
Qed.

Lemma crowded_within_reach :
  Ball.distance crowded_ball Game.start_left_paddle <= Ball.radius crowded_ball /\
  Ball.distance crowded_ball crowded_right_paddle <= Ball.radius crowded_ball.
Proof.
  assert (Hp : Paddle.position Game.start_left_paddle = Vector2D.mk 50 310).
  { unfold Game.start_left_paddle, Paddle.init, WINDOW_HEIGHT.
    cbn [Paddle.position]. f_equal. lra. }
  split.
  - rewrite (level_distance crowded_ball Game.start_left_paddle 50 70
               Hp eq_refl eq_refl eq_refl).
    rewrite clamp_above by lra. rewrite Rabs_pos_eq by lra.
    unfold crowded_ball, Ball.init. cbn [Ball.set_velocity Ball.radius]. lra.
  - rewrite (level_distance crowded_ball crowded_right_paddle 75 70
               eq_refl eq_refl eq_refl eq_refl).
    rewrite clamp_below by lra. rewrite Rabs_neg_lit by lra.
    unfold crowded_ball, Ball.init. cbn [Ball.set_velocity Ball.radius]. lra.
Qed.

(** The favour the left paddle enjoys rests on the distance between the
    two columns: with a second paddle that the game never builds, 10 to the
    right of the left one, the crowded ball is within reach of both and
    both bounce it, the right paddle last. *)
Lemma left_tie_break_needs_geometry :
  Game.check_collisions crowded_ball Game.start_left_paddle crowded_right_paddle =
    Ok (Ball.mk (Vector2D.mk 67 360) (Vector2D.mk (-441) 0) 8 400 1 true (105 / 100),
        (true, true, false)) /\
  ~ left_tie_break crowded_ball Game.start_left_paddle crowded_right_paddle.
Proof.
  split; [apply crowded_check_collisions |].
  intros H.
  destruct (H (proj1 crowded_within_reach) (proj2 crowded_within_reach))
    as (b' & wall & Hc).
  rewrite crowded_check_collisions in Hc.
  injection Hc as _ Hflag _. discriminate Hflag.
Qed.

Lemma check_score_cases (b : Ball.t) :
  Ball.check_score b = (b, Some "right"%string) \/
  Ball.check_score b = (b, Some "left"%string) \/
  Ball.check_score b = (b, None).
Proof.
  unfold Ball.check_score.
  destruct (Rle_dec (Vector2D.x (Ball.position b) - Ball.radius b) 0);
    [left; reflexivity |].
  destruct (Rle_dec WINDOW_WIDTH (Vector2D.x (Ball.position b) + Ball.radius b));
    [right; left | right; right]; reflexivity.
Qed.

(** A frame in state [playing]: [update] runs the collision checks on the
    advanced ball and never raises once they do not; without a score the
    ball they leave is the ball of the next frame. *)
Lemma update_playing
  (g : Game.t) (dt angle : R) (direction : Z) (b3 : Ball.t)
  (flags : bool * bool * bool) :
  Game.state g = Game.playing ->
  Game.check_collisions (advanced_ball g dt) (Game.left_paddle g)
    (Game.right_paddle g) = Ok (b3, flags) ->
  (exists g' : Game.t, Game.update g dt angle direction = Ok g') /\
  (snd (Ball.check_score b3) = None ->
   Game.update g dt angle direction = Ok (Game.set_ball g b3)).
Proof.
  intros Hs Hc. unfold Game.update. rewrite Hs.
  unfold advanced_ball in Hc. rewrite Hc. cbn [bind fst].
  destruct (check_score_cases b3) as [E | [E | E]]; rewrite E; cbn [snd].
  - split; [| discriminate].
    match goal with
    | |- context [if ?c then _ else _] => destruct c
    end; eexists; reflexivity.
  - split; [| discriminate].
    match goal with
    | |- context [if ?c then _ else _] => destruct c
    end; eexists; reflexivity.
  - split; [eexists |]; reflexivity.
Qed.

Lemma update_not_playing (g : Game.t) (dt angle : R) (direction : Z) :
  Game.state g <> Game.playing ->
  Game.update g dt angle direction = Ok g.
Proof.
  intros Hs. unfold Game.update.
  destruct (Game.state g); try reflexivity. contradiction.
Qed.





(** * Further properties of the vector operations *)

Lemma magnitude_eq_of_sq (u v : Vector2D.t) :
  Vector2D.x u ^ 2 + Vector2D.y u ^ 2 = Vector2D.x v ^ 2 + Vector2D.y v ^ 2 ->
  Vector2D.magnitude u = Vector2D.magnitude v.
Proof. intros H. unfold Vector2D.magnitude. rewrite H. reflexivity. Qed.

Lemma reflect_zero_normal (v : Vector2D.t) :
  Vector2D.reflect v (Vector2D.mk 0 0) = Ok v.
Proof.
  unfold Vector2D.reflect. rewrite normalize_zero. cbn [bind].
  unfold Vector2D.sub, Vector2D.mul, Vector2D.dot. cbn [Vector2D.x Vector2D.y].
  destruct v as [a b]. cbn [Vector2D.x Vector2D.y]. do 2 f_equal; ring.
Qed.

Lemma magnitude_vertical (k : R) :
  Vector2D.magnitude (Vector2D.mk 0 k) = Rabs k.
Proof.
  unfold Vector2D.magnitude. cbn [Vector2D.x Vector2D.y].
  replace (0 ^ 2 + k ^ 2) with (k ^ 2) by ring.
  rewrite <- Rsqr_pow2. apply sqrt_Rsqr_abs.
Qed.

Lemma reflect_vertical_normal (v : Vector2D.t) (k : R) :
  k <> 0 ->
  Vector2D.reflect v (Vector2D.mk 0 k)
  = Ok (Vector2D.mk (Vector2D.x v) (- Vector2D.y v)).
Proof.
  intros Hk. unfold Vector2D.reflect.
  assert (Ha : Rabs k <> 0) by (apply Rabs_no_R0; exact Hk).
  rewrite normalize_nonzero; rewrite magnitude_vertical; [| exact Ha].
  cbn [bind Vector2D.x Vector2D.y].
  unfold Vector2D.sub, Vector2D.mul, Vector2D.dot. cbn [Vector2D.x Vector2D.y].
  revert Ha. unfold Rabs. destruct (Rcase_abs k); intros Ha;
    do 2 f_equal; field; lra.
Qed.

Lemma reflect_horizontal_normal (v : Vector2D.t) (k : R) :
  k <> 0 ->
  Vector2D.reflect v (Vector2D.mk k 0)
  = Ok (Vector2D.mk (- Vector2D.x v) (Vector2D.y v)).
Proof.
  intros Hk. unfold Vector2D.reflect.
  assert (Ha : Rabs k <> 0) by (apply Rabs_no_R0; exact Hk).
  rewrite normalize_nonzero; rewrite magnitude_horizontal; [| exact Ha].
  cbn [bind Vector2D.x Vector2D.y].
  unfold Vector2D.sub, Vector2D.mul, Vector2D.dot. cbn [Vector2D.x Vector2D.y].
  revert Ha. unfold Rabs. destruct (Rcase_abs k); intros Ha;
    do 2 f_equal; field; lra.
Qed.

(** X1. [reflect] across an axis-aligned normal needs no unit normal: for
    every [k <> 0], positive or negative, the normal [(0, k)] negates the
    [y] component and leaves [x] alone, the normal [(k, 0)] negates the [x]
    component and leaves [y] alone, and reflecting twice gives the vector
    back.  Across the zero normal nothing is reflected: the vector comes
    back as it is. *)
Theorem reflect_axis_aligned (v : Vector2D.t) (k : R) :
  Vector2D.reflect v (Vector2D.mk 0 0) = Ok v /\
  (k <> 0 ->
   Vector2D.reflect v (Vector2D.mk 0 k)
   = Ok (Vector2D.mk (Vector2D.x v) (- Vector2D.y v)) /\
   Vector2D.reflect v (Vector2D.mk k 0)
   = Ok (Vector2D.mk (- Vector2D.x v) (Vector2D.y v)) /\
   Vector2D.reflect (Vector2D.mk (Vector2D.x v) (- Vector2D.y v)) (Vector2D.mk 0 k)
   = Ok v /\
   Vector2D.reflect (Vector2D.mk (- Vector2D.x v) (Vector2D.y v)) (Vector2D.mk k 0)
   = Ok v).
Proof.
  split; [apply reflect_zero_normal |].
  intros Hk.
  split; [apply reflect_vertical_normal; exact Hk |].
  split; [apply reflect_horizontal_normal; exact Hk |].
  split.
  - rewrite reflect_vertical_normal by exact Hk. cbn [Vector2D.x Vector2D.y].
    rewrite Ropp_involutive. destruct v. reflexivity.
  - rewrite reflect_horizontal_normal by exact Hk. cbn [Vector2D.x Vector2D.y].
    rewrite Ropp_involutive. destruct v. reflexivity.
Qed.

Lemma reflect_axis_aligned_witness :
  Vector2D.reflect (Vector2D.mk 3 4) (Vector2D.mk 0 (-5))
  = Ok (Vector2D.mk 3 (- 4)).
Proof.
  assert (H : (-5 <> 0)%R) by lra.
  exact (proj1 (proj2 (reflect_axis_aligned (Vector2D.mk 3 4) (-5)) H)).
Defined.

Lemma magnitude_of_unit (u : Vector2D.t) :
  Vector2D.x u ^ 2 + Vector2D.y u ^ 2 = 1 -> Vector2D.magnitude u = 1.
Proof. intros H. unfold Vector2D.magnitude. rewrite H. apply sqrt_1. Qed.

(** X4. [set_magnitude(m)] never raises [ZeroDivisionError].  On the zero
    vector it returns the zero vector whatever [m] is, so the magnitude
    asked for is not reached; on any other vector it returns
    [(x / |v| * m, y / |v| * m)]. *)
Theorem set_magnitude_zero_policy (v : Vector2D.t) (m : R) :
  Vector2D.set_magnitude (Vector2D.mk 0 0) m = Ok (Vector2D.mk 0 0) /\
  (exists w : Vector2D.t, Vector2D.set_magnitude v m = Ok w) /\
  (v <> Vector2D.mk 0 0 ->
   Vector2D.set_magnitude v m =
     Ok (Vector2D.mk (Vector2D.x v / Vector2D.magnitude v * m)
                     (Vector2D.y v / Vector2D.magnitude v * m))).
Proof.
  assert (Hz : Vector2D.set_magnitude (Vector2D.mk 0 0) m = Ok (Vector2D.mk 0 0)).
  { unfold Vector2D.set_magnitude. rewrite normalize_zero. cbn [bind].
    unfold Vector2D.mul. cbn [Vector2D.x Vector2D.y]. do 2 f_equal; ring. }
  assert (Hnz : Vector2D.magnitude v <> 0 ->
                Vector2D.set_magnitude v m =
                  Ok (Vector2D.mk (Vector2D.x v / Vector2D.magnitude v * m)
                                  (Vector2D.y v / Vector2D.magnitude v * m))).
  { intros E. unfold Vector2D.set_magnitude.
    rewrite (normalize_nonzero v E). reflexivity. }
  split; [exact Hz |]. split.
  - destruct (Req_dec_T (Vector2D.magnitude v) 0) as [E | E].
    + apply magnitude_zero_iff in E. subst v. eexists. exact Hz.
    + eexists. apply Hnz. exact E.
  - intros Hv. apply Hnz. intros E. apply magnitude_zero_iff in E. contradiction.
Qed.

Lemma set_magnitude_zero_policy_witness :
  Vector2D.set_magnitude (Vector2D.mk 3 4) 7 =
    Ok (Vector2D.mk (3 / Vector2D.magnitude (Vector2D.mk 3 4) * 7)
                    (4 / Vector2D.magnitude (Vector2D.mk 3 4) * 7)).
Proof.
  apply (proj2 (proj2 (set_magnitude_zero_policy (Vector2D.mk 3 4) 7))).
  intros E. injection E as E3 E4. lra.
Defined.

(** * Further properties of the paddle *)

(** X6. [get_normal] returns one of the two horizontal unit vectors, and
    the one on the ball's side of the paddle's vertical center line: its
    [x] component never has the sign opposite to the ball's horizontal
    offset from the center (a ball exactly on the center line gets the
    left-facing normal). *)
Theorem get_normal_faces_ball (p : Paddle.t) (ball_pos : Vector2D.t) :
  let n := Paddle.get_normal p ball_pos in
  let dx := Vector2D.x ball_pos
            - (Vector2D.x (Paddle.position p) + Paddle.width p / 2) in
  (n = Vector2D.mk 1 0 \/ n = Vector2D.mk (-1) 0) /\
  Vector2D.magnitude n = 1 /\
  0 <= Vector2D.x n * dx /\
  (n = Vector2D.mk 1 0 <-> 0 < dx).
Proof.
  intros n dx. subst n dx. unfold Paddle.get_normal, Vector2D.sub.
  cbn [Vector2D.x Vector2D.y].
  destruct (Rlt_dec 0 _) as [H | H].
  - split; [left; reflexivity |].
    split; [apply magnitude_of_unit; cbn [Vector2D.x Vector2D.y]; ring |].
    cbn [Vector2D.x]. split; [lra |]. split; [intros _; exact H | reflexivity].
  - split; [right; reflexivity |].
    split; [apply magnitude_of_unit; cbn [Vector2D.x Vector2D.y]; ring |].
    cbn [Vector2D.x]. split; [lra |].
    split; [| contradiction].
    intros E. injection E as E. lra.
Qed.

Lemma get_normal_faces_ball_witness :
  Paddle.get_normal Game.start_left_paddle (Vector2D.mk 70 360) = Vector2D.mk 1 0.
Proof.
  apply (proj2 (proj2 (proj2 (proj2
           (get_normal_faces_ball Game.start_left_paddle (Vector2D.mk 70 360)))))).
  unfold Game.start_left_paddle, Paddle.init, Paddle.default_width.
  cbn [Paddle.position Paddle.width Vector2D.x]. lra.
Defined.

(** * Further properties of the ball *)

Lemma wall_bounced_magnitude (b : Ball.t) (y0 : R) :
  Vector2D.magnitude (Ball.velocity (wall_bounced b y0))
  = Vector2D.magnitude (Ball.velocity b).
Proof.
  apply magnitude_eq_of_sq. unfold wall_bounced.
  cbn [Ball.velocity Vector2D.x Vector2D.y]. ring.
Qed.

(** The three outcomes of [check_wall_collision]. *)
Lemma check_wall_collision_cases (b : Ball.t) :
  (Vector2D.y (Ball.position b) - Ball.radius b <= 0 /\
   Ball.check_wall_collision b = Ok (wall_bounced b (Ball.radius b), true)) \/
  (0 < Vector2D.y (Ball.position b) - Ball.radius b /\
   WINDOW_HEIGHT <= Vector2D.y (Ball.position b) + Ball.radius b /\
   Ball.check_wall_collision b =
     Ok (wall_bounced b (WINDOW_HEIGHT - Ball.radius b), true)) \/
  (0 < Vector2D.y (Ball.position b) - Ball.radius b /\
   Vector2D.y (Ball.position b) + Ball.radius b < WINDOW_HEIGHT /\
   Ball.check_wall_collision b = Ok (b, false)).
Proof.
  destruct (Rle_dec (Vector2D.y (Ball.position b) - Ball.radius b) 0) as [H0 | H0].
  - left. split; [exact H0 | apply check_wall_collision_top; exact H0].
  - destruct (Rle_dec WINDOW_HEIGHT
                (Vector2D.y (Ball.position b) + Ball.radius b)) as [H1 | H1].
    + right; left. split; [lra |]. split; [exact H1 |].
      apply check_wall_collision_bottom; assumption.
    + right; right. split; [lra |]. split; [lra |].
      apply check_wall_collision_none; assumption.
Qed.

(** X8. [check_wall_collision] never raises and never changes the speed,
    the horizontal velocity, the horizontal position or the radius; a ball
    that fits between the walls ([2 * radius <= WINDOW_HEIGHT]) leaves it
    with [radius <= position.y <= WINDOW_HEIGHT - radius], and a call that
    answers [False] has changed nothing. *)
Theorem wall_collision_confines (b : Ball.t) :
  exists (b' : Ball.t) (hit : bool),
    Ball.check_wall_collision b = Ok (b', hit) /\
    Vector2D.magnitude (Ball.velocity b') = Vector2D.magnitude (Ball.velocity b) /\
    Vector2D.x (Ball.velocity b') = Vector2D.x (Ball.velocity b) /\
    Vector2D.x (Ball.position b') = Vector2D.x (Ball.position b) /\
    Ball.radius b' = Ball.radius b /\
    (2 * Ball.radius b <= WINDOW_HEIGHT ->
     Ball.radius b <= Vector2D.y (Ball.position b')
       <= WINDOW_HEIGHT - Ball.radius b) /\
    (hit = false -> b' = b).
Proof.
  destruct (check_wall_collision_cases b)
    as [[H0 E] | [[H0 [H1 E]] | [H0 [H1 E]]]];
    eexists; eexists; (split; [exact E |]);
    rewrite ?wall_bounced_magnitude;
    unfold wall_bounced; cbn [Ball.velocity Ball.position Ball.radius
                                Vector2D.x Vector2D.y];
    repeat split; try reflexivity; try discriminate; intros; lra.
Qed.

Lemma wall_collision_confines_witness :
  exists (b' : Ball.t) (hit : bool),
    Ball.check_wall_collision (Ball.init 540 3 8) = Ok (b', hit) /\
    Ball.radius (Ball.init 540 3 8) <= Vector2D.y (Ball.position b')
      <= WINDOW_HEIGHT - Ball.radius (Ball.init 540 3 8).
Proof.
  destruct (wall_collision_confines (Ball.init 540 3 8))
    as (b' & hit & E & _ & _ & _ & _ & Hy & _).
  exists b', hit. split; [exact E |]. apply Hy.
  unfold Ball.init, WINDOW_HEIGHT. cbn [Ball.radius]. lra.
Defined.

(** X9. A ball that [check_wall_collision] has just bounced still touches
    the wall it was put on: a second call without a move in between
    bounces it again and gives it back the velocity it had before the
    first. *)
Theorem wall_collision_twice (b b1 : Ball.t) :
  Ball.check_wall_collision b = Ok (b1, true) ->
  exists b2 : Ball.t,
    Ball.check_wall_collision b1 = Ok (b2, true) /\
    Ball.velocity b2 = Ball.velocity b.
Proof.
  intros H.
  assert (Hb1 : exists y0 : R,
             b1 = wall_bounced b y0 /\
             (y0 = Ball.radius b \/ y0 = WINDOW_HEIGHT - Ball.radius b)).
  { destruct (check_wall_collision_cases b)
      as [[_ E] | [[_ [_ E]] | [_ [_ E]]]];
      rewrite E in H; injection H as <-;
      try discriminate; eexists; (split; [reflexivity |]); auto. }
  destruct Hb1 as (y0 & -> & Hy0).
  assert (Hv : forall y1 : R,
             Ball.velocity (wall_bounced (wall_bounced b y0) y1) = Ball.velocity b).
  { intros y1. unfold wall_bounced. cbn [Ball.velocity Vector2D.x Vector2D.y].
    rewrite Ropp_involutive. destruct (Ball.velocity b). reflexivity. }
  destruct (check_wall_collision_cases (wall_bounced b y0))
    as [[_ E] | [[_ [_ E]] | [H0 [H1 E]]]].
  - eexists. split; [exact E | apply Hv].
  - eexists. split; [exact E | apply Hv].
  - exfalso. unfold wall_bounced in H0, H1.
    cbn [Ball.position Ball.radius Vector2D.y] in H0, H1.
    destruct Hy0; subst y0; lra.
Qed.

Lemma wall_collision_twice_witness :
  exists b2 : Ball.t,
    Ball.check_wall_collision
      (wall_bounced (Ball.set_velocity (Ball.init 540 3 8) (Vector2D.mk 100 (-50)))
         8) = Ok (b2, true) /\
    Ball.velocity b2 = Vector2D.mk 100 (-50).
Proof.
  apply (wall_collision_twice
           (Ball.set_velocity (Ball.init 540 3 8) (Vector2D.mk 100 (-50)))).
  apply check_wall_collision_top.
  unfold Ball.init. cbn [Ball.set_velocity Ball.position Ball.radius Vector2D.y].
  lra.
Defined.

(** X10. The only way a paddle bounce fails is a paddle of height 0:
    [reflect_from_paddle] raises [ZeroDivisionError] exactly then, and
    [check_paddle_collision] exactly when, in addition, the ball is within
    reach (otherwise it answers [False] before dividing). *)
Theorem paddle_bounce_raises_iff (b : Ball.t) (p : Paddle.t) :
  (Ball.reflect_from_paddle b p = Raise ZeroDivisionError <->
   Paddle.height p = 0) /\
  (Ball.check_paddle_collision b p = Raise ZeroDivisionError <->
   Paddle.height p = 0 /\ Ball.distance b p <= Ball.radius b).
Proof.
  split; split.
  - intros H. destruct (Req_dec_T (Paddle.height p) 0) as [E | E]; [exact E |].
    rewrite (reflect_from_paddle_Ok b p E) in H. discriminate H.
  - apply reflect_from_paddle_zero_height.
  - intros H.
    destruct (Rle_dec (Ball.distance b p) (Ball.radius b)) as [Hd | Hd].
    + split; [| exact Hd].
      destruct (Req_dec_T (Paddle.height p) 0) as [E | E]; [exact E |].
      destruct (check_paddle_collision_hit b p E Hd) as (b' & Hb' & _).
      rewrite Hb' in H. discriminate H.
    + rewrite (check_paddle_collision_miss b p Hd) in H. discriminate H.
  - intros [Hh Hd]. unfold Ball.check_paddle_collision.
    destruct (Rle_dec (Ball.distance b p) (Ball.radius b)); [| contradiction].
    rewrite (reflect_from_paddle_zero_height b p Hh). reflexivity.
Qed.

Lemma paddle_bounce_raises_iff_witness :
  Ball.reflect_from_paddle (Ball.init 70 360 8) (Paddle.init 50 310 15 0)
  = Raise ZeroDivisionError.
Proof.
  exact (proj2 (proj1 (paddle_bounce_raises_iff (Ball.init 70 360 8)
                         (Paddle.init 50 310 15 0))) eq_refl).
Defined.

Lemma div_ge_1 (a c : R) : 0 < c -> c <= a -> 1 <= a / c.
Proof.
  intros Hc Ha. replace 1 with (c / c) by (field; lra).
  unfold Rdiv. apply Rmult_le_compat_r; [| exact Ha].
  left. apply Rinv_0_lt_compat. exact Hc.
Qed.

Lemma div_le_m1 (a c : R) : 0 < c -> a <= - c -> a / c <= -1.
Proof.
  intros Hc Ha. replace (-1) with (- c / c) by (field; lra).
  unfold Rdiv. apply Rmult_le_compat_r; [| exact Ha].
  left. apply Rinv_0_lt_compat. exact Hc.
Qed.

Lemma clamp_mono (lo hi a a' : R) : a <= a' -> clamp lo hi a <= clamp lo hi a'.
Proof.
  intros H. unfold clamp.
  assert (Hm : Rmin a hi <= Rmin a' hi).
  { apply Rmin_glb; [eapply Rle_trans; [apply Rmin_l | exact H] | apply Rmin_r]. }
  apply Rmax_lub; [apply Rmax_l |].
  eapply Rle_trans; [exact Hm | apply Rmax_r].
Qed.

(** X11. On a paddle of positive height the bounce angle saturates: for a
    ball whose center is level with the paddle's lower end or anywhere
    below it, the bounce angle is exactly [MAX_BOUNCE_ANGLE] and the
    velocity [(cos(MAX_BOUNCE_ANGLE) * speed * dir,
    sin(MAX_BOUNCE_ANGLE) * speed)]; level with the upper end or above, the
    angle is exactly [-MAX_BOUNCE_ANGLE]; level with the paddle's center the
    ball leaves horizontally, with velocity [(speed * dir, 0)]. *)
Theorem paddle_bounce_saturates (b : Ball.t) (p : Paddle.t) :
  0 < Paddle.height p ->
  let s := Ball.bounce_speed b in
  let d := Ball.bounce_direction b in
  let top := Vector2D.y (Paddle.position p) in
  exists b' : Ball.t,
    Ball.reflect_from_paddle b p = Ok b' /\
    (top + Paddle.height p <= Vector2D.y (Ball.position b) ->
     Ball.velocity b' =
       Vector2D.mk (cos MAX_BOUNCE_ANGLE * s * d) (sin MAX_BOUNCE_ANGLE * s)) /\
    (Vector2D.y (Ball.position b) <= top ->
     Ball.velocity b' =
       Vector2D.mk (cos (- MAX_BOUNCE_ANGLE) * s * d)
                   (sin (- MAX_BOUNCE_ANGLE) * s)) /\
    (Vector2D.y (Ball.position b) = top + Paddle.height p / 2 ->
     Ball.velocity b' = Vector2D.mk (s * d) 0).
Proof.
  intros Hh s d top. subst s d top.
  eexists. split; [apply reflect_from_paddle_Ok; lra |].
  cbn [Ball.set_velocity Ball.velocity]. unfold bounce_angle.
  rewrite <- MAX_BOUNCE_ANGLE_PI3.
  split; [| split]; intros Hy.
  - rewrite clamp_above; [| lra | apply div_ge_1; lra].
    replace (1 * MAX_BOUNCE_ANGLE) with MAX_BOUNCE_ANGLE by ring.
    reflexivity.
  - rewrite clamp_below; [| lra | apply div_le_m1; lra].
    replace (-1 * MAX_BOUNCE_ANGLE) with (- MAX_BOUNCE_ANGLE) by ring.
    reflexivity.
  - rewrite Hy.
    replace ((Vector2D.y (Paddle.position p) + Paddle.height p / 2
              - (Vector2D.y (Paddle.position p) + Paddle.height p / 2))
             / (Paddle.height p / 2)) with 0 by (field; lra).
    rewrite clamp_inside by lra.
    replace (0 * MAX_BOUNCE_ANGLE) with 0 by ring.
    rewrite cos_0, sin_0. f_equal; ring.
Qed.

Lemma paddle_bounce_saturates_witness :
  exists b' : Ball.t,
    Ball.reflect_from_paddle
      (Ball.set_velocity (Ball.init 70 415 8) (Vector2D.mk (-400) 0))
      Game.start_left_paddle = Ok b' /\
    Ball.velocity b' =
      Vector2D.mk
        (cos MAX_BOUNCE_ANGLE
         * Ball.bounce_speed
             (Ball.set_velocity (Ball.init 70 415 8) (Vector2D.mk (-400) 0))
         * Ball.bounce_direction
             (Ball.set_velocity (Ball.init 70 415 8) (Vector2D.mk (-400) 0)))
        (sin MAX_BOUNCE_ANGLE
         * Ball.bounce_speed
             (Ball.set_velocity (Ball.init 70 415 8) (Vector2D.mk (-400) 0))).
Proof.
  assert (Hh : 0 < Paddle.height Game.start_left_paddle).
  { unfold Game.start_left_paddle, Paddle.init, Paddle.default_height.
    cbn [Paddle.height]. lra. }
  destruct (paddle_bounce_saturates
              (Ball.set_velocity (Ball.init 70 415 8) (Vector2D.mk (-400) 0))
              Game.start_left_paddle Hh) as (b' & E & Hlow & _).
  exists b'. split; [exact E |]. apply Hlow.
  unfold Game.start_left_paddle, Paddle.init, Paddle.default_height,
    WINDOW_HEIGHT, Ball.init.
  cbn [Paddle.position Paddle.height Ball.set_velocity Ball.position Vector2D.y].
  lra.
Defined.

Lemma bounce_angle_mono (b1 b2 : Ball.t) (p : Paddle.t) :
  0 < Paddle.height p ->
  Vector2D.y (Ball.position b1) <= Vector2D.y (Ball.position b2) ->
  bounce_angle b1 p <= bounce_angle b2 p.
Proof.
  intros Hh Hy. unfold bounce_angle.
  apply Rmult_le_compat_r; [pose proof PI_RGT_0; lra |].
  apply clamp_mono. unfold Rdiv. apply Rmult_le_compat_r; [| lra].
  left. apply Rinv_0_lt_compat. lra.
Qed.

(** X12. On a paddle of positive height, and with a speed factor that is
    not negative, the vertical velocity after the bounce grows with the
    height of the hit: of two balls that differ only in position, the one
    that hits lower on the paddle (larger [y]) leaves with the larger
    [velocity.y]. *)
Theorem paddle_bounce_monotone (b : Ball.t) (p : Paddle.t) (pos1 pos2 : Vector2D.t) :
  0 < Paddle.height p ->
  0 <= Ball.acceleration_factor b ->
  Vector2D.y pos1 <= Vector2D.y pos2 ->
  exists b1 b2 : Ball.t,
    Ball.reflect_from_paddle (Ball.set_position b pos1) p = Ok b1 /\
    Ball.reflect_from_paddle (Ball.set_position b pos2) p = Ok b2 /\
    Vector2D.y (Ball.velocity b1) <= Vector2D.y (Ball.velocity b2).
Proof.
  intros Hh Hf Hy.
  eexists. eexists.
  split; [apply reflect_from_paddle_Ok; lra |].
  split; [apply reflect_from_paddle_Ok; lra |].
  cbn [Ball.set_velocity Ball.velocity Vector2D.y].
  change (Ball.bounce_speed (Ball.set_position b pos1)) with (Ball.bounce_speed b).
  change (Ball.bounce_speed (Ball.set_position b pos2)) with (Ball.bounce_speed b).
  apply Rmult_le_compat_r; [apply bounce_speed_nonneg; intros _; exact Hf |].
  pose proof (bounce_angle_bounds (Ball.set_position b pos1) p).
  pose proof (bounce_angle_bounds (Ball.set_position b pos2) p).
  pose proof PI_RGT_0.
  apply sin_incr_1; try lra.
  apply bounce_angle_mono; [exact Hh | exact Hy].
Qed.

Lemma paddle_bounce_monotone_witness :
  exists b1 b2 : Ball.t,
    Ball.reflect_from_paddle
      (Ball.set_position (Ball.init 70 360 8) (Vector2D.mk 70 330))
      Game.start_left_paddle = Ok b1 /\
    Ball.reflect_from_paddle
      (Ball.set_position (Ball.init 70 360 8) (Vector2D.mk 70 390))
      Game.start_left_paddle = Ok b2 /\
    Vector2D.y (Ball.velocity b1) <= Vector2D.y (Ball.velocity b2).
Proof.
  apply paddle_bounce_monotone.
  - unfold Game.start_left_paddle, Paddle.init, Paddle.default_height.
    cbn [Paddle.height]. lra.
  - unfold Ball.init. cbn [Ball.acceleration_factor]. lra.
  - cbn [Vector2D.y]. lra.
Defined.

(** X13. A bounce off a paddle always turns the ball around and keeps it
    moving sideways: with a positive speed factor, an incoming
    [velocity.x < 0] leaves with [velocity.x > 0], an incoming
    [velocity.x > 0] with [velocity.x < 0], and in every case the
    horizontal component is at least half of the new speed. *)
Theorem paddle_bounce_returns (b : Ball.t) (p : Paddle.t) :
  Paddle.height p <> 0 ->
  0 < Ball.acceleration_factor b ->
  exists b' : Ball.t,
    Ball.reflect_from_paddle b p = Ok b' /\
    Vector2D.magnitude (Ball.velocity b') <= 2 * Rabs (Vector2D.x (Ball.velocity b')) /\
    (Vector2D.x (Ball.velocity b) < 0 -> 0 < Vector2D.x (Ball.velocity b')) /\
    (0 < Vector2D.x (Ball.velocity b) -> Vector2D.x (Ball.velocity b') < 0).
Proof.
  intros Hh Hf.
  eexists. split; [apply reflect_from_paddle_Ok; exact Hh |].
  cbn [Ball.set_velocity Ball.velocity].
  pose proof (cos_ge_half _ (bounce_angle_bounds b p)) as Hc.
  assert (Hs : 0 <= Ball.bounce_speed b).
  { apply bounce_speed_nonneg. intros _. lra. }
  assert (Hpos : Vector2D.x (Ball.velocity b) <> 0 -> 0 < Ball.bounce_speed b).
  { intros Hx. pose proof (abs_x_le_magnitude (Ball.velocity b)) as Ha.
    assert (0 < Rabs (Vector2D.x (Ball.velocity b))) by (apply Rabs_pos_lt; exact Hx).
    unfold Ball.bounce_speed.
    destruct (Ball.acceleration_enabled b); [apply Rmult_lt_0_compat |]; lra. }
  split; [| split].
  - rewrite bounce_magnitude by exact Hs. cbn [Vector2D.x].
    rewrite !Rabs_mult, (Rabs_pos_eq (cos _)), (Rabs_pos_eq (Ball.bounce_speed b))
      by lra.
    replace (Rabs (Ball.bounce_direction b)) with 1
      by (unfold Rabs; destruct (Rcase_abs _);
          destruct (bounce_direction_unit b); lra).
    nra.
  - intros Hx. cbn [Vector2D.x]. specialize (Hpos ltac:(lra)).
    unfold Ball.bounce_direction.
    destruct (Rlt_dec (Vector2D.x (Ball.velocity b)) 0); [| contradiction].
    assert (0 < cos (bounce_angle b p) * Ball.bounce_speed b)
      by (apply Rmult_lt_0_compat; lra).
    lra.
  - intros Hx. cbn [Vector2D.x]. specialize (Hpos ltac:(lra)).
    unfold Ball.bounce_direction.
    destruct (Rlt_dec (Vector2D.x (Ball.velocity b)) 0); [lra |].
    assert (0 < cos (bounce_angle b p) * Ball.bounce_speed b)
      by (apply Rmult_lt_0_compat; lra).
    lra.
Qed.

Lemma paddle_bounce_returns_witness :
  exists b' : Ball.t,
    Ball.reflect_from_paddle
      (Ball.set_velocity (Ball.init 70 380 8) (Vector2D.mk (-400) 30))
      Game.start_left_paddle = Ok b' /\
    0 < Vector2D.x (Ball.velocity b').
Proof.
  assert (Hf : 0 < Ball.acceleration_factor
                     (Ball.set_velocity (Ball.init 70 380 8)
                        (Vector2D.mk (-400) 30))).
  { unfold Ball.init. cbn [Ball.set_velocity Ball.acceleration_factor]. lra. }
  destruct (paddle_bounce_returns
              (Ball.set_velocity (Ball.init 70 380 8) (Vector2D.mk (-400) 30))
              Game.start_left_paddle (proj1 start_paddle_heights) Hf)
    as (b' & E & _ & Hneg & _).
  exists b'. split; [exact E |]. apply Hneg.
  unfold Ball.init. cbn [Ball.set_velocity Ball.velocity Vector2D.x]. lra.
Defined.

(** Distance of a ball whose center is level with the paddle. *)
Lemma face_distance (b : Ball.t) (p : Paddle.t) :
  Vector2D.y (Paddle.position p) <= Vector2D.y (Ball.position b)
    <= Vector2D.y (Paddle.position p) + Paddle.height p ->
  Ball.distance b p =
    Rabs (Vector2D.x (Ball.position b)
          - clamp (Vector2D.x (Paddle.position p))
              (Vector2D.x (Paddle.position p) + Paddle.width p)
              (Vector2D.x (Ball.position b))).
Proof.
  intros Hy. unfold Ball.distance. rewrite closest_point_clamp.
  rewrite (clamp_inside (Vector2D.y (Paddle.position p))) by exact Hy.
  unfold Vector2D.sub. cbn [Vector2D.x Vector2D.y].
  replace (Vector2D.y (Ball.position b) - Vector2D.y (Ball.position b))
    with 0 by ring.
  apply magnitude_horizontal.
Qed.

Lemma bounce_velocity_x_sign (b : Ball.t) (p : Paddle.t) :
  0 < Ball.acceleration_factor b ->
  (Vector2D.x (Ball.velocity b) < 0 -> 0 < Vector2D.x (bounce_velocity b p)) /\
  (0 < Vector2D.x (Ball.velocity b) -> Vector2D.x (bounce_velocity b p) < 0).
Proof.
  intros Hf. unfold bounce_velocity. cbn [Vector2D.x].
  pose proof (cos_ge_half _ (bounce_angle_bounds b p)) as Hc.
  assert (Hpos : Vector2D.x (Ball.velocity b) <> 0 -> 0 < Ball.bounce_speed b).
  { intros Hx. pose proof (abs_x_le_magnitude (Ball.velocity b)) as Ha.
    assert (0 < Rabs (Vector2D.x (Ball.velocity b))) by (apply Rabs_pos_lt; exact Hx).
    unfold Ball.bounce_speed.
    destruct (Ball.acceleration_enabled b); [apply Rmult_lt_0_compat |]; lra. }
  split; intros Hx; specialize (Hpos ltac:(lra));
    assert (0 < cos (bounce_angle b p) * Ball.bounce_speed b)
      by (apply Rmult_lt_0_compat; lra);
    unfold Ball.bounce_direction;
    destruct (Rlt_dec (Vector2D.x (Ball.velocity b)) 0); lra.
Qed.

(** X14. A ball that overlaps a face of the paddle while moving towards it
    (center level with the paddle, beside it, closer than [radius]) is
    bounced and put exactly tangent to that face, moving away; once it has
    moved on with any positive [dt * speed_multiplier], the same paddle no
    longer reports a collision.  Stated for the right face (ball coming
    from the right) and for the left face (ball coming from the left). *)
Theorem face_hit_no_recollision (b : Ball.t) (p : Paddle.t) (dt m : R) :
  0 <= Paddle.width p -> 0 < Paddle.height p ->
  0 < Ball.acceleration_factor b ->
  0 < dt * m ->
  Vector2D.y (Paddle.position p) <= Vector2D.y (Ball.position b)
    <= Vector2D.y (Paddle.position p) + Paddle.height p ->
  let left_edge := Vector2D.x (Paddle.position p) in
  let right_edge := Vector2D.x (Paddle.position p) + Paddle.width p in
  let bx := Vector2D.x (Ball.position b) in
  (right_edge <= bx -> bx - right_edge < Ball.radius b ->
   Vector2D.x (Ball.velocity b) < 0 ->
   exists b1 : Ball.t,
     Ball.check_paddle_collision b p = Ok (b1, true) /\
     Vector2D.x (Ball.position b1) = right_edge + Ball.radius b /\
     0 < Vector2D.x (Ball.velocity b1) /\
     Ball.check_paddle_collision (Ball.update b1 dt m) p
     = Ok (Ball.update b1 dt m, false)) /\
  (bx <= left_edge -> left_edge - bx < Ball.radius b ->
   0 < Vector2D.x (Ball.velocity b) ->
   exists b1 : Ball.t,
     Ball.check_paddle_collision b p = Ok (b1, true) /\
     Vector2D.x (Ball.position b1) = left_edge - Ball.radius b /\
     Vector2D.x (Ball.velocity b1) < 0 /\
     Ball.check_paddle_collision (Ball.update b1 dt m) p
     = Ok (Ball.update b1 dt m, false)).
Proof.
  intros Hw Hh Hf Hdt Hy left_edge right_edge bx. subst left_edge right_edge bx.
  pose proof (face_distance b p Hy) as Hd.
  destruct (bounce_velocity_x_sign b p Hf) as [Hneg Hpos].
  split.
  - intros Hx Hov Hv. specialize (Hneg Hv).
    rewrite clamp_above in Hd by lra. rewrite Rabs_pos_eq in Hd by lra.
    rewrite check_paddle_collision_overlap by lra.
    eexists. split; [reflexivity |].
    cbn [Ball.position Ball.velocity Vector2D.x].
    destruct (Rlt_dec 0 (Vector2D.x (bounce_velocity b p))); [| contradiction].
    split; [rewrite Hd; ring |]. split; [exact Hneg |].
    apply check_paddle_collision_miss. intros Hreach.
    apply (reach_x_range _ p Hw) in Hreach.
    unfold Ball.update in Hreach.
    cbn [Ball.set_position Ball.set_speed_multiplier Ball.position Ball.velocity
           Ball.radius] in Hreach.
    unfold Vector2D.add, Vector2D.mul in Hreach.
    cbn [Vector2D.x Vector2D.y] in Hreach. rewrite Hd in Hreach.
    assert (0 < Vector2D.x (bounce_velocity b p) * (dt * m))
      by (apply Rmult_lt_0_compat; assumption).
    lra.
  - intros Hx Hov Hv. specialize (Hpos Hv).
    rewrite clamp_below in Hd by lra. rewrite Rabs_neg_lit in Hd by lra.
    rewrite check_paddle_collision_overlap by lra.
    eexists. split; [reflexivity |].
    cbn [Ball.position Ball.velocity Vector2D.x].
    destruct (Rlt_dec 0 (Vector2D.x (bounce_velocity b p))); [lra |].
    split; [rewrite Hd; ring |]. split; [exact Hpos |].
    apply check_paddle_collision_miss. intros Hreach.
    apply (reach_x_range _ p Hw) in Hreach.
    unfold Ball.update in Hreach.
    cbn [Ball.set_position Ball.set_speed_multiplier Ball.position Ball.velocity
           Ball.radius] in Hreach.
    unfold Vector2D.add, Vector2D.mul in Hreach.
    cbn [Vector2D.x Vector2D.y] in Hreach. rewrite Hd in Hreach.
    assert (0 < - Vector2D.x (bounce_velocity b p) * (dt * m))
      by (apply Rmult_lt_0_compat; lra).
    lra.
Qed.

Lemma face_hit_no_recollision_witness :
  exists b1 : Ball.t,
    Ball.check_paddle_collision crowded_ball Game.start_left_paddle = Ok (b1, true) /\
    Ball.check_paddle_collision (Ball.update b1 (1 / 60) 1) Game.start_left_paddle
    = Ok (Ball.update b1 (1 / 60) 1, false).
Proof.
  assert (Hw : 0 <= Paddle.width Game.start_left_paddle).
  { unfold Game.start_left_paddle, Paddle.init, Paddle.default_width.
    cbn [Paddle.width]. lra. }
  assert (Hh : 0 < Paddle.height Game.start_left_paddle).
  { unfold Game.start_left_paddle, Paddle.init, Paddle.default_height.
    cbn [Paddle.height]. lra. }
  assert (Hf : 0 < Ball.acceleration_factor crowded_ball).
  { unfold crowded_ball, Ball.init.
    cbn [Ball.set_velocity Ball.acceleration_factor]. lra. }
  assert (Hdt : 0 < 1 / 60 * 1) by lra.
  assert (Hy : Vector2D.y (Paddle.position Game.start_left_paddle)
               <= Vector2D.y (Ball.position crowded_ball)
               <= Vector2D.y (Paddle.position Game.start_left_paddle)
                  + Paddle.height Game.start_left_paddle).
  { unfold Game.start_left_paddle, Paddle.init, Paddle.default_height,
      WINDOW_HEIGHT, crowded_ball, Ball.init.
    cbn [Paddle.position Paddle.height Ball.set_velocity Ball.position
           Vector2D.y]. lra. }
  destruct (face_hit_no_recollision crowded_ball Game.start_left_paddle
              (1 / 60) 1 Hw Hh Hf Hdt Hy) as [Hright _].
  destruct Hright as (b1 & E1 & _ & _ & E2);
    [ | | | exists b1; split; assumption];
    unfold Game.start_left_paddle, Paddle.init, Paddle.default_width,
      crowded_ball, Ball.init;
    cbn [Paddle.position Paddle.width Ball.set_velocity Ball.position
           Ball.velocity Ball.radius Vector2D.x]; lra.
Defined.

(** * Further properties of the frame update *)

(** [Paddle.move], field by field. *)
Lemma paddle_move_fields (p : Paddle.t) (direction : Z) (dt m : R) :
  Paddle.height p <= WINDOW_HEIGHT ->
  Vector2D.x (Paddle.position (Paddle.move p direction dt m))
  = Vector2D.x (Paddle.position p) /\
  Vector2D.y (Paddle.position (Paddle.move p direction dt m))
  = clamp 0 (WINDOW_HEIGHT - Paddle.height p)
      (Vector2D.y (Paddle.position p) + IZR direction * Paddle.speed p * m * dt) /\
  Paddle.width (Paddle.move p direction dt m) = Paddle.width p /\
  Paddle.height (Paddle.move p direction dt m) = Paddle.height p /\
  Paddle.speed (Paddle.move p direction dt m) = Paddle.speed p.
Proof.
  intros Hh. unfold Paddle.move.
  cbn [Paddle.position Paddle.width Paddle.height Paddle.speed].
  unfold Vector2D.add, Vector2D.mul, Vector2D.set_y.
  cbn [Vector2D.x Vector2D.y].
  set (y1 := Vector2D.y (Paddle.position p)
             + IZR direction * Paddle.speed p * m * dt).
  destruct (clamp_cases 0 (WINDOW_HEIGHT - Paddle.height p) y1 ltac:(lra))
    as [[Hc ->] | [[Hc ->] | [Hc ->]]];
    destruct (Rlt_dec y1 0);
    try destruct (Rlt_dec WINDOW_HEIGHT (y1 + Paddle.height p));
    cbn [Vector2D.x Vector2D.y]; repeat split; lra.
Qed.

Lemma paddle_move_on_board (p : Paddle.t) (direction : Z) (dt m : R) :
  Paddle.height p <= WINDOW_HEIGHT ->
  on_board (Paddle.move p direction dt m).
Proof.
  intros Hh. unfold on_board.
  destruct (paddle_move_fields p direction dt m Hh) as (_ & -> & _ & -> & _).
  destruct (clamp_cases 0 (WINDOW_HEIGHT - Paddle.height p)
              (Vector2D.y (Paddle.position p)
               + IZR direction * Paddle.speed p * m * dt) ltac:(lra))
    as [[Hc ->] | [[Hc ->] | [Hc ->]]]; lra.
Qed.

Lemma handle_input_fields (g : Game.t) (keys : Game.Keys) (dt : R) :
  Game.left_paddle (Game.handle_input g keys dt) =
    (if Game.K_w keys
     then Paddle.move (Game.left_paddle g) (-1) dt (Game.paddle_speed_slider g)
     else if Game.K_s keys
          then Paddle.move (Game.left_paddle g) 1 dt (Game.paddle_speed_slider g)
          else Game.left_paddle g) /\
  Game.right_paddle (Game.handle_input g keys dt) =
    (if Game.K_UP keys
     then Paddle.move (Game.right_paddle g) (-1) dt (Game.paddle_speed_slider g)
     else if Game.K_DOWN keys
          then Paddle.move (Game.right_paddle g) 1 dt (Game.paddle_speed_slider g)
          else Game.right_paddle g) /\
  Game.ball (Game.handle_input g keys dt) = Game.ball g /\
  Game.state (Game.handle_input g keys dt) = Game.state g /\
  Game.left_score (Game.handle_input g keys dt) = Game.left_score g /\
  Game.right_score (Game.handle_input g keys dt) = Game.right_score g /\
  Game.winning_score (Game.handle_input g keys dt) = Game.winning_score g.
Proof.
  unfold Game.handle_input.
  destruct (Game.K_w keys), (Game.K_s keys), (Game.K_UP keys), (Game.K_DOWN keys);
    repeat split.
Qed.

Lemma paddle_move_up_le (p : Paddle.t) (dt m : R) :
  on_board p -> 0 <= dt -> 0 <= Paddle.speed p -> 0 <= m ->
  Vector2D.y (Paddle.position (Paddle.move p (-1) dt m))
  <= Vector2D.y (Paddle.position p).
Proof.
  intros Hb Hdt Hs Hm. unfold on_board in Hb.
  destruct (paddle_move_fields p (-1) dt m ltac:(lra)) as (_ & -> & _).
  assert (0 <= Paddle.speed p * m * dt)
    by (apply Rmult_le_pos; [apply Rmult_le_pos |]; assumption).
  destruct (clamp_cases 0 (WINDOW_HEIGHT - Paddle.height p)
              (Vector2D.y (Paddle.position p) + -1 * Paddle.speed p * m * dt)
              ltac:(lra))
    as [[Hc ->] | [[Hc ->] | [Hc ->]]]; lra.
Qed.

Lemma set_paddles_same (g : Game.t) :
  Game.set_right_paddle (Game.set_left_paddle g (Game.left_paddle g))
    (Game.right_paddle g) = g.
Proof. destruct g. reflexivity. Qed.

(** X16. [handle_input] changes nothing in the game but the two paddles.
    A paddle none of whose keys is held is left exactly as it is.  A paddle
    with a key held is replaced by [move(-1, dt, paddle speed)] for the
    upward key, which wins when both keys are held, and by
    [move(1, dt, paddle speed)] for the downward key alone: its velocity
    becomes [(0, -+ speed * paddle speed)], its [x], width, height and
    speed are kept, and (for a paddle no taller than the board) it ends on
    the board.  [move(-1, ...)] never moves a paddle on the board downwards
    for non-negative [dt], speed and multiplier. *)
Theorem handle_input_moves_paddles (g : Game.t) (keys : Game.Keys) (dt : R) :
  Paddle.height (Game.left_paddle g) <= WINDOW_HEIGHT ->
  Paddle.height (Game.right_paddle g) <= WINDOW_HEIGHT ->
  let m := Game.paddle_speed_slider g in
  let moved (p : Paddle.t) (up down : bool) : Paddle.t :=
    if up then Paddle.move p (-1) dt m
    else if down then Paddle.move p 1 dt m
    else p in
  let g' := Game.handle_input g keys dt in
  g' =
    Game.set_right_paddle
      (Game.set_left_paddle g
         (moved (Game.left_paddle g) (Game.K_w keys) (Game.K_s keys)))
      (moved (Game.right_paddle g) (Game.K_UP keys) (Game.K_DOWN keys)) /\
  (forall (p : Paddle.t) (up down : bool),
      Paddle.height p <= WINDOW_HEIGHT ->
      let p' := moved p up down in
      Vector2D.x (Paddle.position p') = Vector2D.x (Paddle.position p) /\
      Paddle.width p' = Paddle.width p /\
      Paddle.height p' = Paddle.height p /\
      Paddle.speed p' = Paddle.speed p /\
      (up = false -> down = false -> p' = p) /\
      (up = true ->
       Paddle.velocity p' = Vector2D.mk 0 (-1 * Paddle.speed p * m) /\
       on_board p' /\
       (on_board p -> 0 <= dt -> 0 <= Paddle.speed p -> 0 <= m ->
        Vector2D.y (Paddle.position p') <= Vector2D.y (Paddle.position p))) /\
      (up = false -> down = true ->
       Paddle.velocity p' = Vector2D.mk 0 (1 * Paddle.speed p * m) /\
       on_board p')).
Proof.
  intros Hl Hr m moved g'. subst g'. split.
  - unfold Game.handle_input. subst moved m. cbv beta.
    destruct (Game.K_w keys), (Game.K_s keys), (Game.K_UP keys),
      (Game.K_DOWN keys); try reflexivity;
      cbn [Game.set_left_paddle Game.set_right_paddle Game.paddle_speed_slider
             Game.left_paddle Game.right_paddle];
      destruct g; reflexivity.
  - intros p up down Hp p'. subst p' moved. cbv beta.
    destruct (paddle_move_fields p (-1) dt m Hp) as (U1 & _ & U2 & U3 & U4).
    destruct (paddle_move_fields p 1 dt m Hp) as (D1 & _ & D2 & D3 & D4).
    destruct up, down;
      repeat match goal with
             | |- _ /\ _ => split
             end;
      try assumption; try reflexivity; try discriminate;
      try (intros; discriminate);
      try (intros _; split; [reflexivity |]; split;
           [apply paddle_move_on_board; exact Hp | apply paddle_move_up_le]);
      try (intros _ _; split;
           [reflexivity | apply paddle_move_on_board; exact Hp]).
Qed.

Lemma handle_input_moves_paddles_witness :
  on_board
    (Paddle.move (Game.left_paddle (Game.init [])) (-1) 2
       (Game.paddle_speed_slider (Game.init []))).
Proof.
  assert (Hl : Paddle.height (Game.left_paddle (Game.init [])) <= WINDOW_HEIGHT).
  { unfold Game.init, Game.start_left_paddle, Paddle.init,
      Paddle.default_height, WINDOW_HEIGHT.
    cbn [Game.left_paddle Paddle.height]. lra. }
  assert (Hr : Paddle.height (Game.right_paddle (Game.init [])) <= WINDOW_HEIGHT).
  { unfold Game.init, Game.start_right_paddle, Paddle.init,
      Paddle.default_height, WINDOW_HEIGHT.
    cbn [Game.right_paddle Paddle.height]. lra. }
  destruct (handle_input_moves_paddles (Game.init [])
              (Game.mkKeys true true false false) 2 Hl Hr) as (_ & H).
  destruct (H (Game.left_paddle (Game.init [])) true true Hl)
    as (_ & _ & _ & _ & _ & Hup & _).
  destruct (Hup eq_refl) as (_ & Hb & _). exact Hb.
Defined.

(** A frame in state [playing], by what [check_score] answers. *)
Lemma update_playing_cases
  (g : Game.t) (dt angle : R) (direction : Z) (b3 : Ball.t)
  (flags : bool * bool * bool) :
  Game.state g = Game.playing ->
  Game.check_collisions (advanced_ball g dt) (Game.left_paddle g)
    (Game.right_paddle g) = Ok (b3, flags) ->
  (snd (Ball.check_score b3) = None /\
   Game.update g dt angle direction = Ok (Game.set_ball g b3)) \/
  (snd (Ball.check_score b3) = Some "left"%string /\
   Game.update g dt angle direction = Ok (scored g b3 angle direction true)) \/
  (snd (Ball.check_score b3) = Some "right"%string /\
   Game.update g dt angle direction = Ok (scored g b3 angle direction false)).
Proof.
  intros Hs Hc. unfold Game.update. rewrite Hs.
  unfold advanced_ball in Hc. rewrite Hc. cbn [bind fst].
  destruct (check_score_cases b3) as [E | [E | E]]; rewrite E; cbn [snd].
  - right; right. split; [reflexivity |]. unfold scored.
    cbn [Game.set_ball Game.set_right_score Game.reset_round
           Game.set_left_paddle Game.set_right_paddle Game.winning_score
           Game.right_score Game.left_score Game.ball].
    destruct (_ <=? _)%Z; reflexivity.
  - right; left. split; [reflexivity |]. unfold scored.
    cbn [Game.set_ball Game.set_left_score Game.reset_round
           Game.set_left_paddle Game.set_right_paddle Game.winning_score
           Game.right_score Game.left_score Game.ball].
    destruct (_ <=? _)%Z; reflexivity.
  - left. split; reflexivity.
Qed.

(** The fields of the game after a scoring frame. *)
Lemma scored_fields (g : Game.t) (b3 : Ball.t) (angle : R) (direction : Z)
  (left_player : bool) :
  let g' := scored g b3 angle direction left_player in
  let won :=
    (Game.winning_score g
     <=? (if left_player then Game.left_score g + 1
          else Game.right_score g + 1))%Z in
  Game.left_score g' =
    (if left_player then Game.left_score g + 1 else Game.left_score g)%Z /\
  Game.right_score g' =
    (if left_player then Game.right_score g else Game.right_score g + 1)%Z /\
  Game.winning_score g' = Game.winning_score g /\
  Game.left_paddle g' = Game.start_left_paddle /\
  Game.right_paddle g' = Game.start_right_paddle /\
  Game.ball g' =
    Ball.reset b3 (WINDOW_WIDTH / 2) (WINDOW_HEIGHT / 2) angle direction /\
  Game.state g' = (if won then Game.postgame else Game.state g) /\
  Game.player_log g' =
    (if won
     then Game.player_log g ++
          [(Game.player1_name g, Game.player2_name g,
            Game.left_score g', Game.right_score g')]
     else Game.player_log g).
Proof.
  intros g' won. subst g' won. unfold scored.
  destruct left_player;
    cbn [Game.set_ball Game.set_left_score Game.set_right_score
           Game.reset_round Game.set_left_paddle Game.set_right_paddle
           Game.winning_score Game.right_score Game.left_score Game.ball];
    destruct (_ <=? _)%Z; repeat split.
Qed.

(** X17. A frame played with both scores below the winning score counts at
    most one point, never takes one away and never lets a score pass the
    winning score: either the match goes on, both scores still below it
    and the log untouched, or one player has just reached it, the state is
    [postgame] and the log has grown by exactly the entry of this match. *)
Theorem update_score_invariant (g : Game.t) (dt angle : R) (direction : Z) :
  Game.state g = Game.playing ->
  Paddle.height (Game.left_paddle g) <> 0 ->
  Paddle.height (Game.right_paddle g) <> 0 ->
  (Game.left_score g < Game.winning_score g)%Z ->
  (Game.right_score g < Game.winning_score g)%Z ->
  exists g' : Game.t,
    Game.update g dt angle direction = Ok g' /\
    Game.winning_score g' = Game.winning_score g /\
    (Game.left_score g <= Game.left_score g')%Z /\
    (Game.right_score g <= Game.right_score g')%Z /\
    (Game.left_score g' + Game.right_score g'
     <= Game.left_score g + Game.right_score g + 1)%Z /\
    ((Game.state g' = Game.playing /\
      (Game.left_score g' < Game.winning_score g)%Z /\
      (Game.right_score g' < Game.winning_score g)%Z /\
      Game.player_log g' = Game.player_log g) \/
     (Game.state g' = Game.postgame /\
      (Game.left_score g' = Game.winning_score g \/
       Game.right_score g' = Game.winning_score g) /\
      (Game.left_score g' <= Game.winning_score g)%Z /\
      (Game.right_score g' <= Game.winning_score g)%Z /\
      Game.player_log g' =
        Game.player_log g ++
        [(Game.player1_name g, Game.player2_name g,
          Game.left_score g', Game.right_score g')])).
Proof.
  intros Hs Hl Hr Hls Hrs.
  destruct (check_collisions_steps (advanced_ball g dt) (Game.left_paddle g)
              (Game.right_paddle g) Hl Hr)
    as (b1 & b2 & b3 & f1 & f2 & f3 & _ & _ & _ & Hc).
  destruct (update_playing_cases g dt angle direction b3 _ Hs Hc)
    as [[_ E] | [[_ E] | [_ E]]]; rewrite E; eexists; (split; [reflexivity |]).
  - cbn [Game.set_ball Game.winning_score Game.left_score Game.right_score
           Game.state Game.player_log].
    split; [reflexivity |]. split; [lia |]. split; [lia |]. split; [lia |].
    left. repeat split; assumption.
  - destruct (scored_fields g b3 angle direction true)
      as (-> & -> & -> & _ & _ & _ & -> & ->).
    split; [reflexivity |]. split; [lia |]. split; [lia |]. split; [lia |].
    destruct (Z.leb_spec (Game.winning_score g) (Game.left_score g + 1)).
    + right. split; [reflexivity |]. split; [left; lia |].
      split; [lia |]. split; [lia |]. reflexivity.
    + left. split; [exact Hs |]. split; [lia |]. split; [lia |]. reflexivity.
  - destruct (scored_fields g b3 angle direction false)
      as (-> & -> & -> & _ & _ & _ & -> & ->).
    split; [reflexivity |]. split; [lia |]. split; [lia |]. split; [lia |].
    destruct (Z.leb_spec (Game.winning_score g) (Game.right_score g + 1)).
    + right. split; [reflexivity |]. split; [right; lia |].
      split; [lia |]. split; [lia |]. reflexivity.
    + left. split; [exact Hs |]. split; [lia |]. split; [lia |]. reflexivity.
Qed.

Lemma update_score_invariant_witness :
  exists g' : Game.t,
    Game.update (Game.set_state (Game.init []) Game.playing) (1 / 60) 0 1 = Ok g' /\
    (Game.left_score g' + Game.right_score g' <= 0 + 0 + 1)%Z.
Proof.
  destruct (update_score_invariant
              (Game.set_state (Game.init []) Game.playing) (1 / 60) 0 1
              eq_refl (proj1 start_paddle_heights) (proj2 start_paddle_heights)
              eq_refl eq_refl) as (g' & E & _ & _ & _ & H & _).
  exists g'. split; [exact E | exact H].
Defined.

(** X18. A frame in which the ball reaches a side ends the rally: the
    paddles are put back on their start positions, whatever they did, and
    the ball is served anew from the center of the board.  The point goes
    to the right player when the ball touches the left edge, and to the
    left player when it touches the right edge only. *)
Theorem scoring_frame_serves
  (g : Game.t) (dt angle : R) (direction : Z) (b3 : Ball.t)
  (flags : bool * bool * bool) :
  Game.state g = Game.playing ->
  Game.check_collisions (advanced_ball g dt) (Game.left_paddle g)
    (Game.right_paddle g) = Ok (b3, flags) ->
  Vector2D.x (Ball.position b3) - Ball.radius b3 <= 0 \/
  WINDOW_WIDTH <= Vector2D.x (Ball.position b3) + Ball.radius b3 ->
  exists g' : Game.t,
    Game.update g dt angle direction = Ok g' /\
    Game.left_paddle g' = Game.start_left_paddle /\
    Game.right_paddle g' = Game.start_right_paddle /\
    Game.ball g' =
      Ball.reset b3 (WINDOW_WIDTH / 2) (WINDOW_HEIGHT / 2) angle direction /\
    Ball.position (Game.ball g') = Vector2D.mk (WINDOW_WIDTH / 2) (WINDOW_HEIGHT / 2) /\
    (Vector2D.x (Ball.position b3) - Ball.radius b3 <= 0 ->
     Game.right_score g' = (Game.right_score g + 1)%Z /\
     Game.left_score g' = Game.left_score g) /\
    (0 < Vector2D.x (Ball.position b3) - Ball.radius b3 ->
     Game.left_score g' = (Game.left_score g + 1)%Z /\
     Game.right_score g' = Game.right_score g).
Proof.
  intros Hs Hc Hedge.
  assert (Hscore :
            (Vector2D.x (Ball.position b3) - Ball.radius b3 <= 0 /\
             snd (Ball.check_score b3) = Some "right"%string) \/
            (0 < Vector2D.x (Ball.position b3) - Ball.radius b3 /\
             snd (Ball.check_score b3) = Some "left"%string)).
  { unfold Ball.check_score.
    destruct (Rle_dec (Vector2D.x (Ball.position b3) - Ball.radius b3) 0);
      [left; split; [assumption | reflexivity] |].
    destruct (Rle_dec WINDOW_WIDTH (Vector2D.x (Ball.position b3) + Ball.radius b3));
      [right; split; [lra | reflexivity] |].
    destruct Hedge; contradiction. }
  destruct (update_playing_cases g dt angle direction b3 flags Hs Hc)
    as [[Hn E] | [[Hn E] | [Hn E]]];
    destruct Hscore as [[Hx Hsc] | [Hx Hsc]];
    rewrite Hsc in Hn; try discriminate Hn.
  - rewrite E. eexists. split; [reflexivity |].
    destruct (scored_fields g b3 angle direction true)
      as (-> & -> & _ & -> & -> & -> & _).
    repeat split; intros; lra.
  - rewrite E. eexists. split; [reflexivity |].
    destruct (scored_fields g b3 angle direction false)
      as (-> & -> & _ & -> & -> & -> & _).
    repeat split; intros; lra.
Qed.

Lemma check_collisions_clear (b : Ball.t) (l r : Paddle.t) :
  ~ Ball.distance b l <= Ball.radius b ->
  ~ Ball.distance b r <= Ball.radius b ->
  0 < Vector2D.y (Ball.position b) - Ball.radius b ->
  Vector2D.y (Ball.position b) + Ball.radius b < WINDOW_HEIGHT ->
  Game.check_collisions b l r = Ok (b, (false, false, false)).
Proof.
  intros Hl Hr Ht Hb. unfold Game.check_collisions.
  rewrite (check_paddle_collision_miss b l Hl). cbn [bind fst snd].
  rewrite (check_paddle_collision_miss b r Hr). cbn [bind fst snd].
  rewrite check_wall_collision_none by lra. reflexivity.
Qed.

Lemma edge_game_collisions :
  Game.check_collisions (advanced_ball edge_game 0) (Game.left_paddle edge_game)
    (Game.right_paddle edge_game)
  = Ok (advanced_ball edge_game 0, (false, false, false)).
Proof.
  assert (Hx : Vector2D.x (Ball.position (advanced_ball edge_game 0)) = 5).
  { unfold advanced_ball, edge_game, Game.init, Ball.update, Ball.init.
    cbn [Game.set_ball Game.set_state Game.ball Game.acceleration_toggle
           Game.game_speed_slider Game.ball_speed_slider
           Ball.set_acceleration_enabled Ball.set_velocity
           Ball.set_speed_multiplier Ball.set_position Ball.position
           Ball.velocity].
    unfold Vector2D.add, Vector2D.mul. cbn [Vector2D.x Vector2D.y]. ring. }
  assert (Hy : Vector2D.y (Ball.position (advanced_ball edge_game 0)) = 360).
  { unfold advanced_ball, edge_game, Game.init, Ball.update, Ball.init.
    cbn [Game.set_ball Game.set_state Game.ball Game.acceleration_toggle
           Game.game_speed_slider Game.ball_speed_slider
           Ball.set_acceleration_enabled Ball.set_velocity
           Ball.set_speed_multiplier Ball.set_position Ball.position
           Ball.velocity].
    unfold Vector2D.add, Vector2D.mul. cbn [Vector2D.x Vector2D.y]. ring. }
  assert (Hr : Ball.radius (advanced_ball edge_game 0) = 8) by reflexivity.
  apply check_collisions_clear.
  - intros H. apply reach_x_range in H.
    + rewrite Hx, Hr in H. cbn [edge_game Game.set_ball Game.set_state Game.init
                                 Game.left_paddle] in H.
      unfold Game.start_left_paddle, Paddle.init in H.
      cbn [Paddle.position Vector2D.x] in H. lra.
    + cbn. unfold Paddle.default_width. lra.
  - intros H. apply reach_x_range in H.
    + rewrite Hx, Hr in H. cbn [edge_game Game.set_ball Game.set_state Game.init
                                 Game.right_paddle] in H.
      unfold Game.start_right_paddle, Paddle.init, WINDOW_WIDTH in H.
      cbn [Paddle.position Vector2D.x] in H. lra.
    + cbn. unfold Paddle.default_width. lra.
  - rewrite Hy, Hr. lra.
  - rewrite Hy, Hr. unfold WINDOW_HEIGHT. lra.
Qed.

Lemma scoring_frame_serves_witness :
  exists g' : Game.t,
    Game.update edge_game 0 0 1 = Ok g' /\
    Game.right_score g' = 1%Z /\
    Game.left_paddle g' = Game.start_left_paddle.
Proof.
  assert (Hedge :
            Vector2D.x (Ball.position (advanced_ball edge_game 0))
            - Ball.radius (advanced_ball edge_game 0) <= 0 \/
            WINDOW_WIDTH <= Vector2D.x (Ball.position (advanced_ball edge_game 0))
                            + Ball.radius (advanced_ball edge_game 0)).
  { left. unfold advanced_ball, edge_game, Game.init, Ball.update, Ball.init,
      Ball.default_radius.
    cbn [Game.set_ball Game.set_state Game.ball Game.acceleration_toggle
           Game.game_speed_slider Game.ball_speed_slider
           Ball.set_acceleration_enabled Ball.set_velocity
           Ball.set_speed_multiplier Ball.set_position Ball.position
           Ball.velocity Ball.radius].
    unfold Vector2D.add, Vector2D.mul. cbn [Vector2D.x Vector2D.y]. lra. }
  destruct (scoring_frame_serves edge_game 0 0 1 _ _ eq_refl
              edge_game_collisions Hedge)
    as (g' & E & Hl & _ & _ & _ & Hright & _).
  exists g'. split; [exact E |].
  destruct Hedge as [Hx | Hx].
  - destruct (Hright Hx) as [-> _]. split; [reflexivity | exact Hl].
  - exfalso. revert Hx.
    unfold advanced_ball, edge_game, Game.init, Ball.update, Ball.init,
      Ball.default_radius, WINDOW_WIDTH.
    cbn [Game.set_ball Game.set_state Game.ball Game.acceleration_toggle
           Game.game_speed_slider Game.ball_speed_slider
           Ball.set_acceleration_enabled Ball.set_velocity
           Ball.set_speed_multiplier Ball.set_position Ball.position
           Ball.velocity Ball.radius].
    unfold Vector2D.add, Vector2D.mul. cbn [Vector2D.x Vector2D.y]. lra.
Defined.

(** X19. A quiet frame only moves the ball: when the advanced ball is out of
    reach of both paddles and clear of the walls and of the two scoring
    edges, [update] stores it and changes nothing else; its velocity is the
    one it had, its position has advanced by
    [velocity * (dt * game speed) * ball speed]. *)
Theorem quiet_frame_advances (g : Game.t) (dt angle : R) (direction : Z) :
  Game.state g = Game.playing ->
  let b := advanced_ball g dt in
  ~ Ball.distance b (Game.left_paddle g) <= Ball.radius b ->
  ~ Ball.distance b (Game.right_paddle g) <= Ball.radius b ->
  0 < Vector2D.y (Ball.position b) - Ball.radius b ->
  Vector2D.y (Ball.position b) + Ball.radius b < WINDOW_HEIGHT ->
  0 < Vector2D.x (Ball.position b) - Ball.radius b ->
  Vector2D.x (Ball.position b) + Ball.radius b < WINDOW_WIDTH ->
  Game.update g dt angle direction = Ok (Game.set_ball g b) /\
  Ball.velocity b = Ball.velocity (Game.ball g) /\
  Ball.position b =
    Vector2D.add (Ball.position (Game.ball g))
      (Vector2D.mul
         (Vector2D.mul (Ball.velocity (Game.ball g)) (dt * Game.game_speed_slider g))
         (Game.ball_speed_slider g)).
Proof.
  intros Hs b Hl Hr Ht Hb Hle Hre.
  pose proof (check_collisions_clear b _ _ Hl Hr Ht Hb) as Hc.
  destruct (update_playing_cases g dt angle direction b _ Hs Hc)
    as [[_ E] | [[Hn _] | [Hn _]]].
  - split; [exact E |]. split; reflexivity.
  - exfalso. revert Hn. unfold Ball.check_score.
    destruct (Rle_dec (Vector2D.x (Ball.position b) - Ball.radius b) 0); [lra |].
    destruct (Rle_dec WINDOW_WIDTH (Vector2D.x (Ball.position b) + Ball.radius b));
      [lra | discriminate].
  - exfalso. revert Hn. unfold Ball.check_score.
    destruct (Rle_dec (Vector2D.x (Ball.position b) - Ball.radius b) 0); [lra |].
    destruct (Rle_dec WINDOW_WIDTH (Vector2D.x (Ball.position b) + Ball.radius b));
      [lra | discriminate].
Qed.

Lemma quiet_frame_advances_witness :
  Game.update fresh_game (1 / 60) 0 1
  = Ok (Game.set_ball fresh_game (advanced_ball fresh_game (1 / 60))).
Proof.
  apply (quiet_frame_advances fresh_game (1 / 60) 0 1 eq_refl).
  - intros H. apply reach_x_range in H; revert H; unfold_advanced_ball; lra.
  - intros H. apply reach_x_range in H; revert H; unfold_advanced_ball; lra.
  - unfold_advanced_ball. lra.
  - unfold_advanced_ball. lra.
  - unfold_advanced_ball. lra.
  - unfold_advanced_ball. lra.
Defined.

Lemma check_paddle_collision_false (b b' : Ball.t) (p : Paddle.t) :
  Ball.check_paddle_collision b p = Ok (b', false) -> b' = b.
Proof.
  unfold Ball.check_paddle_collision.
  destruct (Rle_dec (Ball.distance b p) (Ball.radius b));
    [| intros H; injection H as <-; reflexivity].
  destruct (Ball.reflect_from_paddle b p); cbn [bind]; intros H; discriminate H.
Qed.

Lemma check_collisions_inv (b b3 : Ball.t) (l r : Paddle.t) (f3 : bool) :
  Game.check_collisions b l r = Ok (b3, (false, false, f3)) ->
  Ball.check_wall_collision b = Ok (b3, f3).
Proof.
  unfold Game.check_collisions.
  destruct (Ball.check_paddle_collision b l) as [[b1 f1] | e] eqn:E1;
    cbn [bind fst snd]; [| discriminate].
  destruct (Ball.check_paddle_collision b1 r) as [[b2 f2] | e] eqn:E2;
    cbn [bind fst snd]; [| discriminate].
  destruct (Ball.check_wall_collision b2) as [[b3' f3'] | e] eqn:E3;
    cbn [bind fst snd]; [| discriminate].
  intros H. injection H as Hb H1 H2 H3. subst b3' f1 f2 f3'.
  apply check_paddle_collision_false in E1. subst b1.
  apply check_paddle_collision_false in E2. subst b2.
  exact E3.
Qed.

(** X15. A frame without a paddle hit and without a score conserves the
    horizontal velocity and the speed: [update] stores a ball whose
    [velocity.x] is the one it had and whose [velocity.y] is unchanged, or
    exactly negated when the wall check reported a bounce. *)
Theorem frame_without_paddle_hit
  (g : Game.t) (dt angle : R) (direction : Z) (b3 : Ball.t) (wall : bool) :
  Game.state g = Game.playing ->
  Game.check_collisions (advanced_ball g dt) (Game.left_paddle g)
    (Game.right_paddle g) = Ok (b3, (false, false, wall)) ->
  snd (Ball.check_score b3) = None ->
  Game.update g dt angle direction = Ok (Game.set_ball g b3) /\
  Vector2D.x (Ball.velocity b3) = Vector2D.x (Ball.velocity (Game.ball g)) /\
  Vector2D.y (Ball.velocity b3) =
    (if wall then - Vector2D.y (Ball.velocity (Game.ball g))
     else Vector2D.y (Ball.velocity (Game.ball g))) /\
  Vector2D.magnitude (Ball.velocity b3)
  = Vector2D.magnitude (Ball.velocity (Game.ball g)).
Proof.
  intros Hs Hc Hn.
  split; [apply (proj2 (update_playing g dt angle direction b3 _ Hs Hc)); exact Hn |].
  apply check_collisions_inv in Hc.
  change (Ball.velocity (Game.ball g))
    with (Ball.velocity (advanced_ball g dt)).
  destruct (check_wall_collision_cases (advanced_ball g dt))
    as [[_ E] | [[_ [_ E]] | [_ [_ E]]]];
    rewrite E in Hc; injection Hc as <- <-;
    rewrite ?wall_bounced_magnitude; repeat split.
Qed.

Lemma wall_game_collisions :
  Game.check_collisions (advanced_ball wall_game 0) (Game.left_paddle wall_game)
    (Game.right_paddle wall_game)
  = Ok (wall_bounced (advanced_ball wall_game 0) 8, (false, false, true)).
Proof.
  assert (Hx : Vector2D.x (Ball.position (advanced_ball wall_game 0)) = 540).
  { unfold wall_game. unfold_advanced_ball. ring. }
  assert (Hy : Vector2D.y (Ball.position (advanced_ball wall_game 0)) = 5).
  { unfold wall_game. unfold_advanced_ball. ring. }
  assert (Hr : Ball.radius (advanced_ball wall_game 0) = 8) by reflexivity.
  unfold Game.check_collisions.
  rewrite check_paddle_collision_miss; cbn [bind fst snd].
  - rewrite check_paddle_collision_miss; cbn [bind fst snd].
    + rewrite check_wall_collision_top by (rewrite Hy, Hr; lra).
      reflexivity.
    + intros H. apply reach_x_range in H.
      * rewrite Hx, Hr in H. revert H. unfold wall_game. unfold_advanced_ball. lra.
      * unfold wall_game. unfold_advanced_ball. lra.
  - intros H. apply reach_x_range in H.
    + rewrite Hx, Hr in H. revert H. unfold wall_game. unfold_advanced_ball. lra.
    + unfold wall_game. unfold_advanced_ball. lra.
Qed.

(** The ball of [wall_game] comes off the top wall with its vertical
    velocity turned from -200 to 200. *)
Lemma frame_without_paddle_hit_witness :
  Vector2D.y (Ball.velocity (wall_bounced (advanced_ball wall_game 0) 8))
  = - Vector2D.y (Ball.velocity (Game.ball wall_game)) /\
  Vector2D.magnitude (Ball.velocity (wall_bounced (advanced_ball wall_game 0) 8))
  = Vector2D.magnitude (Ball.velocity (Game.ball wall_game)).
Proof.
  assert (Hn : snd (Ball.check_score
                      (wall_bounced (advanced_ball wall_game 0) 8)) = None).
  { unfold Ball.check_score, wall_bounced.
    cbn [Ball.position Ball.radius Vector2D.x].
    assert (Hx : Vector2D.x (Ball.position (advanced_ball wall_game 0)) = 540).
    { unfold wall_game. unfold_advanced_ball. ring. }
    rewrite Hx. change (Ball.radius (advanced_ball wall_game 0)) with 8.
    destruct (Rle_dec (540 - 8) 0); [lra |].
    destruct (Rle_dec WINDOW_WIDTH (540 + 8)); [unfold WINDOW_WIDTH in *; lra |].
    reflexivity. }
  destruct (frame_without_paddle_hit wall_game 0 0 1 _ _ eq_refl
              wall_game_collisions Hn) as (_ & _ & Hvy & Hm).
  split; [exact Hvy | exact Hm].
Defined.

(** The constants of a ball survive every method of the frame. *)
Lemma check_paddle_collision_constants
  (b b' : Ball.t) (p : Paddle.t) (f : bool) :
  Ball.check_paddle_collision b p = Ok (b', f) ->
  Ball.radius b' = Ball.radius b /\
  Ball.base_speed b' = Ball.base_speed b /\
  Ball.acceleration_factor b' = Ball.acceleration_factor b.
Proof.
  unfold Ball.check_paddle_collision.
  destruct (Rle_dec (Ball.distance b p) (Ball.radius b));
    [| intros H; injection H as <- _; repeat split].
  unfold Ball.reflect_from_paddle.
  destruct (Ball.normalized_offset b p) as [n | e]; cbn [bind];
    [| discriminate].
  cbn [Ball.set_velocity Ball.radius].
  destruct (Rlt_dec 0 (Ball.radius b - Ball.distance b p));
    intros H; injection H as <- _; repeat split.
Qed.

Lemma check_wall_collision_constants (b b' : Ball.t) (f : bool) :
  Ball.check_wall_collision b = Ok (b', f) ->
  Ball.radius b' = Ball.radius b /\
  Ball.base_speed b' = Ball.base_speed b /\
  Ball.acceleration_factor b' = Ball.acceleration_factor b.
Proof.
  destruct (check_wall_collision_cases b)
    as [[_ E] | [[_ [_ E]] | [_ [_ E]]]];
    rewrite E; intros H; injection H as <- _; repeat split.
Qed.

Lemma start_paddles_on_board :
  on_board Game.start_left_paddle /\ on_board Game.start_right_paddle.
Proof.
  unfold on_board, Game.start_left_paddle, Game.start_right_paddle, Paddle.init,
    Paddle.default_height, WINDOW_HEIGHT.
  cbn [Paddle.position Paddle.height Vector2D.y]. lra.
Qed.

Lemma well_formed_reset_round (g : Game.t) (angle : R) (direction : Z) :
  Ball.radius (Game.ball g) = 8 ->
  Ball.base_speed (Game.ball g) = 400 ->
  Ball.acceleration_factor (Game.ball g) = 105 / 100 ->
  well_formed (Game.reset_round g angle direction).
Proof.
  intros H1 H2 H3. destruct start_paddles_on_board as [Bl Br].
  unfold well_formed, Game.reset_round.
  cbn [Game.set_ball Game.set_left_paddle Game.set_right_paddle
         Game.left_paddle Game.right_paddle Game.ball].
  repeat split; try apply Bl; try apply Br; try assumption; reflexivity.
Qed.

Lemma well_formed_update (g : Game.t) (dt angle : R) (direction : Z) :
  well_formed g ->
  exists g' : Game.t,
    Game.update g dt angle direction = Ok g' /\ well_formed g'.
Proof.
  intros Hwf.
  destruct (Game.state g) eqn:Hs;
    try (exists g; split; [apply update_not_playing; rewrite Hs; discriminate
                          | exact Hwf]).
  destruct Hwf as (Lx & Rx & Lw & Rw & Lh & Rh & Lb & Rb & Br & Bs & Bf).
  destruct (check_collisions_steps (advanced_ball g dt) (Game.left_paddle g)
              (Game.right_paddle g) ltac:(lra) ltac:(lra))
    as (b1 & b2 & b3 & f1 & f2 & f3 & E1 & E2 & E3 & Hc).
  destruct (check_paddle_collision_constants _ _ _ _ E1) as (C1r & C1s & C1f).
  destruct (check_paddle_collision_constants _ _ _ _ E2) as (C2r & C2s & C2f).
  destruct (check_wall_collision_constants _ _ _ E3) as (C3r & C3s & C3f).
  assert (Hr3 : Ball.radius b3 = 8) by (rewrite C3r, C2r, C1r; exact Br).
  assert (Hs3 : Ball.base_speed b3 = 400) by (rewrite C3s, C2s, C1s; exact Bs).
  assert (Hf3 : Ball.acceleration_factor b3 = 105 / 100)
    by (rewrite C3f, C2f, C1f; exact Bf).
  destruct (update_playing_cases g dt angle direction b3 _ Hs Hc)
    as [[_ E] | [[_ E] | [_ E]]]; rewrite E; eexists; (split; [reflexivity |]).
  - unfold well_formed.
    cbn [Game.set_ball Game.left_paddle Game.right_paddle Game.ball].
    repeat split; try apply Lb; try apply Rb; assumption.
  - unfold well_formed.
    destruct (scored_fields g b3 angle direction true)
      as (_ & _ & _ & -> & -> & -> & _).
    apply (well_formed_reset_round (Game.set_ball g b3) angle direction);
      assumption.
  - unfold well_formed.
    destruct (scored_fields g b3 angle direction false)
      as (_ & _ & _ & -> & -> & -> & _).
    apply (well_formed_reset_round (Game.set_ball g b3) angle direction);
      assumption.
Qed.

(** X20. Every game reachable from [Game()] keeps its shape, so that
    [update] never raises on it: the paddles stay in their columns
    ([x = 50], [x = WINDOW_WIDTH - 65]) with the default size and on the
    board, the ball keeps radius 8, base speed 400 and factor 1.05.  This
    shape holds after [Game()], and [handle_input], [reset_round],
    [reset_game] and [update] preserve it. *)
Theorem well_formed_invariant :
  (forall logs : list Game.LogEntry, well_formed (Game.init logs)) /\
  (forall (g : Game.t) (keys : Game.Keys) (dt : R),
      well_formed g -> well_formed (Game.handle_input g keys dt)) /\
  (forall (g : Game.t) (angle : R) (direction : Z),
      well_formed g ->
      well_formed (Game.reset_round g angle direction) /\
      well_formed (Game.reset_game g angle direction)) /\
  (forall (g : Game.t) (dt angle : R) (direction : Z),
      well_formed g ->
      exists g' : Game.t,
        Game.update g dt angle direction = Ok g' /\ well_formed g').
Proof.
  split; [| split; [| split]].
  - intros logs. destruct start_paddles_on_board as [Bl Br].
    unfold well_formed, Game.init.
    cbn [Game.left_paddle Game.right_paddle Game.ball].
    repeat split; try apply Bl; try apply Br; reflexivity.
  - intros g keys dt (Lx & Rx & Lw & Rw & Lh & Rh & Lb & Rb & Br & Bs & Bf).
    destruct (handle_input_fields g keys dt) as (EL & ER & EB & _).
    assert (Hl : Paddle.height (Game.left_paddle g) <= WINDOW_HEIGHT)
      by (unfold WINDOW_HEIGHT; lra).
    assert (Hr : Paddle.height (Game.right_paddle g) <= WINDOW_HEIGHT)
      by (unfold WINDOW_HEIGHT; lra).
    assert (HL : forall d : Z,
               let p := Paddle.move (Game.left_paddle g) d dt
                          (Game.paddle_speed_slider g) in
               Vector2D.x (Paddle.position p) = 50 /\ Paddle.width p = 15 /\
               Paddle.height p = 100 /\ on_board p).
    { intros d p. subst p.
      destruct (paddle_move_fields (Game.left_paddle g) d dt
                  (Game.paddle_speed_slider g) Hl) as (-> & _ & -> & -> & _).
      repeat split; try assumption; apply paddle_move_on_board; exact Hl. }
    assert (HR : forall d : Z,
               let p := Paddle.move (Game.right_paddle g) d dt
                          (Game.paddle_speed_slider g) in
               Vector2D.x (Paddle.position p) = WINDOW_WIDTH - 65 /\
               Paddle.width p = 15 /\ Paddle.height p = 100 /\ on_board p).
    { intros d p. subst p.
      destruct (paddle_move_fields (Game.right_paddle g) d dt
                  (Game.paddle_speed_slider g) Hr) as (-> & _ & -> & -> & _).
      repeat split; try assumption; apply paddle_move_on_board; exact Hr. }
    unfold well_formed. rewrite EL, ER, EB.
    destruct (HL (-1)%Z) as (? & ? & ? & ?). destruct (HL 1%Z) as (? & ? & ? & ?).
    destruct (HR (-1)%Z) as (? & ? & ? & ?). destruct (HR 1%Z) as (? & ? & ? & ?).
    destruct (Game.K_w keys), (Game.K_s keys), (Game.K_UP keys),
      (Game.K_DOWN keys);
      repeat match goal with
             | |- _ /\ _ => split
             end; assumption.
  - intros g angle direction (_ & _ & _ & _ & _ & _ & _ & _ & Br & Bs & Bf).
    split.
    + apply well_formed_reset_round; assumption.
    + unfold Game.reset_game. apply well_formed_reset_round; assumption.
  - intros g dt angle direction. apply well_formed_update.
Qed.

Lemma well_formed_invariant_witness :
  exists g' : Game.t,
    Game.update
      (Game.handle_input (Game.init []) (Game.mkKeys true false false true) (1 / 60))
      (1 / 60) 0 1 = Ok g' /\
    well_formed g'.
Proof.
  destruct well_formed_invariant as (Hinit & Hinput & _ & Hupdate).
  apply Hupdate. apply Hinput. apply Hinit.
Defined.

(** * The match log *)

Lemma py_slice_from_suffix {A : Type} (l : list A) (start : Z) :
  exists older : list A, l = older ++ py_slice_from l start.
Proof.
  unfold py_slice_from. eexists. symmetry. apply firstn_skipn.
Qed.

Lemma py_slice_from_last {A : Type} (l : list A) (count : Z) :
  (1 <= count)%Z ->
  py_slice_from l (- count)
  = skipn (Z.to_nat (Z.max (Z.of_nat (List.length l) - count) 0)) l /\
  Z.of_nat (List.length (py_slice_from l (- count)))
  = Z.min count (Z.of_nat (List.length l)).
Proof.
  intros Hc. unfold py_slice_from.
  destruct (Z.ltb_spec (- count) 0) as [_ | H]; [| lia].
  replace (- count + Z.of_nat (List.length l))%Z
    with (Z.of_nat (List.length l) - count)%Z by lia.
  split; [reflexivity |].
  rewrite length_skipn. lia.
Qed.

(** X21. [get_recent_logs(count)] returns a tail end of the log, in log
    order: for [count >= 1] the last [count] lines, or all of them when
    there are fewer.  Asked for [count = 0] lines it returns the whole log,
    not the empty list. *)
Theorem get_recent_logs_tail (self : PlayerLog.t) (count : Z) :
  let recent := PlayerLog.get_recent_logs self count in
  (exists older : list string, PlayerLog.logs self = older ++ recent) /\
  ((1 <= count)%Z ->
   Z.of_nat (List.length recent)
   = Z.min count (Z.of_nat (List.length (PlayerLog.logs self)))) /\
  (count = 0%Z -> recent = PlayerLog.logs self).
Proof.
  intros recent. subst recent. unfold PlayerLog.get_recent_logs.
  destruct (Z.ltb_spec 0 (Z.of_nat (List.length (PlayerLog.logs self))))
    as [Hn | Hn].
  - split; [apply py_slice_from_suffix |]. split.
    + intros Hc. apply py_slice_from_last. exact Hc.
    + intros ->. unfold py_slice_from. cbn [Z.opp Z.ltb Z.compare].
      rewrite Z.min_l by lia. reflexivity.
  - assert (E : PlayerLog.logs self = []).
    { destruct (PlayerLog.logs self); [reflexivity | cbn [List.length] in Hn; lia]. }
    rewrite E. split; [exists []; reflexivity |].
    split; [intros Hc; cbn [List.length]; lia | reflexivity].
Qed.

Lemma get_recent_logs_tail_witness :
  Z.of_nat (List.length
              (PlayerLog.get_recent_logs
                 (PlayerLog.mk ["a"; "b"; "c"]%string) 2)) = 2%Z /\
  PlayerLog.get_recent_logs (PlayerLog.mk ["a"; "b"; "c"]%string) 0
  = ["a"; "b"; "c"]%string.
Proof.
  destruct (get_recent_logs_tail (PlayerLog.mk ["a"; "b"; "c"]%string) 2)
    as (_ & H2 & _).
  destruct (get_recent_logs_tail (PlayerLog.mk ["a"; "b"; "c"]%string) 0)
    as (_ & _ & H0).
  split; [rewrite H2 by lia; reflexivity | apply H0; reflexivity].
Defined.

(** X22. [add_log] appends one line, ["{name1} vs {name2}: {left}-{right}"],
    and keeps every earlier line; the new line is the last of
    [get_recent_logs(count)] for every [count >= 1], and the only one for
    [count = 1]. *)
Theorem add_log_is_most_recent
  (self : PlayerLog.t) (player1_name player2_name : string)
  (left_score right_score : Z) (count : Z) :
  let entry :=
    PlayerLog.log_entry player1_name player2_name left_score right_score in
  let self' :=
    PlayerLog.add_log self player1_name player2_name left_score right_score in
  PlayerLog.logs self' = PlayerLog.logs self ++ [entry] /\
  PlayerLog.get_recent_logs self' 1 = [entry] /\
  ((1 <= count)%Z ->
   exists earlier : list string,
     PlayerLog.get_recent_logs self' count = earlier ++ [entry] /\
     exists older : list string, PlayerLog.logs self = older ++ earlier).
Proof.
  intros entry self'. subst self'. unfold PlayerLog.add_log.
  cbn [PlayerLog.logs].
  split; [reflexivity |].
  assert (Hgen : forall c : Z,
             (1 <= c)%Z ->
             PlayerLog.get_recent_logs
               (PlayerLog.mk (PlayerLog.logs self ++ [entry])) c
             = skipn (Z.to_nat
                        (Z.max (Z.of_nat (List.length (PlayerLog.logs self))
                                + 1 - c) 0))
                 (PlayerLog.logs self) ++ [entry]).
  { intros c Hc. unfold PlayerLog.get_recent_logs. cbn [PlayerLog.logs].
    rewrite length_app. cbn [List.length].
    destruct (Z.ltb_spec 0 (Z.of_nat (List.length (PlayerLog.logs self) + 1)))
      as [_ | H]; [| lia].
    rewrite (proj1 (py_slice_from_last _ c Hc)).
    rewrite length_app. cbn [List.length].
    replace (Z.of_nat (List.length (PlayerLog.logs self) + 1))
      with (Z.of_nat (List.length (PlayerLog.logs self)) + 1)%Z by lia.
    rewrite skipn_app.
    replace (Z.to_nat _ - List.length (PlayerLog.logs self))%nat with 0%nat by lia.
    reflexivity. }
  split.
  - rewrite Hgen by lia.
    replace (Z.to_nat _) with (List.length (PlayerLog.logs self)) by lia.
    rewrite skipn_all. reflexivity.
  - intros Hc. eexists. split; [apply Hgen; exact Hc |].
    eexists. symmetry. apply firstn_skipn.
Qed.

Lemma add_log_is_most_recent_witness :
  PlayerLog.get_recent_logs
    (PlayerLog.add_log (PlayerLog.mk ["Eve vs Dan: 2-5"%string])
       "Ann" "Bob" 5 3) 1
  = ["Ann vs Bob: 5-3"%string] /\
  exists earlier : list string,
    PlayerLog.get_recent_logs
      (PlayerLog.add_log (PlayerLog.mk ["Eve vs Dan: 2-5"%string])
         "Ann" "Bob" 5 3) 5
    = earlier ++ ["Ann vs Bob: 5-3"%string].
Proof.
  destruct (add_log_is_most_recent (PlayerLog.mk ["Eve vs Dan: 2-5"%string])
              "Ann" "Bob" 5 3 5) as (_ & H1 & H5).
  split; [exact H1 |].
  destruct H5 as (earlier & E & _); [lia |].
  exists earlier. exact E.
Defined.

(** * The sliders *)

Lemma update_handle_pos_Ok (s : Slider.t) :
  Slider.max_val s <> Slider.min_val s ->
  Slider.update_handle_pos s =
    Ok (Slider.set_handle_x s
          (IZR (Rect.x (Slider.rect s))
           + (Slider.value s - Slider.min_val s)
             / (Slider.max_val s - Slider.min_val s)
             * IZR (Rect.width (Slider.rect s)))).
Proof.
  intros H. unfold Slider.update_handle_pos. rewrite py_div_Ok by lra.
  reflexivity.
Qed.

Lemma update_handle_pos_Raise (s : Slider.t) :
  Slider.max_val s = Slider.min_val s ->
  Slider.update_handle_pos s = Raise ZeroDivisionError.
Proof.
  intros H. unfold Slider.update_handle_pos. rewrite H.
  replace (Slider.min_val s - Slider.min_val s) with 0 by ring.
  rewrite py_div_zero. reflexivity.
Qed.

(** X23. Dragging a slider of positive width with [min_val < max_val]: a
    mouse motion clamps the mouse's [x] to the track and sets the value to
    [min_val + (clamped x - rect.x) / rect.width * (max_val - min_val)],
    which lies in [[min_val, max_val]] and is [min_val] when the mouse is at
    or left of the track's left end; the result depends on the mouse
    position only through the clamped [x], so beyond an end of the track
    the slider behaves as at that end.  The handle is then placed by
    [update_handle_pos] from the new value. *)
Theorem slider_drag_value (s : Slider.t) (mouse_pos : Z * Z) (on_handle : bool) :
  Slider.dragging s = true ->
  (0 < Rect.width (Slider.rect s))%Z ->
  Slider.min_val s < Slider.max_val s ->
  let x0 := Rect.x (Slider.rect s) in
  let w := Rect.width (Slider.rect s) in
  let mouse_x := Z.max x0 (Z.min (fst mouse_pos) (x0 + w)) in
  exists s' : Slider.t,
    Slider.handle_event s Slider.MOUSEMOTION mouse_pos on_handle = Ok s' /\
    Slider.value s' =
      Slider.min_val s
      + IZR (mouse_x - x0) / IZR w * (Slider.max_val s - Slider.min_val s) /\
    Slider.min_val s <= Slider.value s' <= Slider.max_val s /\
    ((fst mouse_pos <= x0)%Z -> Slider.value s' = Slider.min_val s) /\
    (forall (y : Z) (on_handle' : bool),
        Slider.handle_event s Slider.MOUSEMOTION (mouse_x, y) on_handle' = Ok s') /\
    Slider.handle_x s' =
      IZR x0
      + (Slider.value s' - Slider.min_val s)
        / (Slider.max_val s - Slider.min_val s) * IZR w /\
    Slider.dragging s' = true /\
    Slider.rect s' = Slider.rect s /\
    Slider.min_val s' = Slider.min_val s /\
    Slider.max_val s' = Slider.max_val s.
Proof.
  intros Hd Hw Hmm x0 w mouse_x.
  assert (HwR : 0 < IZR w) by (apply IZR_lt; exact Hw).
  assert (Hcx : (0 <= mouse_x - x0 <= w)%Z) by (subst mouse_x; lia).
  assert (Hr0 : 0 <= IZR (mouse_x - x0)) by (apply IZR_le; lia).
  assert (Hr1 : IZR (mouse_x - x0) <= IZR w) by (apply IZR_le; lia).
  set (ratio := IZR (mouse_x - x0) / IZR w).
  assert (Hratio : 0 <= ratio <= 1).
  { subst ratio. split.
    - apply Rmult_le_pos; [exact Hr0 | left; apply Rinv_0_lt_compat; exact HwR].
    - apply (Rmult_le_reg_r (IZR w)); [exact HwR |].
      unfold Rdiv. rewrite Rmult_assoc, Rinv_l by lra. lra. }
  assert (Hidem : forall y : Z,
             Z.max x0 (Z.min (fst (mouse_x, y)) (x0 + w)) = mouse_x).
  { intros y. cbn [fst]. subst mouse_x. lia. }
  assert (Hev : forall (pos : Z * Z) (h : bool),
             Z.max x0 (Z.min (fst pos) (x0 + w)) = mouse_x ->
             Slider.handle_event s Slider.MOUSEMOTION pos h =
               Ok (Slider.set_handle_x
                     (Slider.set_value s
                        (Slider.min_val s
                         + ratio * (Slider.max_val s - Slider.min_val s)))
                     (IZR x0
                      + (Slider.min_val s
                         + ratio * (Slider.max_val s - Slider.min_val s)
                         - Slider.min_val s)
                        / (Slider.max_val s - Slider.min_val s) * IZR w))).
  { intros pos h E. unfold Slider.handle_event. rewrite Hd. fold x0 w. cbv zeta.
    rewrite E. rewrite py_div_Ok by lra. cbn [bind]. fold ratio.
    rewrite update_handle_pos_Ok
      by (cbn [Slider.set_value Slider.max_val Slider.min_val]; lra).
    reflexivity. }
  eexists. split; [apply Hev; reflexivity |].
  cbn [Slider.set_handle_x Slider.set_value Slider.value Slider.handle_x
         Slider.dragging Slider.rect Slider.min_val Slider.max_val].
  split; [reflexivity |].
  split; [nra |].
  split.
  { intros Hle. assert (E : (mouse_x - x0 = 0)%Z) by (subst mouse_x; lia).
    subst ratio. rewrite E. unfold Rdiv. ring. }
  split; [intros y h; apply Hev; apply Hidem |].
  repeat split. exact Hd.
Qed.

Lemma slider_drag_value_witness :
  exists s' : Slider.t,
    Slider.handle_event
      (Slider.mk (Rect.mk 390 440 300 20) (1 / 2) 2 1 true 10 490)
      Slider.MOUSEMOTION (200, 450)%Z false = Ok s' /\
    Slider.value s' = 1 / 2.
Proof.
  destruct (slider_drag_value
              (Slider.mk (Rect.mk 390 440 300 20) (1 / 2) 2 1 true 10 490)
              (200, 450)%Z false eq_refl eq_refl)
    as (s' & E & _ & _ & Hmin & _).
  - cbn [Slider.min_val Slider.max_val]. lra.
  - exists s'. split; [exact E |]. rewrite Hmin; [reflexivity |].
    cbn. lia.
Defined.

(** X24. A slider raises [ZeroDivisionError] in exactly two situations:
    when it is built, or dragged, with [max_val = min_val], and when it is
    dragged while its track has width 0.  Every other event, and every
    mouse motion while it is not being dragged, leaves it intact up to the
    [dragging] flag. *)
Theorem slider_raises_iff (s : Slider.t) (mouse_pos : Z * Z) (on_handle : bool) :
  (Slider.dragging s = true ->
   (Slider.handle_event s Slider.MOUSEMOTION mouse_pos on_handle
    = Raise ZeroDivisionError <->
    Rect.width (Slider.rect s) = 0%Z \/ Slider.max_val s = Slider.min_val s)) /\
  (forall event : Slider.EventType,
      event <> Slider.MOUSEMOTION \/ Slider.dragging s = false ->
      exists d : bool,
        Slider.handle_event s event mouse_pos on_handle
        = Ok (Slider.set_dragging s d)) /\
  (forall (x y width : Z) (min_val max_val initial_val : R),
      Slider.init x y width min_val max_val initial_val = Raise ZeroDivisionError
      <-> max_val = min_val).
Proof.
  split; [| split].
  - intros Hd. unfold Slider.handle_event. rewrite Hd. cbv zeta.
    destruct (Z.eq_dec (Rect.width (Slider.rect s)) 0) as [Hw | Hw].
    + rewrite Hw. rewrite py_div_zero. cbn [bind].
      split; [intros _; left; reflexivity | reflexivity].
    + rewrite py_div_Ok by (intros E; apply eq_IZR_R0 in E; contradiction).
      cbn [bind].
      destruct (Req_dec_T (Slider.max_val s) (Slider.min_val s)) as [Hm | Hm].
      * rewrite update_handle_pos_Raise by exact Hm.
        split; [intros _; right; exact Hm | reflexivity].
      * rewrite update_handle_pos_Ok by exact Hm.
        split; [discriminate | intros [E | E]; contradiction].
  - intros event Hev. unfold Slider.handle_event.
    assert (Hself : Slider.set_dragging s (Slider.dragging s) = s)
      by (destruct s; reflexivity).
    destruct event.
    + destruct on_handle; [exists true; reflexivity |].
      exists (Slider.dragging s). rewrite Hself. reflexivity.
    + exists false. reflexivity.
    + destruct Hev as [Hev | Hev]; [contradiction |]. rewrite Hev.
      exists false. rewrite <- Hself at 1. rewrite Hev. reflexivity.
    + exists (Slider.dragging s). rewrite Hself. reflexivity.
  - intros x y width mn mx v. unfold Slider.init.
    destruct (Req_dec_T mx mn) as [Hm | Hm].
    + rewrite update_handle_pos_Raise by exact Hm. tauto.
    + rewrite update_handle_pos_Ok by exact Hm.
      split; [discriminate | contradiction].
Qed.

Lemma slider_raises_iff_witness :
  Slider.handle_event
    (Slider.mk (Rect.mk 390 440 0 20) (1 / 2) 2 1 true 10 390)
    Slider.MOUSEMOTION (400, 450)%Z false = Raise ZeroDivisionError.
Proof.
  apply (proj1 (slider_raises_iff
                  (Slider.mk (Rect.mk 390 440 0 20) (1 / 2) 2 1 true 10 390)
                  (400, 450)%Z false) eq_refl).
  left. reflexivity.
Defined.

(** * The start menu *)

Lemma string_length_append (s u : string) :
  String.length (s ++ u) = (String.length s + String.length u)%nat.
Proof.
  induction s as [| c s IH]; cbn [String.append String.length];
    [reflexivity | rewrite IH; reflexivity].
Qed.

Lemma py_drop_last_length (s : string) :
  String.length (py_drop_last s) = pred (String.length s).
Proof.
  induction s as [| c s IH]; [reflexivity |].
  destruct s as [| c' s']; [reflexivity |].
  change (py_drop_last (String c (String c' s')))
    with (String c (py_drop_last (String c' s'))).
  cbn [String.length] in *. rewrite IH. reflexivity.
Qed.

Lemma py_drop_last_append (s : string) (c : ascii) :
  py_drop_last (s ++ String c EmptyString) = s.
Proof.
  induction s as [| c0 s IH]; [reflexivity |].
  cbn [String.append].
  destruct (s ++ String c EmptyString)%string as [| c1 s1] eqn:E.
  - destruct s; discriminate E.
  - change (py_drop_last (String c0 (String c1 s1)))
      with (String c0 (py_drop_last (String c1 s1))).
    rewrite IH. reflexivity.
Qed.

(** X25. The two player names never grow beyond 15 characters: if both are
    at most 15 long and a key press carries at most one character, they are
    at most 15 long after [handle_event], whatever the event. *)
Theorem start_menu_names_bounded
  (m : StartMenu.t) (event : StartMenu.Event) (mouse_pos : Z * Z) :
  (String.length (StartMenu.player1_name m) <= 15)%nat ->
  (String.length (StartMenu.player2_name m) <= 15)%nat ->
  (forall (key : StartMenu.Key) (unicode : string) (isprintable : bool),
      event = StartMenu.KEYDOWN key unicode isprintable ->
      (String.length unicode <= 1)%nat) ->
  let m' := fst (StartMenu.handle_event m event mouse_pos) in
  (String.length (StartMenu.player1_name m') <= 15)%nat /\
  (String.length (StartMenu.player2_name m') <= 15)%nat.
Proof.
  intros H1 H2 Hu m'. subst m'.
  assert (Hu' : forall key unicode isprintable,
             event = StartMenu.KEYDOWN key unicode isprintable ->
             (String.length unicode <= 1)%nat) by exact Hu.
  clear Hu. revert Hu'.
  start_menu_cases; intros Hu;
    rewrite ?py_drop_last_length, ?string_length_append;
    try (split; lia);
    repeat match goal with
           | H : (_ && _)%bool = true |- _ => apply andb_prop in H; destruct H
           | H : (_ <? _)%nat = true |- _ => apply Nat.ltb_lt in H
           end;
    match goal with
    | |- context [String.length ?u] =>
        pose proof (Hu _ u _ eq_refl)
    end; split; lia.
Qed.

Lemma start_menu_names_bounded_witness :
  (String.length
     (StartMenu.player1_name
        (fst (StartMenu.handle_event
                (StartMenu.set_inputs_active
                   (StartMenu.set_player1_name StartMenu.init "ABCDEFGHIJKLMNO")
                   true false)
                (StartMenu.KEYDOWN StartMenu.K_OTHER "P" true) (0, 0)%Z)))
   <= 15)%nat.
Proof.
  apply (start_menu_names_bounded
           (StartMenu.set_inputs_active
              (StartMenu.set_player1_name StartMenu.init "ABCDEFGHIJKLMNO")
              true false)
           (StartMenu.KEYDOWN StartMenu.K_OTHER "P" true) (0, 0)%Z).
  - cbn. lia.
  - cbn. lia.
  - intros key unicode isprintable E. injection E as _ <- _. cbn. lia.
Defined.

(** X26. [handle_event] returns [None], ['start'] or ['exit'].  It returns
    ['start'] only outside the settings page, only for a mouse click or the
    Return key, and only when both player names are non-empty; the event
    that starts the game does not change the names.  On the settings page
    no event starts or leaves the game or edits a name. *)
Theorem start_requires_names
  (m : StartMenu.t) (event : StartMenu.Event) (mouse_pos : Z * Z) :
  let m' := fst (StartMenu.handle_event m event mouse_pos) in
  let answer := snd (StartMenu.handle_event m event mouse_pos) in
  (answer = None \/ answer = Some "start"%string \/ answer = Some "exit"%string) /\
  (answer = Some "start"%string ->
   StartMenu.show_settings m = false /\
   (0 < String.length (StartMenu.player1_name m))%nat /\
   (0 < String.length (StartMenu.player2_name m))%nat /\
   StartMenu.player1_name m' = StartMenu.player1_name m /\
   StartMenu.player2_name m' = StartMenu.player2_name m /\
   (event = StartMenu.MOUSEBUTTONDOWN \/
    exists (unicode : string) (isprintable : bool),
      event = StartMenu.KEYDOWN StartMenu.K_RETURN unicode isprintable)) /\
  (StartMenu.show_settings m = true ->
   answer = None /\
   StartMenu.player1_name m' = StartMenu.player1_name m /\
   StartMenu.player2_name m' = StartMenu.player2_name m).
Proof.
  intros m' answer. subst m' answer.
  split; [| split].
  - start_menu_cases; auto.
  - start_menu_cases; intros Hst; try discriminate Hst;
      repeat match goal with
             | H : (_ && _)%bool = true |- _ => apply andb_prop in H; destruct H
             | H : (_ <? _)%nat = true |- _ => apply Nat.ltb_lt in H
             end;
      repeat split; try assumption; try reflexivity;
      try (left; reflexivity); try (right; eauto).
  - intros Hs. unfold StartMenu.handle_event. rewrite Hs.
    unfold Button.is_clicked.
    destruct event;
      repeat match goal with
             | |- context [if ?c then _ else _] => destruct c eqn:?
             end; repeat split.
Qed.

Lemma start_requires_names_witness :
  StartMenu.show_settings
    (StartMenu.set_inputs_active
       (StartMenu.set_player2_name
          (StartMenu.set_player1_name StartMenu.init "Ann") "Bob")
       false true) = false /\
  (0 < String.length "Ann")%nat.
Proof.
  destruct (start_requires_names
              (StartMenu.set_inputs_active
                 (StartMenu.set_player2_name
                    (StartMenu.set_player1_name StartMenu.init "Ann") "Bob")
                 false true)
              (StartMenu.KEYDOWN StartMenu.K_RETURN "" false) (0, 0)%Z)
    as (_ & Hstart & _).
  destruct (Hstart eq_refl) as (H1 & H2 & _).
  split; [exact H1 | exact H2].
Defined.

(** X27. Editing a name in the active input box: a printable character
    typed while the name is shorter than 15 is appended, and Backspace then
    gives the old name back; Backspace removes the last character and leaves
    an empty name empty; at 15 characters, or for a character that is not
    printable, a key press changes nothing. *)
Theorem name_editing
  (m : StartMenu.t) (c : ascii) (unicode : string) (isprintable : bool)
  (pos pos' : Z * Z) :
  StartMenu.show_settings m = false ->
  StartMenu.input1_active m = true ->
  let name := StartMenu.player1_name m in
  let typed :=
    fst (StartMenu.handle_event m
           (StartMenu.KEYDOWN StartMenu.K_OTHER (String c EmptyString) true) pos) in
  let erased :=
    fst (StartMenu.handle_event m
           (StartMenu.KEYDOWN StartMenu.K_BACKSPACE unicode isprintable) pos) in
  ((String.length name < 15)%nat ->
   StartMenu.player1_name typed = (name ++ String c EmptyString)%string /\
   StartMenu.player1_name
     (fst (StartMenu.handle_event typed
             (StartMenu.KEYDOWN StartMenu.K_BACKSPACE unicode isprintable) pos'))
   = name) /\
  String.length (StartMenu.player1_name erased) = pred (String.length name) /\
  (exists last : string,
      (String.length last <= 1)%nat /\
      name = (StartMenu.player1_name erased ++ last)%string) /\
  ((15 <= String.length name)%nat \/ isprintable = false ->
   StartMenu.handle_event m
     (StartMenu.KEYDOWN StartMenu.K_OTHER unicode isprintable) pos = (m, None)).
Proof.
  intros Hs Ha name typed erased. subst name typed erased.
  unfold StartMenu.handle_event. rewrite Hs, Ha.
  cbn [fst StartMenu.set_player1_name StartMenu.player1_name].
  split; [| split; [| split]].
  - intros Hlen. apply Nat.ltb_lt in Hlen. rewrite Hlen. cbn [andb fst].
    cbn [StartMenu.set_player1_name StartMenu.player1_name
           StartMenu.show_settings StartMenu.input1_active].
    rewrite Hs, Ha. cbn [fst StartMenu.set_player1_name StartMenu.player1_name].
    split; [reflexivity | apply py_drop_last_append].
  - apply py_drop_last_length.
  - induction (StartMenu.player1_name m) as [| c0 s IH].
    + exists EmptyString. split; [cbn; lia | reflexivity].
    + destruct s as [| c1 s1].
      * exists (String c0 EmptyString). split; [cbn; lia | reflexivity].
      * destruct IH as (last & Hl & E). exists last. split; [exact Hl |].
        change (py_drop_last (String c0 (String c1 s1)))
          with (String c0 (py_drop_last (String c1 s1))).
        cbn [String.append]. rewrite <- E. reflexivity.
  - intros [Hlen | Hp].
    + apply Nat.ltb_ge in Hlen. rewrite Hlen. reflexivity.
    + rewrite Hp, andb_false_r. reflexivity.
Qed.

Lemma name_editing_witness :
  StartMenu.player1_name
    (fst (StartMenu.handle_event
            (StartMenu.set_inputs_active
               (StartMenu.set_player1_name StartMenu.init "An") true false)
            (StartMenu.KEYDOWN StartMenu.K_OTHER "n" true) (0, 0)%Z))
  = "Ann"%string.
Proof.
  destruct (name_editing
              (StartMenu.set_inputs_active
                 (StartMenu.set_player1_name StartMenu.init "An") true false)
              "n"%char "" false (0, 0)%Z (0, 0)%Z eq_refl eq_refl)
    as (Htype & _).
  destruct Htype as [E _]; [cbn; lia | exact E].
Defined.
